(** * Share price tracker: the USSD menu, the subscriber table and the
      market notifications

    A shallow embedding of [app.py], [db.py], of the notifications and the
    scheduler loop of [wen.py], and of the reply handling and the saving
    of [scraper.py], with the properties of the specification proved (or
    refuted) on it, and further properties of the code.

    Modelling conventions.
    - A Python [str] is the [string] of the bytes of its UTF-8 encoding.
      Equality, [split] on ["*"], [startswith] and [join] are then those of
      Python on every text.  [int], [isdigit], [lower] and [capitalize] are
      those of Python on ASCII text ([isascii]); on other text Python also
      knows the digits, the white space and the capitals of Unicode, which
      the functions here do not.  Where a statement rests on what they
      answer for an arbitrary text (an entry that is refused, a name that
      has no match), it assumes the text ASCII.
    - The [subscribers] table of [db.py] is the list of its rows in
      insertion order; the [PRIMARY KEY] on [phone_number] is the check made
      by [add_subscriber].  The column [subscribed_stocks] holds the JSON
      text of a list of strings, written only by [json.dumps] and read only
      by [json.loads]; it is kept as the list itself.
    - A catalog entry is the JSON object [{"name": str, "price": number}].
      The price is only ever rendered with the format [.2f]; its type and
      that rendering are parameters of the development.  Nothing in the
      program checks that form: the module [Raw] has the request handler
      on entries that lack a key or hold a price that is no number, with
      the [KeyError] and the [TypeError] that follow, and agrees with the
      typed handler where the entries are well formed.
    - Python exceptions are explicit: a computation returns a value or
      raises, and [try ... except ValueError] is a combinator.  The calls
      of sqlite are taken to succeed.
    - The scheduler is one turn of its loop as a function of the time read
      from the clock; what it does to the world is the log of the messages
      handed to [sms.send] and of the calls of the scraper.
    - The reply of the model, the parser [json.loads] and the fate of a
      write to disk are parameters: the scraper is modelled from the reply
      on. *)

From Stdlib Require Import ZArith Ascii String DecimalString.
From stdpp Require Import base option list strings gmap.

Local Open Scope Z_scope.

(** ** Python strings *)

Module PyStr.

Definition nl : string := String "010"%char EmptyString.

(** The white space that [int] skips: tab, line feed, vertical tab, form
    feed, carriage return and space. *)
Definition is_space (c : ascii) : bool :=
  let n := nat_of_ascii c in
  (((9 <=? n) && (n <=? 13)) || (n =? 32))%nat.

Definition digit_of (c : ascii) : option Z :=
  let n := nat_of_ascii c in
  if ((48 <=? n) && (n <=? 57))%nat then Some (Z.of_nat (n - 48)) else None.

Definition lower_char (c : ascii) : ascii :=
  let n := nat_of_ascii c in
  if ((65 <=? n) && (n <=? 90))%nat then ascii_of_nat (n + 32) else c.

(** [s.lower()] *)
Fixpoint lower (s : string) : string :=
  match s with
  | EmptyString => EmptyString
  | String c s' => String (lower_char c) (lower s')
  end.

Definition upper_char (c : ascii) : ascii :=
  let n := nat_of_ascii c in
  if ((97 <=? n) && (n <=? 122))%nat then ascii_of_nat (n - 32) else c.

(** [s.capitalize()] *)
Definition capitalize (s : string) : string :=
  match s with
  | EmptyString => EmptyString
  | String c s' => String (upper_char c) (lower s')
  end.

Fixpoint all_digits (s : string) : bool :=
  match s with
  | EmptyString => true
  | String c s' => bool_decide (is_Some (digit_of c)) && all_digits s'
  end.

(** [s.isdigit()] *)
Definition isdigit (s : string) : bool :=
  match s with
  | EmptyString => false
  | _ => all_digits s
  end.

(** [s.isascii()]: every character is below 128 *)
Fixpoint isascii (s : string) : bool :=
  match s with
  | EmptyString => true
  | String c s' => (nat_of_ascii c <? 128)%nat && isascii s'
  end.

(** [s.startswith(p)] *)
Fixpoint startswith (s p : string) {struct p} : bool :=
  match p, s with
  | EmptyString, _ => true
  | String a p', String b s' => Ascii.eqb a b && startswith s' p'
  | String _ _, EmptyString => false
  end.

(** [s.split(sep)] for a one-character separator *)
Fixpoint split (sep : ascii) (s : string) : list string :=
  match s with
  | EmptyString => [EmptyString]
  | String c s' =>
      if Ascii.eqb c sep then EmptyString :: split sep s'
      else match split sep s' with
           | [] => [String c EmptyString]
           | p :: ps => String c p :: ps
           end
  end.

(** [sep.join(l)] *)
Fixpoint join (sep : string) (l : list string) : string :=
  match l with
  | [] => EmptyString
  | [x] => x
  | x :: rest => x +:+ sep +:+ join sep rest
  end.

(** [str(n)] for a natural number *)
Definition str (n : nat) : string := NilZero.string_of_uint (Nat.to_uint n).

Fixpoint lstrip (s : string) : string :=
  match s with
  | EmptyString => EmptyString
  | String c s' => if is_space c then lstrip s' else s
  end.

Fixpoint rstrip (s : string) : string :=
  match s with
  | EmptyString => EmptyString
  | String c s' =>
      match rstrip s' with
      | EmptyString => if is_space c then EmptyString else String c EmptyString
      | r => String c r
      end
  end.

(** The text without the white space that [int] skips at its ends. *)
Definition strip (s : string) : string := rstrip (lstrip s).

(** [c in s] for a character *)
Fixpoint occurs (c : ascii) (s : string) : bool :=
  match s with
  | EmptyString => false
  | String c' s' => Ascii.eqb c' c || occurs c s'
  end.

(** The characters an [int] literal is made of. *)
Definition int_char (c : ascii) : bool :=
  is_space c || bool_decide (is_Some (digit_of c)) ||
  Ascii.eqb c "+" || Ascii.eqb c "-" || Ascii.eqb c "_".

(** The digits of a decimal literal: digits with single underscores
    between them.  Returns the value and the number of digits. *)
Fixpoint digits_go (acc : Z) (count : nat) (after_digit : bool)
    (s : string) : option (Z * nat) :=
  match s with
  | EmptyString => if after_digit then Some (acc, count) else None
  | String c s' =>
      match digit_of c with
      | Some d => digits_go (10 * acc + d) (S count) true s'
      | None =>
          if Ascii.eqb c "_" && after_digit
          then digits_go acc count false s'
          else None
      end
  end.

(** [int(s)]: [None] is [ValueError].  [max_str_digits] is the
    interpreter's limit on the number of digits of a decimal literal
    ([sys.get_int_max_str_digits()], 0 when there is none); CPython
    applies it to literals of more than 640 digits. *)
Definition int (max_str_digits : nat) (s : string) : option Z :=
  let t := strip s in
  let '(sign, body) :=
    match t with
    | String "+" r => (1, r)
    | String "-" r => (-1, r)
    | _ => (1, t)
    end in
  match digits_go 0 0 false body with
  | Some (v, n) =>
      if ((640 <? n) && (0 <? max_str_digits) && (max_str_digits <? n))%nat
      then None
      else Some (sign * v)
  | None => None
  end.

(** [l[i]]: [None] is [IndexError] *)
Definition getitem {A} (l : list A) (i : Z) : option A :=
  let n := Z.of_nat (length l) in
  if (0 <=? i) && (i <? n) then l !! Z.to_nat i
  else if (- n <=? i) && (i <? 0) then l !! Z.to_nat (n + i)
  else None.

(** [l.pop(i)]: the element and the list without it *)
Definition pop {A} (l : list A) (i : Z) : option (A * list A) :=
  let n := Z.of_nat (length l) in
  let j := if i <? 0 then n + i else i in
  if (0 <=? j) && (j <? n)
  then x ← l !! Z.to_nat j; Some (x, delete (Z.to_nat j) l)
  else None.

End PyStr.

Import PyStr.

(** ** Exceptions and state *)

Inductive exn := ValueError | IndexError | KeyError | TypeError.

Inductive outcome (A : Type) :=
  | Return (a : A)
  | Raise (e : exn).
Arguments Return {A} a.
Arguments Raise {A} e.

#[export] Instance exn_eq_dec : EqDecision exn.
Proof. solve_decision. Defined.

(** The truth value of a list: [not l] *)
Definition is_empty {A} (l : list A) : bool :=
  match l with
  | [] => true
  | _ :: _ => false
  end.

(** A row of the table [subscribers] of [db.py]. The two flags are the
    [INTEGER] columns, 1 for true and 0 for false. *)
Record Row := {
  phone_number : string;
  subscribed_stocks : list string;
  market_open_notify : Z;
  market_close_notify : Z
}.

(** The two preference columns [update_notification_preference] is called
    with. *)
Inductive preference_type := Market_open_notify | Market_close_notify.

(** ** The SQL statements of db.py on the list of rows *)

(** The first row of [SELECT * ... WHERE phone_number = ?] *)
Definition fetchone (phone : string) (t : list Row) : option Row :=
  head (filter (λ r, phone_number r = phone) t).

(** [UPDATE ... WHERE phone_number = ?]: every matching row is rewritten *)
Definition update_where (phone : string) (f : Row → Row) (t : list Row)
    : list Row :=
  (λ r, if decide (phone_number r = phone) then f r else r) <$> t.

(** [DELETE ... WHERE phone_number = ?] *)
Definition delete_where (phone : string) (t : list Row) : list Row :=
  filter (λ r, phone_number r ≠ phone) t.

(** [SET subscribed_stocks = ?] *)
Definition set_stocks (stocks : list string) (r : Row) : Row :=
  {| phone_number := phone_number r;
     subscribed_stocks := stocks;
     market_open_notify := market_open_notify r;
     market_close_notify := market_close_notify r |}.

(** [SET market_open_notify = ?] or [SET market_close_notify = ?] *)
Definition set_preference (p : preference_type) (value : Z) (r : Row) : Row :=
  match p with
  | Market_open_notify =>
      {| phone_number := phone_number r;
         subscribed_stocks := subscribed_stocks r;
         market_open_notify := value;
         market_close_notify := market_close_notify r |}
  | Market_close_notify =>
      {| phone_number := phone_number r;
         subscribed_stocks := subscribed_stocks r;
         market_open_notify := market_open_notify r;
         market_close_notify := value |}
  end.

(** The row written by [add_subscriber]: the list ["[]"] and the columns'
    defaults. *)
Definition new_row (phone : string) : Row :=
  {| phone_number := phone; subscribed_stocks := [];
     market_open_notify := 0; market_close_notify := 0 |}.

Section Tracker.

(** The type of a price and its rendering with the format [.2f]. *)
Context {Price : Type} (format_2f : Price → string).
(** The interpreter's limit on the digits of an [int] literal. *)
Context (max_str_digits : nat).

Record Stock := { name : string; price : Price }.

(** What a request can read and write: the table of [db.py], the module
    variable [CURRENT_STOCKS_DATA] of [app.py], and the list that
    [load_stocks_data] reads from the file [STOCKS_JSON_FILE] (empty when
    the file is missing, empty or malformed). *)
Record World := {
  subscribers : list Row;
  CURRENT_STOCKS_DATA : list Stock;
  STOCKS_JSON_FILE : list Stock
}.

Definition Py (A : Type) : Type := World → outcome A * World.

#[export] Instance Py_ret : MRet Py := λ A a w, (Return a, w).
#[export] Instance Py_bind : MBind Py := λ A B f m w,
  match m w with
  | (Return a, w') => f a w'
  | (Raise e, w') => (Raise e, w')
  end.

Definition gets {A} (f : World → A) : Py A := λ w, (Return (f w), w).
Definition modify (f : World → World) : Py unit := λ w, (Return (), f w).
Definition raise {A} (e : exn) : Py A := λ w, (Raise e, w).

(** A partial operation that raises [e] where it is undefined. *)
Definition or_raise {A} (e : exn) (o : option A) : Py A :=
  match o with
  | Some a => mret a
  | None => raise e
  end.

(** [try: body / except e: handler] *)
Definition try_except {A} (e : exn) (body handler : Py A) : Py A := λ w,
  match body w with
  | (Raise e', w') => if decide (e' = e) then handler w' else (Raise e', w')
  | r => r
  end.

Definition set_subscribers (t : list Row) (w : World) : World :=
  {| subscribers := t;
     CURRENT_STOCKS_DATA := CURRENT_STOCKS_DATA w;
     STOCKS_JSON_FILE := STOCKS_JSON_FILE w |}.

Definition set_CURRENT_STOCKS_DATA (l : list Stock) (w : World) : World :=
  {| subscribers := subscribers w;
     CURRENT_STOCKS_DATA := l;
     STOCKS_JSON_FILE := STOCKS_JSON_FILE w |}.

(** ** db.py *)

(** [INSERT INTO subscribers (phone_number, subscribed_stocks) VALUES (?, "[]")];
    [False] is the caught [sqlite3.IntegrityError] of the primary key. *)
Definition add_subscriber (phone : string) : Py bool :=
  t ← gets subscribers;
  if decide (phone ∈ phone_number <$> t) then mret false
  else
    modify (set_subscribers (t ++ [new_row phone]));;
    mret true.

(** [DELETE FROM subscribers WHERE phone_number = ?] *)
Definition remove_subscriber (phone : string) : Py unit :=
  t ← gets subscribers;
  modify (set_subscribers (delete_where phone t)).

(** [SELECT * FROM subscribers WHERE phone_number = ?] and [fetchone()] *)
Definition get_subscriber (phone : string) : Py (option Row) :=
  t ← gets subscribers;
  mret (fetchone phone t).

(** [UPDATE subscribers SET subscribed_stocks = ? WHERE phone_number = ?] *)
Definition update_subscribed_stocks (phone : string)
    (stocks : list string) : Py unit :=
  t ← gets subscribers;
  modify (set_subscribers (update_where phone (set_stocks stocks) t)).

(** [UPDATE subscribers SET {preference_type} = ? WHERE phone_number = ?] *)
Definition update_notification_preference (phone : string)
    (p : preference_type) (value : Z) : Py unit :=
  t ← gets subscribers;
  modify (set_subscribers (update_where phone (set_preference p value) t)).

(** [SELECT phone_number, subscribed_stocks, ... FROM subscribers] *)
Definition get_all_subscribers : Py (list Row) := gets subscribers.

(** ** app.py *)

Definition load_stocks_data : Py unit :=
  modify (λ w, set_CURRENT_STOCKS_DATA (STOCKS_JSON_FILE w) w).

Definition main_menu_response : string :=
  "CON Welcome to Share Price Tracker!" +:+ nl +:+
  "1. Subscribe" +:+ nl +:+
  "2. View Stocks" +:+ nl +:+
  "3. My Subscriptions" +:+ nl +:+
  "4. Unsubscribe".

(** The numbered lines of [enumerate(l)], each ended by a newline. *)
Definition numbered_lines (l : list string) : list string :=
  imap (λ i s, str (i + 1) +:+ ". " +:+ s +:+ nl) l.

Definition stocks_menu (l : list Stock) : string :=
  "Available Stocks:" +:+ nl +:+
  join "" (numbered_lines (name <$> take 10 l)) +:+
  "Enter stock number to select." +:+ nl +:+
  "0. Back to Main Menu".

Definition no_stock_data : string :=
  "No stock data available at the moment. Please try again later.".

Definition display_stocks_menu (phone current_text_path : string)
    : Py string :=
  data ← gets CURRENT_STOCKS_DATA;
  (if is_empty data then load_stocks_data else mret ());;
  data ← gets CURRENT_STOCKS_DATA;
  if is_empty data then mret no_stock_data
  else mret (stocks_menu data).

Definition subscriber_not_found : string :=
  "END Error: Subscriber not found. Please re-subscribe.".

Definition offer_another : string :=
  "1. Subscribe to another stock" +:+ nl +:+ "0. Back to Main Menu".

Definition handle_stock_selection (phone text : string) : Py string :=
  let parts := split "*" text in
  selected_option ← or_raise IndexError (getitem parts (-1));
  let base_path_for_retry :=
    if (2 <=? length parts)%nat then join "*" (removelast parts) else "1" in
  if decide (selected_option = "0") then mret main_menu_response
  else
    try_except ValueError
      (i ← or_raise ValueError (int max_str_digits selected_option);
       let index := i - 1 in
       data ← gets CURRENT_STOCKS_DATA;
       if (0 <=? index) && (index <? Z.of_nat (length data)) then
         stock ← or_raise IndexError (getitem data index);
         let selected_stock_name := name stock in
         subscriber ← get_subscriber phone;
         match subscriber with
         | None => mret subscriber_not_found
         | Some sub =>
             let stocks := subscribed_stocks sub in
             if decide (selected_stock_name ∈ stocks) then
               mret ("CON You are already subscribed to " +:+
                     selected_stock_name +:+ "." +:+ nl +:+ offer_another)
             else
               update_subscribed_stocks phone
                 (stocks ++ [selected_stock_name]);;
               mret ("CON Successfully subscribed to " +:+
                     selected_stock_name +:+ "." +:+ nl +:+ offer_another)
         end
       else
         menu ← display_stocks_menu phone base_path_for_retry;
         mret ("CON Invalid stock number. Please try again." +:+ nl +:+ menu))
      (menu ← display_stocks_menu phone base_path_for_retry;
       mret ("CON Invalid input. Please enter a number." +:+ nl +:+ menu)).

Definition handle_view_stock_details (phone text : string) : Py string :=
  let parts := split "*" text in
  selected_option ← or_raise IndexError (getitem parts (-1));
  if decide (selected_option = "0") then mret main_menu_response
  else
    try_except ValueError
      (i ← or_raise ValueError (int max_str_digits selected_option);
       let index := i - 1 in
       data ← gets CURRENT_STOCKS_DATA;
       if (0 <=? index) && (index <? Z.of_nat (length data)) then
         stock ← or_raise IndexError (getitem data index);
         mret ("END " +:+ name stock +:+ ": Ksh " +:+
               format_2f (price stock) +:+ nl +:+ "Data in real-time.")
       else
         menu ← display_stocks_menu phone "2";
         mret ("CON Invalid stock number. Please try again." +:+ nl +:+ menu))
      (menu ← display_stocks_menu phone "2";
       mret ("CON Invalid input. Please enter a number." +:+ nl +:+ menu)).

(** ["\n".join(f"{i+1}. {s}" for i, s in enumerate(l))] *)
Definition current_subs_display (l : list string) : string :=
  join nl (imap (λ i s, str (i + 1) +:+ ". " +:+ s) l).

Definition my_subscriptions_options : string :=
  "1. Manage Subscribed Stocks" +:+ nl +:+
  "2. Set Notification Preferences" +:+ nl +:+
  "0. Back to Main Menu".

Definition remove_prompt : string :=
  "Enter stock number to remove, or 'add' to add new stocks." +:+ nl +:+
  "0. Back to Main Menu".

Definition handle_manage_subscribed_stocks (phone text : string)
    : Py string :=
  let parts := split "*" text in
  action ← or_raise IndexError (getitem parts (-1));
  subscriber ← get_subscriber phone;
  match subscriber with
  | None => mret subscriber_not_found
  | Some sub =>
      let stocks := subscribed_stocks sub in
      if decide (action = "0") then mret main_menu_response
      else if decide (lower action = "add") then
        menu ← display_stocks_menu phone "3*1*add";
        mret ("CON Select stocks to add:" +:+ nl +:+ menu)
      else
        after_add ←
          (if (3 <=? length parts)%nat then
             p ← or_raise IndexError (getitem parts 2);
             mret (bool_decide (lower p = "add") && isdigit action)
           else mret false);
        if after_add : bool then
          handle_stock_selection phone ("1*" +:+ action)
        else
          try_except ValueError
            (i ← or_raise ValueError (int max_str_digits action);
             let remove_index := i - 1 in
             if (0 <=? remove_index) &&
                (remove_index <? Z.of_nat (length stocks)) then
               '(removed_stock, rest) ←
                 or_raise IndexError (pop stocks remove_index);
               update_subscribed_stocks phone rest;;
               mret ("CON Removed " +:+ removed_stock +:+
                     " from your subscriptions." +:+ nl +:+
                     my_subscriptions_options)
             else
               mret ("CON Invalid stock number to remove. Please try again."
                     +:+ nl +:+ "Your current subscriptions:" +:+ nl +:+
                     current_subs_display stocks +:+ nl +:+ remove_prompt))
            (mret ("CON Invalid input. Please enter a number or 'add'."
                   +:+ nl +:+ "Your current subscriptions:" +:+ nl +:+
                   current_subs_display stocks +:+ nl +:+ remove_prompt))
  end.

Definition on_off (flag : Z) : string :=
  if decide (flag = 0) then "OFF" else "ON".

(** The two preference lines and the prompt below them. *)
Definition preference_lines (open close : Z) : string :=
  "1. Market Open: " +:+ on_off open +:+ nl +:+
  "2. Market Close: " +:+ on_off close +:+ nl +:+
  "Select an option to toggle." +:+ nl +:+
  "0. Back to Main Menu".

Definition handle_notification_preference (phone text : string)
    : Py string :=
  let parts := split "*" text in
  option ← or_raise IndexError (getitem parts (-1));
  subscriber ← get_subscriber phone;
  match subscriber with
  | None => mret subscriber_not_found
  | Some sub =>
      let current_market_open := market_open_notify sub in
      let current_market_close := market_close_notify sub in
      if decide (option = "1") then
        let new_value := if decide (current_market_open = 0) then 1 else 0 in
        update_notification_preference phone Market_open_notify new_value;;
        mret ("CON Set Notification Preferences:" +:+ nl +:+
              preference_lines new_value current_market_close)
      else if decide (option = "2") then
        let new_value := if decide (current_market_close = 0) then 1 else 0 in
        update_notification_preference phone Market_close_notify new_value;;
        mret ("CON Set Notification Preferences:" +:+ nl +:+
              preference_lines current_market_open new_value)
      else if decide (option = "0") then mret main_menu_response
      else
        mret ("CON Invalid option. Please select 1 or 2." +:+ nl +:+
              preference_lines current_market_open current_market_close)
  end.

Definition invalid_input : string := "END Invalid input. Please try again.".

Definition unsubscribed : string :=
  "END You have successfully unsubscribed from Stock Price Tracker. Goodbye!".

Definition already_subscribed : string :=
  "END You are already subscribed! Choose '3' to manage your subscriptions.".

(** The route [/ussd]: [phone] and [text] are the request's
    [phoneNumber] and [text]. *)
Definition ussd_callback (phone text : string) : Py string :=
  if decide (text = "") then mret main_menu_response
  else if decide (text = "1") then
    subscriber ← get_subscriber phone;
    match subscriber with
    | Some _ => mret already_subscribed
    | None =>
        add_subscriber phone;;
        menu ← display_stocks_menu phone "1";
        mret ("CON You have successfully subscribed!" +:+ nl +:+
              "Now, let's select stocks to track." +:+ nl +:+ menu)
    end
  else if startswith text "1*" then handle_stock_selection phone text
  else if decide (text = "2") then
    menu ← display_stocks_menu phone "2";
    mret ("CON " +:+ menu)
  else if startswith text "2*" then handle_view_stock_details phone text
  else if decide (text = "3") then
    subscriber ← get_subscriber phone;
    match subscriber with
    | None =>
        mret "END You are not subscribed. Dial again and select '1' to subscribe."
    | Some _ =>
        mret ("CON My Subscriptions:" +:+ nl +:+ my_subscriptions_options)
    end
  else if decide (text = "3*1") then
    subscriber ← get_subscriber phone;
    match subscriber with
    | Some sub =>
        let stocks := subscribed_stocks sub in
        if is_empty stocks then
          menu ← display_stocks_menu phone "3*1";
          mret ("CON You have no stocks subscribed yet." +:+ nl +:+ menu)
        else
          mret ("CON Your current subscriptions:" +:+ nl +:+
                join "" (numbered_lines stocks) +:+
                "--- Add/Remove ---" +:+ nl +:+ remove_prompt)
    | None => mret "END Error: Subscriber not found."
    end
  else if startswith text "3*1*" then
    handle_manage_subscribed_stocks phone text
  else if decide (text = "3*2") then
    subscriber ← get_subscriber phone;
    match subscriber with
    | Some sub =>
        mret ("CON Set Notification Preferences:" +:+ nl +:+
              preference_lines (market_open_notify sub)
                               (market_close_notify sub))
    | None => mret "END Error: Subscriber not found."
    end
  else if startswith text "3*2*" then
    handle_notification_preference phone text
  else if decide (text = "4") then
    remove_subscriber phone;;
    mret unsubscribed
  else mret invalid_input.

(** ** wen.py: the market notifications *)

(** The two values [send_market_notification] is called with. *)
Inductive notification_type := Open | Close.

Definition type_name (k : notification_type) : string :=
  match k with
  | Open => "open"
  | Close => "close"
  end.

(** The dictionary [last_notification_sent]: the date of the last batch
    of each kind, [None] for [null]. *)
Record notification_status := {
  last_open : option string;
  last_close : option string
}.

Definition last_sent (k : notification_type) (st : notification_status)
    : option string :=
  match k with
  | Open => last_open st
  | Close => last_close st
  end.

Definition set_last_sent (k : notification_type) (date : string)
    (st : notification_status) : notification_status :=
  match k with
  | Open => {| last_open := Some date; last_close := last_close st |}
  | Close => {| last_open := last_open st; last_close := Some date |}
  end.

(** [{stock['name'].lower(): stock['price'] for stock in current_stocks
      if 'name' in stock and 'price' in stock}]: every entry of the typed
    catalog has both keys, and a later entry replaces an earlier one with
    the same key. *)
Definition stock_dict (current_stocks : list Stock) : gmap string Price :=
  foldl (λ d stock, <[lower (name stock) := price stock]> d) ∅
        current_stocks.

(** The flag test of the loop body. *)
Definition send_notification (k : notification_type) (subscriber : Row)
    : bool :=
  match k with
  | Open => bool_decide (market_open_notify subscriber = 1)
  | Close => bool_decide (market_close_notify subscriber = 1)
  end.

(** The line of one subscribed stock. *)
Definition stock_line (d : gmap string Price) (stock_name : string)
    : string :=
  match d !! lower stock_name with
  | Some p => stock_name +:+ ": Ksh " +:+ format_2f p
  | None => stock_name +:+ ": Price N/A"
  end.

Definition message_parts (k : notification_type) (d : gmap string Price)
    (stocks : list string) : list string :=
  ("Market " +:+ capitalize (type_name k) +:+ " Update:")
    :: (stock_line d <$> stocks).

Definition notification_message (k : notification_type)
    (d : gmap string Price) (stocks : list string) : string :=
  if is_empty stocks then
    "Market " +:+ type_name k +:+
    " update: No stocks selected for notifications. Dial USSD to select."
  else join nl (message_parts k d stocks).

(** The loop over the subscribers: the calls of [sms.send], each the
    recipient and the message. *)
Fixpoint notify_subscribers (k : notification_type)
    (d : gmap string Price) (subs : list Row) : list (string * string) :=
  match subs with
  | [] => []
  | subscriber :: rest =>
      if send_notification k subscriber
      then (phone_number subscriber,
            notification_message k d (subscribed_stocks subscriber))
             :: notify_subscribers k d rest
      else notify_subscribers k d rest
  end.

(** [send_market_notification(notification_type)] on the date [today],
    with the rows of [get_all_subscribers()] and the list read by
    [get_current_stock_prices()]: the messages sent and the new value of
    [last_notification_sent]. *)
Definition send_market_notification (k : notification_type)
    (today : string) (st : notification_status) (subs : list Row)
    (current_stocks : list Stock)
    : list (string * string) * notification_status :=
  if decide (last_sent k st = Some today) then ([], st)
  else if is_empty current_stocks then ([], st)
  else (notify_subscribers k (stock_dict current_stocks) subs,
        set_last_sent k today st).

End Tracker.

(** ** The notions of the specification *)

(** The path patterns of the menu grammar: the rows of the table of path
    prefix patterns, a segment [<n>] and what follows it being any text. *)
Inductive menu_path : string → Prop :=
  | path_main_menu : menu_path ""
  | path_subscribe : menu_path "1"
  | path_select_stock n : menu_path ("1*" +:+ n)
  | path_view_stocks : menu_path "2"
  | path_view_detail n : menu_path ("2*" +:+ n)
  | path_my_subscriptions : menu_path "3"
  | path_manage : menu_path "3*1"
  | path_manage_entry n : menu_path ("3*1*" +:+ n)
  | path_preferences : menu_path "3*2"
  | path_toggle n : menu_path ("3*2*" +:+ n)
  | path_unsubscribe : menu_path "4".

(** A trailing segment that is not an integer, or an integer outside
    [[1, len]]. *)
Definition invalid_selection (max_str_digits : nat) (seg : string)
    (len : nat) : Prop :=
  match int max_str_digits seg with
  | None => True
  | Some k => k < 1 ∨ Z.of_nat len < k
  end.

(** A continue response that shows [menu] again under one error line. *)
Definition error_redisplay (menu response : string) : Prop :=
  ∃ line, line ≠ "" ∧ response = "CON " +:+ line +:+ nl +:+ menu.

(** A terminal response. *)
Definition terminal (response : string) : Prop :=
  startswith response "END " = true.

(** The primary key of the table. *)
Definition primary_key (t : list Row) : Prop :=
  NoDup (phone_number <$> t).

(** A stock name appears at most once in a subscription list. *)
Definition stocks_unique (t : list Row) : Prop :=
  Forall (λ r, NoDup (subscribed_stocks r)) t.

(** The flags are 0 or 1. *)
Definition flags_boolean (t : list Row) : Prop :=
  Forall (λ r, (market_open_notify r = 0 ∨ market_open_notify r = 1) ∧
               (market_close_notify r = 0 ∨ market_close_notify r = 1)) t.

#[export] Instance notification_type_eq_dec : EqDecision notification_type.
Proof. solve_decision. Defined.

(** The flag of a subscriber for a kind of notification. *)
Definition flag_of (k : notification_type) (r : Row) : Z :=
  match k with
  | Open => market_open_notify r
  | Close => market_close_notify r
  end.

(** The number of occurrences of a stock name in a subscription list. *)
Definition occurrences (x : string) (l : list string) : nat :=
  length (filter (λ y, y = x) l).

(** What the error branches of the removal under [3*1*] show: the current
    subscriptions, joined by newlines, and the prompt. It is not the menu
    of path [3*1], for which see [manage_menu]. *)
Definition subscriptions_menu (stocks : list string) : string :=
  "Your current subscriptions:" +:+ nl +:+
  current_subs_display stocks +:+ nl +:+ remove_prompt.

(** The number of rows of a phone number. *)
Definition records_of (phone : string) (t : list Row) : nat :=
  length (filter (λ r, phone_number r = phone) t).

(** The trailing segment of a path: [text.split('*')[-1]] *)
Definition last_segment (text : string) : string :=
  default "" (last (split "*" text)).

(** The effect of [display_stocks_menu] on the module variable: the file is
    loaded when the variable holds no stock. *)
Definition reloaded {Price} (w : @World Price) : @World Price :=
  if is_empty (CURRENT_STOCKS_DATA w)
  then set_CURRENT_STOCKS_DATA (STOCKS_JSON_FILE w) w
  else w.

(** The text [display_stocks_menu] returns. *)
Definition shown_menu {Price} (w : @World Price) : string :=
  let data := CURRENT_STOCKS_DATA (reloaded w) in
  if is_empty data then no_stock_data else stocks_menu data.

(** The menu that path [3*1] shows to a subscriber, after the marker:
    with no subscription a notice and the stock menu, else the numbered
    subscriptions, a separator line and the prompt. *)
Definition manage_menu {Price} (w : @World Price) (stocks : list string)
    : string :=
  if is_empty stocks then
    "You have no stocks subscribed yet." +:+ nl +:+ shown_menu w
  else
    "Your current subscriptions:" +:+ nl +:+
    join "" (numbered_lines stocks) +:+
    "--- Add/Remove ---" +:+ nl +:+ remove_prompt.

(** Two characters that are equal or are the two cases of one of the
    letters A to Z, and two texts of the same length that are so character
    by character: the same name in the sense of a lookup that is
    insensitive to case. *)
Definition same_letter (a b : ascii) : bool :=
  let m := nat_of_ascii a in
  let n := nat_of_ascii b in
  ((m =? n) || ((65 <=? m) && (m <=? 90) && (n =? m + 32))
   || ((65 <=? n) && (n <=? 90) && (m =? n + 32)))%nat.

Fixpoint same_ignoring_case (a b : string) : bool :=
  match a, b with
  | EmptyString, EmptyString => true
  | String x a', String y b' => same_letter x y && same_ignoring_case a' b'
  | _, _ => false
  end.

(** What one request can do to the table. *)
Inductive db_step (phone : string) (t : list Row) : list Row → Prop :=
  | db_same : db_step phone t t
  | db_insert :
      phone ∉ phone_number <$> t →
      db_step phone t (t ++ [new_row phone])
  | db_delete : db_step phone t (delete_where phone t)
  | db_subscribe sub x :
      fetchone phone t = Some sub →
      x ∉ subscribed_stocks sub →
      db_step phone t
        (update_where phone (set_stocks (subscribed_stocks sub ++ [x])) t)
  | db_unsubscribe sub i x :
      fetchone phone t = Some sub →
      subscribed_stocks sub !! i = Some x →
      db_step phone t
        (update_where phone (set_stocks (delete i (subscribed_stocks sub))) t)
  | db_toggle sub p v :
      fetchone phone t = Some sub →
      v = 0 ∨ v = 1 →
      db_step phone t (update_where phone (set_preference p v) t).

(** A request that returns a response, makes one step on the table and
    leaves the catalog file alone. *)
Definition step_ok {Price} (phone : string) (w : @World Price)
    (res : outcome string * @World Price) : Prop :=
  ∃ r, res.1 = Return r
       ∧ db_step phone (subscribers w) (subscribers res.2)
       ∧ STOCKS_JSON_FILE res.2 = STOCKS_JSON_FILE w
       ∧ (CURRENT_STOCKS_DATA res.2 = CURRENT_STOCKS_DATA w
          ∨ CURRENT_STOCKS_DATA res.2 = CURRENT_STOCKS_DATA (reloaded w)).

(** The states of the service: it starts with an empty table, it handles
    requests, and the scraper rewrites the catalog file. *)
Inductive reachable {Price} (format_2f : Price → string)
    (max_str_digits : nat) : @World Price → Prop :=
  | reach_start data file :
      reachable format_2f max_str_digits
        {| subscribers := []; CURRENT_STOCKS_DATA := data;
           STOCKS_JSON_FILE := file |}
  | reach_request w phone text :
      reachable format_2f max_str_digits w →
      reachable format_2f max_str_digits
        (ussd_callback format_2f max_str_digits phone text w).2
  | reach_scrape w file :
      reachable format_2f max_str_digits w →
      reachable format_2f max_str_digits
        {| subscribers := subscribers w;
           CURRENT_STOCKS_DATA := CURRENT_STOCKS_DATA w;
           STOCKS_JSON_FILE := file |}.

(** The marker of a response: [CON ] to continue the session, [END ] to
    end it. *)
Definition has_marker (response : string) : Prop :=
  startswith response "CON " = true ∨ startswith response "END " = true.

(** A request that returns a marked response. *)
Definition marked {Price} (res : outcome string * @World Price) : Prop :=
  ∃ response, res.1 = Return response ∧ has_marker response.

(** ** Data of the examples: prices in hundredths of a shilling *)

Module Demo.

Definition format_cents (c : Z) : string :=
  let a := Z.abs c in
  (if c <? 0 then "-" else "") +:+
  str (Z.to_nat (a / 100)) +:+ "." +:+
  str (Z.to_nat (a mod 100 / 10)) +:+ str (Z.to_nat (a mod 10)).

Definition stock (n : string) (c : Z) : @Stock Z :=
  {| name := n; price := c |}.

Definition catalog2 : list (@Stock Z) :=
  [stock "Safaricom" 1550; stock "KCB" 4000].

Definition catalog12 : list (@Stock Z) :=
  [stock "Safaricom" 1550; stock "KCB" 4000; stock "Equity" 4525;
   stock "EABL" 17000; stock "Absa" 1240; stock "Co-op" 1350;
   stock "BAT" 35000; stock "NCBA" 4010; stock "Stanbic" 11000;
   stock "Bamburi" 5500; stock "KenGen" 310; stock "Kenya Re" 185].

Definition phone : string := "254700000000".

Definition row (stocks : list string) (open close : Z) : Row :=
  {| phone_number := phone; subscribed_stocks := stocks;
     market_open_notify := open; market_close_notify := close |}.

Definition world (t : list Row) (catalog : list (@Stock Z)) : @World Z :=
  {| subscribers := t; CURRENT_STOCKS_DATA := catalog;
     STOCKS_JSON_FILE := catalog |}.

Definition ussd : string → string → @Py Z string :=
  ussd_callback format_cents 4300.

End Demo.

(** ** Text functions of the scraper's reply handling *)

Module PyText.

(** The white space of [str.strip()] among the ASCII characters: the six
    of [int] and the separators 28 to 31. *)
Definition is_str_space (c : ascii) : bool :=
  let n := nat_of_ascii c in
  (((9 <=? n) && (n <=? 13)) || ((28 <=? n) && (n <=? 32)))%nat.

Fixpoint str_lstrip (s : string) : string :=
  match s with
  | EmptyString => EmptyString
  | String c s' => if is_str_space c then str_lstrip s' else s
  end.

Fixpoint str_rstrip (s : string) : string :=
  match s with
  | EmptyString => EmptyString
  | String c s' =>
      match str_rstrip s' with
      | EmptyString =>
          if is_str_space c then EmptyString else String c EmptyString
      | r => String c r
      end
  end.

(** [s.strip()] *)
Definition str_strip (s : string) : string := str_rstrip (str_lstrip s).

(** [s.find(c)] for one character: the lowest index, -1 when absent *)
Fixpoint find (c : ascii) (s : string) : Z :=
  match s with
  | EmptyString => -1
  | String a s' =>
      if Ascii.eqb a c then 0
      else let i := find c s' in if i =? -1 then -1 else i + 1
  end.

(** [s.rfind(c)] for one character: the highest index, -1 when absent *)
Fixpoint rfind (c : ascii) (s : string) : Z :=
  match s with
  | EmptyString => -1
  | String a s' =>
      let i := rfind c s' in
      if i =? -1 then (if Ascii.eqb a c then 0 else -1) else i + 1
  end.

(** [s[start:stop]]: a negative bound counts from the end, and both are
    clipped to the string. *)
Definition slice (s : string) (start stop : Z) : string :=
  let len := Z.of_nat (String.length s) in
  let clip i := if i <? 0 then Z.max (i + len) 0 else Z.min i len in
  let a := clip start in
  let b := clip stop in
  substring (Z.to_nat a) (Z.to_nat (b - a)) s.

End PyText.

(** ** JSON values and the files of the service *)

Module Json.

Section Values.

(** The type of a JSON number and its truth value ([0] and [0.0] are
    false). *)
Context {Num : Type} (num_truth : Num → bool).

(** What [json.loads] returns: [None], a [bool], a number, a [str], a
    [list] or a [dict], the latter as the list of its items (their keys
    are distinct). *)
#[warning="-register-all"]
Inductive json :=
  | JNull
  | JBool (b : bool)
  | JNum (n : Num)
  | JStr (s : string)
  | JArr (items : list json)
  | JObj (fields : list (string * json)).

(** [d.get(key)] on the items of a [dict] *)
Fixpoint dict_get (key : string) (fields : list (string * json))
    : option json :=
  match fields with
  | [] => None
  | (k, v) :: rest => if decide (k = key) then Some v else dict_get key rest
  end.

(** The truth value of a Python object: [bool(v)] *)
Definition truth (v : json) : bool :=
  match v with
  | JNull => false
  | JBool b => b
  | JNum n => num_truth n
  | JStr s => negb (bool_decide (s = EmptyString))
  | JArr items => negb (is_empty items)
  | JObj fields => negb (is_empty fields)
  end.

(** [len(v)]: [None] is the [TypeError] of an object without a length *)
Definition len (v : json) : option nat :=
  match v with
  | JStr s => Some (String.length s)
  | JArr items => Some (length items)
  | JObj fields => Some (length fields)
  | JNull | JBool _ | JNum _ => None
  end.

(** A JSON file as the program meets it: missing, empty, holding text that
    is not JSON, or holding the text of a value. [json.dump] writes the
    last form and [json.load] reads it back. *)
Inductive file :=
  | No_file
  | Empty_file
  | Not_json
  | Json_file (v : json).

(** The exceptions that leave the readers of the catalog file. *)
Inductive error := TypeError | AttributeError.

(** [load_stocks_data()] of app.py on the file [STOCKS_JSON_FILE]: the
    value assigned to [CURRENT_STOCKS_DATA], and the [TypeError] of
    [len(CURRENT_STOCKS_DATA)] in the message printed after the
    assignment, which no handler catches. *)
Definition load_stocks_data (f : file) : json * option error :=
  match f with
  | No_file => (JArr [], None)
  | Empty_file => (JArr [], None)
  | Not_json => (JArr [], None)
  | Json_file data =>
      let current :=
        match data with
        | JObj fields =>
            match dict_get "stocks" fields with
            | Some stocks => stocks
            | None => JArr []
            end
        | JArr _ => data
        | _ => JArr []
        end in
      match len current with
      | Some _ => (current, None)
      | None => (current, Some TypeError)
      end
  end.

(** [get_current_stock_prices()] of wen.py, the first component of its
    result: [data.get("stocks", data)] is an [AttributeError] on a value
    that is not a [dict], and only [FileNotFoundError] and
    [json.JSONDecodeError] are caught. *)
Definition get_current_stock_prices (f : file) : json + error :=
  match f with
  | No_file => inl (JArr [])
  | Empty_file => inl (JArr [])
  | Not_json => inl (JArr [])
  | Json_file (JObj fields) =>
      inl (default (JObj fields) (dict_get "stocks" fields))
  | Json_file _ => inr AttributeError
  end.

(** ** scraper.py *)

(** The reply of the model: [generate_content] or [response.text] raises,
    or there is a text. *)
Inductive reply :=
  | Reply_raises
  | Reply_text (text : string).

(** The text between the first ["["] and the last ["]"] of the stripped
    reply, [None] when one of them is missing. *)
Definition json_array_text (text : string) : option string :=
  let cleaned_text := PyText.str_strip text in
  let json_start := PyText.find "[" cleaned_text in
  let json_end := PyText.rfind "]" cleaned_text in
  if (json_start =? -1) || (json_end =? -1) then None
  else Some (PyText.slice cleaned_text json_start (json_end + 1)).

(** [json.loads] on a text: [None] is [json.JSONDecodeError]. *)
Context (json_loads : string → option json).

(** [send_to_gemini_for_cleaning(data_to_clean)] with the reply of the
    model: every failure gives the empty list. *)
Definition send_to_gemini_for_cleaning {A} (data_to_clean : list A)
    (r : reply) : json :=
  if is_empty data_to_clean then JArr []
  else
    match r with
    | Reply_raises => JArr []
    | Reply_text text =>
        if bool_decide (text = EmptyString) then JArr []
        else
          match json_array_text text with
          | None => JArr []
          | Some json_string_to_parse =>
              match json_loads json_string_to_parse with
              | Some cleaned_data => cleaned_data
              | None => JArr []
              end
          end
    end.

(** What happens to the catalog file when [scrape_and_save_stocks] opens
    and writes it: the write succeeds, or it raises and leaves some
    file. *)
Inductive write :=
  | Write_ok
  | Write_raises (remains : file).

(** [scrape_and_save_stocks()] with the rows scraped by
    [perform_single_scrape_and_clean()], the reply of the model, the time
    stamp and the fate of the write: what it returns and the catalog file
    afterwards. The file is opened only for cleaned data that is true. *)
Definition scrape_and_save_stocks {A} (raw_data_for_ai : list A)
    (r : reply) (timestamp : string) (disk : write) (f : file)
    : json * file :=
  if is_empty raw_data_for_ai then (JArr [], f)
  else
    let cleaned_data := send_to_gemini_for_cleaning raw_data_for_ai r in
    if truth cleaned_data then
      let data_to_save :=
        JObj [("stocks", cleaned_data); ("timestamp", JStr timestamp)] in
      match disk with
      | Write_ok => (data_to_save, Json_file data_to_save)
      | Write_raises remains => (JArr [], remains)
      end
    else (JArr [], f).

End Values.

End Json.

(** ** app.py on a catalog that nobody validated *)

Module Raw.

Section Handler.

(** The type of a JSON number that the format [.2f] renders (an integer
    too large for a float is none), and its rendering. *)
Context {Price : Type} (format_2f : Price → string).
Context (max_str_digits : nat).

(** A catalog entry as [json.load] returns it: a JSON object, of which
    the program reads the keys ["name"] and ["price"]. The name, a string,
    is there when the object has the key; so is the price, which is any
    JSON value. *)
Record Entry := {
  entry_name : option string;
  entry_price : option (@Json.json Price)
}.

(** The state of a request as in [World], the entries of the module
    variable and of the file being what the file happens to hold. The file
    is the list of objects it holds, bare or under the key ["stocks"],
    and the empty list when it is missing, empty or not JSON. *)
Record World := {
  subscribers : list Row;
  CURRENT_STOCKS_DATA : list Entry;
  STOCKS_JSON_FILE : list Entry
}.

Definition Py (A : Type) : Type := World → outcome A * World.

#[export] Instance Py_ret : MRet Py := λ A a w, (Return a, w).
#[export] Instance Py_bind : MBind Py := λ A B f m w,
  match m w with
  | (Return a, w') => f a w'
  | (Raise e, w') => (Raise e, w')
  end.

Definition gets {A} (f : World → A) : Py A := λ w, (Return (f w), w).
Definition modify (f : World → World) : Py unit := λ w, (Return (), f w).
Definition raise {A} (e : exn) : Py A := λ w, (Raise e, w).

Definition or_raise {A} (e : exn) (o : option A) : Py A :=
  match o with
  | Some a => mret a
  | None => raise e
  end.

(** The outcome of an expression that reads no state. *)
Definition lift {A} (o : outcome A) : Py A := λ w, (o, w).

(** [try: body / except e: handler] *)
Definition try_except {A} (e : exn) (body handler : Py A) : Py A := λ w,
  match body w with
  | (Raise e', w') => if decide (e' = e) then handler w' else (Raise e', w')
  | r => r
  end.

Definition set_subscribers (t : list Row) (w : World) : World :=
  {| subscribers := t;
     CURRENT_STOCKS_DATA := CURRENT_STOCKS_DATA w;
     STOCKS_JSON_FILE := STOCKS_JSON_FILE w |}.

Definition set_CURRENT_STOCKS_DATA (l : list Entry) (w : World) : World :=
  {| subscribers := subscribers w;
     CURRENT_STOCKS_DATA := l;
     STOCKS_JSON_FILE := STOCKS_JSON_FILE w |}.

(** *** db.py *)

Definition add_subscriber (phone : string) : Py bool :=
  t ← gets subscribers;
  if decide (phone ∈ phone_number <$> t) then mret false
  else
    modify (set_subscribers (t ++ [new_row phone]));;
    mret true.

Definition remove_subscriber (phone : string) : Py unit :=
  t ← gets subscribers;
  modify (set_subscribers (delete_where phone t)).

Definition get_subscriber (phone : string) : Py (option Row) :=
  t ← gets subscribers;
  mret (fetchone phone t).

Definition update_subscribed_stocks (phone : string)
    (stocks : list string) : Py unit :=
  t ← gets subscribers;
  modify (set_subscribers (update_where phone (set_stocks stocks) t)).

Definition update_notification_preference (phone : string)
    (p : preference_type) (value : Z) : Py unit :=
  t ← gets subscribers;
  modify (set_subscribers (update_where phone (set_preference p value) t)).

(** *** app.py *)

Definition load_stocks_data : Py unit :=
  modify (λ w, set_CURRENT_STOCKS_DATA (STOCKS_JSON_FILE w) w).

(** [stock['name']] for each entry in turn: [None] is the [KeyError] of
    the first entry without the key. *)
Fixpoint entry_names (l : list Entry) : option (list string) :=
  match l with
  | [] => Some []
  | stock :: rest =>
      match entry_name stock, entry_names rest with
      | Some n, Some names => Some (n :: names)
      | _, _ => None
      end
  end.

Definition stocks_menu (names : list string) : string :=
  "Available Stocks:" +:+ nl +:+
  join "" (numbered_lines names) +:+
  "Enter stock number to select." +:+ nl +:+
  "0. Back to Main Menu".

Definition display_stocks_menu (phone current_text_path : string)
    : Py string :=
  data ← gets CURRENT_STOCKS_DATA;
  (if is_empty data then load_stocks_data else mret ());;
  data ← gets CURRENT_STOCKS_DATA;
  if is_empty data then mret no_stock_data
  else
    names ← or_raise KeyError (entry_names (take 10 data));
    mret (stocks_menu names).

Definition handle_stock_selection (phone text : string) : Py string :=
  let parts := split "*" text in
  selected_option ← or_raise IndexError (getitem parts (-1));
  let base_path_for_retry :=
    if (2 <=? length parts)%nat then join "*" (removelast parts) else "1" in
  if decide (selected_option = "0") then mret main_menu_response
  else
    try_except ValueError
      (i ← or_raise ValueError (int max_str_digits selected_option);
       let index := i - 1 in
       data ← gets CURRENT_STOCKS_DATA;
       if (0 <=? index) && (index <? Z.of_nat (length data)) then
         stock ← or_raise IndexError (getitem data index);
         selected_stock_name ← or_raise KeyError (entry_name stock);
         subscriber ← get_subscriber phone;
         match subscriber with
         | None => mret subscriber_not_found
         | Some sub =>
             let stocks := subscribed_stocks sub in
             if decide (selected_stock_name ∈ stocks) then
               mret ("CON You are already subscribed to " +:+
                     selected_stock_name +:+ "." +:+ nl +:+ offer_another)
             else
               update_subscribed_stocks phone
                 (stocks ++ [selected_stock_name]);;
               mret ("CON Successfully subscribed to " +:+
                     selected_stock_name +:+ "." +:+ nl +:+ offer_another)
         end
       else
         menu ← display_stocks_menu phone base_path_for_retry;
         mret ("CON Invalid stock number. Please try again." +:+ nl +:+ menu))
      (menu ← display_stocks_menu phone base_path_for_retry;
       mret ("CON Invalid input. Please enter a number." +:+ nl +:+ menu)).

(** [f"{price:.2f}"]: a number is rendered, [True] and [False] as the
    integers 1 and 0; a string has no format code [f], which is a
    [ValueError]; [None], a list and a dictionary take no format string,
    which is a [TypeError]. *)
Definition format_price (v : @Json.json Price) : outcome string :=
  match v with
  | Json.JNum p => Return (format_2f p)
  | Json.JBool b => Return (if b then "1.00" else "0.00")
  | Json.JStr _ => Raise ValueError
  | Json.JNull | Json.JArr _ | Json.JObj _ => Raise TypeError
  end.

Definition handle_view_stock_details (phone text : string) : Py string :=
  let parts := split "*" text in
  selected_option ← or_raise IndexError (getitem parts (-1));
  if decide (selected_option = "0") then mret main_menu_response
  else
    try_except ValueError
      (i ← or_raise ValueError (int max_str_digits selected_option);
       let index := i - 1 in
       data ← gets CURRENT_STOCKS_DATA;
       if (0 <=? index) && (index <? Z.of_nat (length data)) then
         stock ← or_raise IndexError (getitem data index);
         stock_name ← or_raise KeyError (entry_name stock);
         stock_price ← or_raise KeyError (entry_price stock);
         shown ← lift (format_price stock_price);
         mret ("END " +:+ stock_name +:+ ": Ksh " +:+ shown +:+ nl +:+
               "Data in real-time.")
       else
         menu ← display_stocks_menu phone "2";
         mret ("CON Invalid stock number. Please try again." +:+ nl +:+ menu))
      (menu ← display_stocks_menu phone "2";
       mret ("CON Invalid input. Please enter a number." +:+ nl +:+ menu)).

Definition handle_manage_subscribed_stocks (phone text : string)
    : Py string :=
  let parts := split "*" text in
  action ← or_raise IndexError (getitem parts (-1));
  subscriber ← get_subscriber phone;
  match subscriber with
  | None => mret subscriber_not_found
  | Some sub =>
      let stocks := subscribed_stocks sub in
      if decide (action = "0") then mret main_menu_response
      else if decide (lower action = "add") then
        menu ← display_stocks_menu phone "3*1*add";
        mret ("CON Select stocks to add:" +:+ nl +:+ menu)
      else
        after_add ←
          (if (3 <=? length parts)%nat then
             p ← or_raise IndexError (getitem parts 2);
             mret (bool_decide (lower p = "add") && isdigit action)
           else mret false);
        if after_add : bool then
          handle_stock_selection phone ("1*" +:+ action)
        else
          try_except ValueError
            (i ← or_raise ValueError (int max_str_digits action);
             let remove_index := i - 1 in
             if (0 <=? remove_index) &&
                (remove_index <? Z.of_nat (length stocks)) then
               '(removed_stock, rest) ←
                 or_raise IndexError (pop stocks remove_index);
               update_subscribed_stocks phone rest;;
               mret ("CON Removed " +:+ removed_stock +:+
                     " from your subscriptions." +:+ nl +:+
                     my_subscriptions_options)
             else
               mret ("CON Invalid stock number to remove. Please try again."
                     +:+ nl +:+ "Your current subscriptions:" +:+ nl +:+
                     current_subs_display stocks +:+ nl +:+ remove_prompt))
            (mret ("CON Invalid input. Please enter a number or 'add'."
                   +:+ nl +:+ "Your current subscriptions:" +:+ nl +:+
                   current_subs_display stocks +:+ nl +:+ remove_prompt))
  end.

Definition handle_notification_preference (phone text : string)
    : Py string :=
  let parts := split "*" text in
  option ← or_raise IndexError (getitem parts (-1));
  subscriber ← get_subscriber phone;
  match subscriber with
  | None => mret subscriber_not_found
  | Some sub =>
      let current_market_open := market_open_notify sub in
      let current_market_close := market_close_notify sub in
      if decide (option = "1") then
        let new_value := if decide (current_market_open = 0) then 1 else 0 in
        update_notification_preference phone Market_open_notify new_value;;
        mret ("CON Set Notification Preferences:" +:+ nl +:+
              preference_lines new_value current_market_close)
      else if decide (option = "2") then
        let new_value := if decide (current_market_close = 0) then 1 else 0 in
        update_notification_preference phone Market_close_notify new_value;;
        mret ("CON Set Notification Preferences:" +:+ nl +:+
              preference_lines current_market_open new_value)
      else if decide (option = "0") then mret main_menu_response
      else
        mret ("CON Invalid option. Please select 1 or 2." +:+ nl +:+
              preference_lines current_market_open current_market_close)
  end.

(** The route [/ussd] *)
Definition ussd_callback (phone text : string) : Py string :=
  if decide (text = "") then mret main_menu_response
  else if decide (text = "1") then
    subscriber ← get_subscriber phone;
    match subscriber with
    | Some _ => mret already_subscribed
    | None =>
        add_subscriber phone;;
        menu ← display_stocks_menu phone "1";
        mret ("CON You have successfully subscribed!" +:+ nl +:+
              "Now, let's select stocks to track." +:+ nl +:+ menu)
    end
  else if startswith text "1*" then handle_stock_selection phone text
  else if decide (text = "2") then
    menu ← display_stocks_menu phone "2";
    mret ("CON " +:+ menu)
  else if startswith text "2*" then handle_view_stock_details phone text
  else if decide (text = "3") then
    subscriber ← get_subscriber phone;
    match subscriber with
    | None =>
        mret "END You are not subscribed. Dial again and select '1' to subscribe."
    | Some _ =>
        mret ("CON My Subscriptions:" +:+ nl +:+ my_subscriptions_options)
    end
  else if decide (text = "3*1") then
    subscriber ← get_subscriber phone;
    match subscriber with
    | Some sub =>
        let stocks := subscribed_stocks sub in
        if is_empty stocks then
          menu ← display_stocks_menu phone "3*1";
          mret ("CON You have no stocks subscribed yet." +:+ nl +:+ menu)
        else
          mret ("CON Your current subscriptions:" +:+ nl +:+
                join "" (numbered_lines stocks) +:+
                "--- Add/Remove ---" +:+ nl +:+ remove_prompt)
    | None => mret "END Error: Subscriber not found."
    end
  else if startswith text "3*1*" then
    handle_manage_subscribed_stocks phone text
  else if decide (text = "3*2") then
    subscriber ← get_subscriber phone;
    match subscriber with
    | Some sub =>
        mret ("CON Set Notification Preferences:" +:+ nl +:+
              preference_lines (market_open_notify sub)
                               (market_close_notify sub))
    | None => mret "END Error: Subscriber not found."
    end
  else if startswith text "3*2*" then
    handle_notification_preference phone text
  else if decide (text = "4") then
    remove_subscriber phone;;
    mret unsubscribed
  else mret invalid_input.

End Handler.

End Raw.

(** The typed catalog inside the raw one: an entry with a name and a
    number for a price. *)
Definition typed_entry {Price} (stock : @Stock Price) : @Raw.Entry Price :=
  {| Raw.entry_name := Some (name stock);
     Raw.entry_price := Some (Json.JNum (price stock)) |}.

Definition untyped {Price} (w : @World Price) : @Raw.World Price :=
  {| Raw.subscribers := subscribers w;
     Raw.CURRENT_STOCKS_DATA := typed_entry <$> CURRENT_STOCKS_DATA w;
     Raw.STOCKS_JSON_FILE := typed_entry <$> STOCKS_JSON_FILE w |}.

(** An entry of the form [{"name": str, "price": number}], and a state
    whose entries, in the module variable and in the file, all are. *)
Definition well_formed_entry {Price} (stock : @Raw.Entry Price) : Prop :=
  ∃ n p, stock = {| Raw.entry_name := Some n;
                    Raw.entry_price := Some (Json.JNum p) |}.

Definition well_formed {Price} (w : @Raw.World Price) : Prop :=
  Forall well_formed_entry (Raw.CURRENT_STOCKS_DATA w)
  ∧ Forall well_formed_entry (Raw.STOCKS_JSON_FILE w).

(** A computation on the typed state and one on the raw state that do the
    same on every typed state. *)
Definition sim {Price A} (m : @Py Price A) (m' : @Raw.Py Price A) : Prop :=
  ∀ w, m' (untyped w) = ((m w).1, untyped (m w).2).

(** A computation on the raw state whose result, when it returns one, is
    a marked response. *)
Definition returns_marked {Price} (m : @Raw.Py Price string) : Prop :=
  ∀ w response, (m w).1 = Return response → has_marker response.

(** ** Data of the examples: catalogs as a careless scraper leaves them *)

Module DemoRaw.

Definition entry (n : option string) (p : option (@Json.json Z))
    : @Raw.Entry Z :=
  {| Raw.entry_name := n; Raw.entry_price := p |}.

(** [[{"name": "Safaricom", "price": 15.5}, {"name": "KCB", "price": null}]] *)
Definition null_price : list (@Raw.Entry Z) :=
  [entry (Some "Safaricom") (Some (Json.JNum 1550));
   entry (Some "KCB") (Some Json.JNull)].

(** [[{"name": "Safaricom", "price": 15.5}, {"name": "KCB"}]] *)
Definition no_price : list (@Raw.Entry Z) :=
  [entry (Some "Safaricom") (Some (Json.JNum 1550));
   entry (Some "KCB") None].

(** [[{"name": "Safaricom", "price": 15.5}, {"price": 40.0}]] *)
Definition no_name : list (@Raw.Entry Z) :=
  [entry (Some "Safaricom") (Some (Json.JNum 1550));
   entry None (Some (Json.JNum 4000))].

(** [[{"name": "Safaricom", "price": "15.50"}]] *)
Definition text_price : list (@Raw.Entry Z) :=
  [entry (Some "Safaricom") (Some (Json.JStr "15.50"))].

Definition world (t : list Row) (catalog : list (@Raw.Entry Z))
    : @Raw.World Z :=
  {| Raw.subscribers := t; Raw.CURRENT_STOCKS_DATA := catalog;
     Raw.STOCKS_JSON_FILE := catalog |}.

Definition ussd : string → string → @Raw.Py Z string :=
  Raw.ussd_callback Demo.format_cents 4300.

End DemoRaw.

(** ** wen.py: the scheduler *)

Module Scheduler.

(** What the scheduler reads of a [datetime]: its place on the time line in
    microseconds (two of them are only ever subtracted), [weekday()],
    [hour], [minute], [strftime("%Y-%m-%d")] and [isoformat()]. *)
Record datetime := {
  clock : Z;
  weekday : Z;
  hour : Z;
  minute : Z;
  date : string;
  isoformat : string
}.

Definition MARKET_OPEN_HOUR : Z := 8.
Definition MARKET_CLOSE_HOUR : Z := 15.
Definition MARKET_CLOSE_MINUTE_BUFFER : Z := 5.
Definition SCRAPE_INTERVAL_MINUTES : Z := 5.

(** The object of the status file; a key may be missing. *)
Record status_json := {
  key_last_notification_sent : option notification_status;
  key_last_scrape_time : option (option string)
}.

(** The status file: missing or not JSON, or an object. *)
Inductive status_file :=
  | No_status
  | Status (data : status_json).

(** [load_last_notification_status()] *)
Definition load_last_notification_status (f : status_file)
    : notification_status * option string :=
  match f with
  | No_status => ({| last_open := None; last_close := None |}, None)
  | Status data =>
      (default {| last_open := None; last_close := None |}
               (key_last_notification_sent data),
       default None (key_last_scrape_time data))
  end.

(** [save_last_notification_status(d, t)], the write succeeding *)
Definition save_last_notification_status (d : notification_status)
    (t : option string) : status_file :=
  Status {| key_last_notification_sent := Some d;
            key_last_scrape_time := Some t |}.

(** The global variables of wen.py, the status file, and the record of
    what the scheduler has done: the messages handed to [sms.send] and the
    times at which [scrape_and_save_stocks] was called. *)
Record state := {
  last_notification_sent : notification_status;
  last_scrape_time : option datetime;
  STATUS_FILE : status_file;
  sms_sent : list (string * string);
  scrapes : list datetime
}.

(** The exception of [now - last_scrape_time] when the variable is
    [None]. *)
Inductive crash := TypeError.

(** [run_scheduler()] before its loop: the status is loaded, and
    [last_scrape_time] is the time parsed from the file or six minutes
    before the start, at any rate a [datetime]. *)
Definition start (f : status_file) (scrape_time : datetime) : state :=
  {| last_notification_sent := (load_last_notification_status f).1;
     last_scrape_time := Some scrape_time;
     STATUS_FILE := f;
     sms_sent := [];
     scrapes := [] |}.

(** [a <= b] on [datetime.time] values of whole minutes *)
Definition time_le (h1 m1 h2 m2 : Z) : bool :=
  (h1 <? h2) || ((h1 =? h2) && (m1 <=? m2)).

Section Run.

Context {Price : Type} (format_2f : Price → string).

(** [send_market_notification(k)] on the global variables: [today] is the
    date it reads from the clock, [subs] the rows of
    [get_all_subscribers()], [current_stocks] the list read from the
    catalog file. *)
Definition send_market_notification (k : notification_type)
    (today : string) (subs : list Row) (current_stocks : list (@Stock Price))
    (s : state) : state :=
  if decide (last_sent k (last_notification_sent s) = Some today) then s
  else if is_empty current_stocks then s
  else
    let sent := set_last_sent k today (last_notification_sent s) in
    {| last_notification_sent := sent;
       last_scrape_time := last_scrape_time s;
       STATUS_FILE :=
         save_last_notification_status sent
           (isoformat <$> last_scrape_time s);
       sms_sent :=
         sms_sent s ++
         notify_subscribers format_2f k (stock_dict current_stocks) subs;
       scrapes := scrapes s |}.

(** The periodic scrape of the loop. *)
Definition scrape (now : datetime) (s : state) : state :=
  {| last_notification_sent := last_notification_sent s;
     last_scrape_time := Some now;
     STATUS_FILE :=
       save_last_notification_status (last_notification_sent s)
         (Some (isoformat now));
     sms_sent := sms_sent s;
     scrapes := scrapes s ++ [now] |}.

(** The daily reset of the loop. *)
Definition reset (s : state) : state :=
  let sent := {| last_open := None; last_close := None |} in
  {| last_notification_sent := sent;
     last_scrape_time := None;
     STATUS_FILE := save_last_notification_status sent None;
     sms_sent := sms_sent s;
     scrapes := scrapes s |}.

(** A weekday: Monday is 0 and Sunday 6. *)
Definition is_weekday (now : datetime) : bool :=
  (0 <=? weekday now) && (weekday now <=? 4).

Definition is_during_market_hours (now : datetime) : bool :=
  time_le MARKET_OPEN_HOUR 0 (hour now) (minute now) &&
  time_le (hour now) (minute now)
          MARKET_CLOSE_HOUR MARKET_CLOSE_MINUTE_BUFFER.

(** The block "Periodic Scraping Logic" of the loop. *)
Definition periodic_scrape (now : datetime) (s : state) : state + crash :=
  if is_weekday now && is_during_market_hours now then
    match last_scrape_time s with
    | None => inr TypeError
    | Some last =>
        if SCRAPE_INTERVAL_MINUTES * 60 * 1000000 <=? clock now - clock last
        then inl (scrape now s)
        else inl s
    end
  else inl s.

(** The block "Market Open/Close Notification Logic" of the loop. *)
Definition notifications (now : datetime) (today : string)
    (subs : list Row) (current_stocks : list (@Stock Price)) (s : state)
    : state :=
  let s1 :=
    if is_weekday now && (hour now =? MARKET_OPEN_HOUR) &&
       (0 <=? minute now) && (minute now <? 10)
    then send_market_notification Open today subs current_stocks s
    else s in
  if is_weekday now && (hour now =? MARKET_CLOSE_HOUR) &&
     (0 <=? minute now) && (minute now <? 10)
  then send_market_notification Close today subs current_stocks s1
  else s1.

(** The block that resets the status early in the morning. *)
Definition daily_reset (now : datetime) (s : state) : state :=
  if (hour now =? 0) && (minute now =? 5) then
    if decide (last_open (last_notification_sent s) = Some (date now))
    then s
    else reset s
  else s.

(** One turn of the loop of [run_scheduler()] at the time [now], up to its
    [time.sleep(60)]: the three blocks in their order. [today] is the date
    that [send_market_notification] reads from the clock. *)
Definition iteration (now : datetime) (today : string) (subs : list Row)
    (current_stocks : list (@Stock Price)) (s : state) : state + crash :=
  match periodic_scrape now s with
  | inr e => inr e
  | inl s1 =>
      inl (daily_reset now (notifications now today subs current_stocks s1))
  end.

End Run.

End Scheduler.

(** ** Data of the examples: a Monday morning and a catalog file *)

Module DemoClock.

Import Scheduler.

(** A time of the week of Monday 2026-01-05, [day] counting from that
    Monday. *)
Definition at_time (day : Z) (d : string) (h m : Z) (iso : string)
    : datetime :=
  {| clock := ((day * 24 + h) * 60 + m) * 60 * 1000000;
     weekday := day; hour := h; minute := m; date := d; isoformat := iso |}.

Definition monday_0754 : datetime :=
  at_time 0 "2026-01-05" 7 54 "2026-01-05T07:54:00".
Definition monday_0800 : datetime :=
  at_time 0 "2026-01-05" 8 0 "2026-01-05T08:00:00".
Definition monday_0803 : datetime :=
  at_time 0 "2026-01-05" 8 3 "2026-01-05T08:03:00".
Definition tuesday_0005 : datetime :=
  at_time 1 "2026-01-06" 0 5 "2026-01-06T00:05:00".
Definition tuesday_0800 : datetime :=
  at_time 1 "2026-01-06" 8 0 "2026-01-06T08:00:00".

(** The scheduler started at 08:00 on Monday without a status file. *)
Definition started : state := start No_status monday_0754.

Definition subs : list Row :=
  [Demo.row ["kcb"] 1 0;
   {| phone_number := "254711111111"; subscribed_stocks := ["KCB"];
      market_open_notify := 0; market_close_notify := 1 |}].

Definition send : notification_type → string → list Row →
    list (@Stock Z) → state → state :=
  send_market_notification Demo.format_cents.

Definition turn : datetime → string → list Row → list (@Stock Z) →
    state → state + crash :=
  iteration Demo.format_cents.

(** The state after the turn of Monday 08:00: the scrape, then the open
    batch. *)
Definition after_0800 : state :=
  send Open "2026-01-05" subs Demo.catalog2 (scrape monday_0800 started).

End DemoClock.

Module DemoCatalog.

Import Json.

(** Numbers as integers; [0] is false. *)
Definition num_truth (n : Z) : bool := negb (n =? 0).

(** [json.loads] as far as the examples go: two arrays, and no other text
    of the examples is JSON. *)
Definition loads (s : string) : option (@json Z) :=
  if decide (s = "[1, 2]") then Some (JArr [JNum 1; JNum 2])
  else if decide (s = "[]") then Some (JArr [])
  else None.

Definition clean : list Z → reply → @json Z :=
  send_to_gemini_for_cleaning loads.

Definition scrape_and_save : list Z → reply → string → write → @file Z →
    @json Z * @file Z :=
  scrape_and_save_stocks num_truth loads.

End DemoCatalog.

(** ** Python strings and lists: lemmas *)

Module PyFacts.

Lemma startswith_app (p r : string) : startswith (p +:+ r) p = true.
Proof.
  induction p as [|a p IH]; simpl; [done|].
  by rewrite Ascii.eqb_refl, IH.
Qed.

Lemma startswith_inv (s p : string) :
  startswith s p = true → ∃ r, s = p +:+ r.
Proof.
  revert s. induction p as [|a p IH]; intros s H; simpl in *.
  - by exists s.
  - destruct s as [|b s]; [done|].
    apply andb_true_iff in H as [Hab Hs].
    apply Ascii.eqb_eq in Hab as ->.
    destruct (IH _ Hs) as [r ->]. by exists r.
Qed.

Lemma split_nonempty (sep : ascii) (s : string) : split sep s ≠ [].
Proof.
  induction s as [|c s IH]; simpl; [done|].
  destruct (Ascii.eqb c sep); [done|].
  by destruct (split sep s).
Qed.

Lemma split_app (sep : ascii) (a b : string) :
  split sep (a +:+ String sep b) = split sep a ++ split sep b.
Proof.
  induction a as [|c a IH]; simpl.
  - by rewrite Ascii.eqb_refl.
  - destruct (Ascii.eqb c sep); [by rewrite IH|].
    rewrite IH. pose proof (split_nonempty sep a).
    by destruct (split sep a).
Qed.

(** The last element of a non-empty list is [l[-1]]. *)
Lemma getitem_last {A} (l : list A) :
  l ≠ [] → getitem l (-1) = last l.
Proof.
  intros Hl. unfold getitem.
  assert (0 < length l)%nat by (destruct l; [done|simpl; lia]).
  replace (0 <=? -1) with false by done. simpl.
  replace (- Z.of_nat (length l) <=? -1) with true by lia.
  simpl. rewrite last_lookup. f_equal. lia.
Qed.

Lemma getitem_in_range {A} (l : list A) (i : Z) :
  (0 <=? i) && (i <? Z.of_nat (length l)) = true →
  ∃ x, getitem l i = Some x ∧ l !! Z.to_nat i = Some x.
Proof.
  intros H. unfold getitem. rewrite H.
  apply andb_true_iff in H as [H0 H1].
  destruct (lookup_lt_is_Some_2 l (Z.to_nat i)) as [x Hx]; [lia|].
  by exists x.
Qed.

Lemma pop_in_range {A} (l : list A) (i : Z) :
  (0 <=? i) && (i <? Z.of_nat (length l)) = true →
  ∃ x, pop l i = Some (x, delete (Z.to_nat i) l)
       ∧ l !! Z.to_nat i = Some x.
Proof.
  intros H. unfold pop.
  assert ((i <? 0) = false) as -> by lia. rewrite H.
  apply andb_true_iff in H as [H0 H1].
  destruct (lookup_lt_is_Some_2 l (Z.to_nat i)) as [x Hx]; [lia|].
  exists x. by rewrite Hx.
Qed.

Lemma split_segment (sep : ascii) (s : string) :
  occurs sep s = false → split sep s = [s].
Proof.
  induction s as [|c s IH]; simpl; [done|].
  intros [Hc Hs]%orb_false_iff. by rewrite Hc, IH.
Qed.

Lemma lstrip_occurs (c : ascii) (s : string) :
  occurs c s = true → is_space c = true ∨ occurs c (lstrip s) = true.
Proof.
  induction s as [|c' s IH]; simpl; [done|].
  destruct (is_space c') eqn:Hsp; [|by right].
  intros [->%Ascii.eqb_eq|Hs]%orb_true_iff; [by left|by apply IH].
Qed.

Lemma rstrip_occurs (c : ascii) (s : string) :
  occurs c s = true → is_space c = true ∨ occurs c (rstrip s) = true.
Proof.
  induction s as [|c' s IH]; simpl; [done|].
  intros [Hc|Hs]%orb_true_iff.
  - apply Ascii.eqb_eq in Hc as ->.
    destruct (rstrip s); [|right; simpl; by rewrite Ascii.eqb_refl].
    destruct (is_space c) eqn:Hsp; [by left|].
    right; simpl; by rewrite Ascii.eqb_refl.
  - destruct (IH Hs) as [?|Hr]; [by left|].
    destruct (rstrip s); [done|]. right. simpl in *.
    by rewrite Hr, orb_true_r.
Qed.

Lemma digits_go_occurs acc count after s r (c : ascii) :
  digits_go acc count after s = Some r → occurs c s = true →
  int_char c = true.
Proof.
  revert acc count after.
  induction s as [|c' s IH]; intros acc count after; simpl; [done|].
  intros Hgo [Hc|Hs]%orb_true_iff.
  - apply Ascii.eqb_eq in Hc as ->. unfold int_char.
    destruct (digit_of c) eqn:Hd.
    + rewrite bool_decide_true by done. by rewrite orb_true_r.
    + destruct (Ascii.eqb c "_") eqn:Hu; [by rewrite orb_true_r|done].
  - destruct (digit_of c'); [by eapply IH|].
    destruct (Ascii.eqb c' "_" && after); [by eapply IH|done].
Qed.

(** An [int] literal is made of white space, signs, digits and
    underscores. *)
Lemma int_occurs m s k (c : ascii) :
  int m s = Some k → occurs c s = true → int_char c = true.
Proof.
  unfold int, strip. intros Hint Hc.
  destruct (lstrip_occurs c s Hc) as [Hsp|Hc1].
  { unfold int_char. by rewrite Hsp. }
  destruct (rstrip_occurs c _ Hc1) as [Hsp|Hc2].
  { unfold int_char. by rewrite Hsp. }
  set (t := rstrip (lstrip s)) in *.
  assert (∀ body, occurs c body = true →
                  is_Some (digits_go 0 0 false body) → int_char c = true)
    as Hbody.
  { intros body Hb [r Hr]. by eapply digits_go_occurs. }
  destruct t as [|a t']; [done|].
  simpl in Hc2. apply orb_true_iff in Hc2.
  destruct (decide (a = "+"%char)) as [->|Hplus].
  { destruct Hc2 as [<-%Ascii.eqb_eq|Hc2]; [done|].
    apply (Hbody t' Hc2). by destruct (digits_go 0 0 false t'). }
  destruct (decide (a = "-"%char)) as [->|Hminus].
  { destruct Hc2 as [<-%Ascii.eqb_eq|Hc2]; [done|].
    apply (Hbody t' Hc2). by destruct (digits_go 0 0 false t'). }
  apply (Hbody (String a t')).
  { simpl. apply orb_true_iff. destruct Hc2; auto. }
  destruct a as [[] [] [] [] [] [] [] []]; try done;
    by destruct (digits_go 0 0 false _).
Qed.

Lemma int_segment m s k : int m s = Some k → split "*" s = [s].
Proof.
  intros Hint. apply split_segment.
  destruct (occurs "*" s) eqn:Hc; [|done].
  by apply (int_occurs _ _ _ _ Hint) in Hc.
Qed.

Lemma all_digits_occurs (c : ascii) s :
  all_digits s = true → occurs c s = true → is_Some (digit_of c).
Proof.
  induction s as [|c' s IH]; simpl; [done|].
  intros [Hd Hs]%andb_true_iff [Hc|Hc]%orb_true_iff; [|by apply IH].
  apply Ascii.eqb_eq in Hc as ->. by apply bool_decide_eq_true in Hd.
Qed.

Lemma isdigit_segment s : isdigit s = true → split "*" s = [s].
Proof.
  intros Hd. apply split_segment.
  destruct (occurs "*" s) eqn:Hc; [|done].
  assert (all_digits s = true) as Hall by (by destruct s).
  by destruct (all_digits_occurs _ _ Hall Hc).
Qed.

Lemma getitem_2 {A} (l : list A) :
  (3 <=? length l)%nat = true → ∃ x, getitem l 2 = Some x.
Proof.
  intros H. apply Nat.leb_le in H.
  destruct (getitem_in_range l 2) as (x & ? & _); [|by exists x].
  apply andb_true_iff; split; lia.
Qed.

Lemma string_app_assoc (a b c : string) : (a +:+ b) +:+ c = a +:+ b +:+ c.
Proof.
  induction a as [|x a IH]; [done|].
  change (String x ((a +:+ b) +:+ c) = String x (a +:+ b +:+ c)).
  by rewrite IH.
Qed.

(** The lines of [enumerate] each ended by a newline, and the same lines
    joined by newlines. *)
Lemma join_lines (g : nat → string → string) (l : list string) :
  l ≠ [] →
  join "" (imap (λ i s, g i s +:+ nl) l) = join nl (imap g l) +:+ nl.
Proof.
  revert g. induction l as [|x l IH]; intros g Hl; [done|].
  destruct l as [|y l]; [done|].
  specialize (IH (g ∘ S) ltac:(done)).
  change (imap (λ i s, g i s +:+ nl) (x :: y :: l))
    with ((g 0%nat x +:+ nl)
            :: imap (λ i s, (g ∘ S) i s +:+ nl) (y :: l)).
  change (imap g (x :: y :: l)) with (g 0%nat x :: imap (g ∘ S) (y :: l)).
  change (join "" ((g 0%nat x +:+ nl)
                     :: imap (λ i s, (g ∘ S) i s +:+ nl) (y :: l)))
    with ((g 0%nat x +:+ nl) +:+ "" +:+
          join "" (imap (λ i s, (g ∘ S) i s +:+ nl) (y :: l))).
  change (join nl (g 0%nat x :: imap (g ∘ S) (y :: l)))
    with (g 0%nat x +:+ nl +:+ join nl (imap (g ∘ S) (y :: l))).
  rewrite IH. change ("" +:+ ?s) with s.
  by rewrite !string_app_assoc.
Qed.

Lemma numbered_lines_display (l : list string) :
  l ≠ [] → join "" (numbered_lines l) = current_subs_display l +:+ nl.
Proof.
  intros Hl. unfold numbered_lines, current_subs_display.
  rewrite <- (join_lines (λ i s, str (i + 1) +:+ ". " +:+ s)) by done.
  f_equal. apply imap_ext. intros i s _. simpl.
  by rewrite !string_app_assoc.
Qed.

Lemma same_letter_lower (x y : ascii) :
  same_letter x y = true ↔ lower_char x = lower_char y.
Proof.
  assert (∀ c, nat_of_ascii (lower_char c) =
               if ((65 <=? nat_of_ascii c) && (nat_of_ascii c <=? 90))%nat
               then (nat_of_ascii c + 32)%nat else nat_of_ascii c) as Hcode.
  { intros c. unfold lower_char.
    destruct ((65 <=? nat_of_ascii c) && (nat_of_ascii c <=? 90))%nat eqn:E;
      [|done].
    apply nat_ascii_embedding.
    apply andb_true_iff in E as [_ E%Nat.leb_le]. lia. }
  assert (lower_char x = lower_char y
          ↔ nat_of_ascii (lower_char x) = nat_of_ascii (lower_char y)) as ->.
  { split; [by intros ->|]. intros E.
    by rewrite <- (ascii_nat_embedding (lower_char x)), E,
         ascii_nat_embedding. }
  rewrite !Hcode. unfold same_letter.
  destruct (Nat.leb_spec 65 (nat_of_ascii x)), (Nat.leb_spec (nat_of_ascii x) 90),
    (Nat.leb_spec 65 (nat_of_ascii y)), (Nat.leb_spec (nat_of_ascii y) 90);
    simpl;
    rewrite ?orb_false_r, ?orb_true_iff, ?Nat.eqb_eq; lia.
Qed.

(** Two texts are the same up to case exactly when [lower] makes them
    equal. *)
Lemma same_ignoring_case_lower (a b : string) :
  same_ignoring_case a b = true ↔ lower a = lower b.
Proof.
  revert b. induction a as [|x a IH]; intros [|y b]; simpl; try done.
  rewrite andb_true_iff, same_letter_lower, IH.
  split; [by intros [-> ->]|]. by intros [= -> ->].
Qed.

End PyFacts.

(** Unfolding the monad and the statements of db.py. *)
Ltac py_unfold :=
  cbv [mbind mret Py_bind Py_ret gets modify raise or_raise try_except
       get_subscriber add_subscriber remove_subscriber
       update_subscribed_stocks update_notification_preference
       get_all_subscribers].

(** ** The table: lemmas on the SQL statements *)

Module Table.

Lemma fetchone_cons phone r t :
  fetchone phone (r :: t) =
  if decide (phone_number r = phone) then Some r else fetchone phone t.
Proof. unfold fetchone. rewrite filter_cons. by case_decide. Qed.

Lemma fetchone_None phone t :
  fetchone phone t = None ↔ phone ∉ phone_number <$> t.
Proof.
  induction t as [|r t IH].
  { split; [intros _; apply not_elem_of_nil|done]. }
  rewrite fetchone_cons, fmap_cons, not_elem_of_cons.
  case_decide; intuition congruence.
Qed.

Lemma fetchone_Some phone t r :
  fetchone phone t = Some r → r ∈ t ∧ phone_number r = phone.
Proof.
  induction t as [|r' t IH]; [done|].
  rewrite fetchone_cons. case_decide.
  - intros [= ->]. split; [left|done].
  - intros H'. destruct (IH H'). split; [by right|done].
Qed.

(** With the primary key, the row of a phone number is the one fetched. *)
Lemma fetchone_unique phone t sub r :
  primary_key t → fetchone phone t = Some sub →
  r ∈ t → phone_number r = phone → r = sub.
Proof.
  unfold primary_key. induction t as [|r' t IH]; [by rewrite elem_of_nil|].
  rewrite fmap_cons, NoDup_cons, fetchone_cons, elem_of_cons.
  intros [Hr' Ht] Hf [->|Hin] Hp.
  - rewrite decide_True in Hf by done. congruence.
  - case_decide; [|by apply IH].
    exfalso. apply Hr'. rewrite <- Hp in *.
    apply list_elem_of_fmap. exists r. split; [congruence|done].
Qed.

Lemma records_of_fetchone phone t :
  primary_key t →
  records_of phone t = match fetchone phone t with
                       | Some _ => 1%nat
                       | None => 0%nat
                       end.
Proof.
  unfold primary_key, records_of.
  induction t as [|r t IH]; [done|].
  rewrite fmap_cons, NoDup_cons, fetchone_cons, filter_cons.
  intros [Hr Ht]. case_decide as Hp; simpl; [|by apply IH].
  assert (fetchone phone t = None) as Hnone.
  { apply fetchone_None. by rewrite <- Hp. }
  rewrite IH, Hnone; done.
Qed.

Section Update.

Context (phone : string) (f : Row → Row).
Hypothesis f_phone : ∀ r, phone_number (f r) = phone_number r.

Lemma update_where_phones t :
  phone_number <$> update_where phone f t = phone_number <$> t.
Proof.
  unfold update_where. rewrite <- list_fmap_compose.
  apply list_fmap_ext. intros i r _. simpl. by case_decide.
Qed.

Lemma fetchone_update_where t :
  fetchone phone (update_where phone f t) = f <$> fetchone phone t.
Proof.
  induction t as [|r t IH]; [done|].
  unfold update_where in *. rewrite fmap_cons, !fetchone_cons.
  destruct (decide (phone_number r = phone)) as [Hp|Hp].
  - rewrite decide_True; [done|]. by rewrite f_phone.
  - by rewrite decide_False.
Qed.

Lemma fetchone_update_where_ne other t :
  other ≠ phone →
  fetchone other (update_where phone f t) = fetchone other t.
Proof.
  intros Hne. induction t as [|r t IH]; [done|].
  unfold update_where in *. rewrite fmap_cons, !fetchone_cons.
  destruct (decide (phone_number r = phone)) as [Hp|Hp].
  - rewrite !decide_False; [done|congruence|rewrite f_phone; congruence].
  - by rewrite IH.
Qed.

(** An update that does not change the fetched row changes nothing. *)
Lemma update_where_id t sub :
  primary_key t → fetchone phone t = Some sub → f sub = sub →
  update_where phone f t = t.
Proof.
  intros Hpk Hsub Hf. unfold update_where.
  rewrite <- (list_fmap_id t) at 2.
  apply list_fmap_ext. intros i r Hi. simpl. case_decide; [|done].
  assert (r = sub) as ->; [|done].
  eapply fetchone_unique; eauto. by eapply list_elem_of_lookup_2.
Qed.

End Update.

Lemma update_where_twice phone f g t :
  (∀ r, phone_number (f r) = phone_number r) →
  update_where phone g (update_where phone f t) =
  update_where phone (g ∘ f) t.
Proof.
  intros Hf. unfold update_where. rewrite <- list_fmap_compose.
  apply list_fmap_ext. intros i r _. simpl.
  destruct (decide (phone_number r = phone)) as [Hp|Hp].
  - by rewrite decide_True by (by rewrite Hf).
  - by rewrite decide_False.
Qed.

Lemma fetchone_delete_where phone t :
  fetchone phone (delete_where phone t) = None.
Proof.
  apply fetchone_None. unfold delete_where.
  intros Hin. apply list_elem_of_fmap in Hin as (r & Hp & Hin).
  apply list_elem_of_filter in Hin as [Hne _]. congruence.
Qed.

Lemma delete_where_absent phone t :
  fetchone phone t = None → delete_where phone t = t.
Proof.
  rewrite fetchone_None. unfold delete_where.
  induction t as [|r t IH]; [done|].
  rewrite fmap_cons, not_elem_of_cons. intros [Hne Ht].
  rewrite filter_cons, decide_True by done. by rewrite IH.
Qed.

Lemma fetchone_insert phone t :
  phone ∉ phone_number <$> t →
  fetchone phone (t ++ [new_row phone]) = Some (new_row phone).
Proof.
  induction t as [|r t IH]; simpl.
  - intros _. by rewrite fetchone_cons, decide_True.
  - rewrite not_elem_of_cons. intros [Hne Ht].
    rewrite fetchone_cons, decide_False by done. by apply IH.
Qed.

Lemma set_stocks_phone l r : phone_number (set_stocks l r) = phone_number r.
Proof. done. Qed.

Lemma set_preference_phone p v r :
  phone_number (set_preference p v r) = phone_number r.
Proof. by destruct p. Qed.

(** *** The invariants of the table are kept by every step *)

Lemma primary_key_step phone t t' :
  db_step phone t t' → primary_key t → primary_key t'.
Proof.
  unfold primary_key.
  destruct 1 as [|Hnew| |sub x _ _|sub i x _ _|sub p v _ _]; intros Hpk.
  - done.
  - rewrite fmap_app. apply NoDup_app. split_and!; [done| |].
    + intros q Hq Hq'. simpl in Hq'.
      apply list_elem_of_singleton in Hq' as ->. done.
    + apply NoDup_singleton.
  - unfold delete_where. induction t as [|r t IH]; [done|].
    rewrite fmap_cons, NoDup_cons in Hpk. destruct Hpk as [Hr Ht].
    rewrite filter_cons. case_decide; [|by apply IH].
    rewrite fmap_cons, NoDup_cons. split; [|by apply IH].
    intros Hin. apply Hr.
    apply list_elem_of_fmap in Hin as (r' & Hp & Hin).
    apply list_elem_of_filter in Hin as [_ Hin].
    apply list_elem_of_fmap. by exists r'.
  - by rewrite update_where_phones.
  - by rewrite update_where_phones.
  - rewrite update_where_phones; [done|]. apply set_preference_phone.
Qed.

Lemma Forall_update_where (P : Row → Prop) phone f t :
  (∀ r, r ∈ t → P r → phone_number r = phone → P (f r)) →
  Forall P t → Forall P (update_where phone f t).
Proof.
  intros Hf. rewrite !Forall_forall. intros Ht r' Hin.
  apply list_elem_of_fmap in Hin as (r & -> & Hin).
  case_decide; auto.
Qed.

Lemma Forall_delete_where (P : Row → Prop) phone t :
  Forall P t → Forall P (delete_where phone t).
Proof.
  rewrite !Forall_forall. intros Ht r Hin.
  apply list_elem_of_filter in Hin as [_ Hin]. auto.
Qed.

Lemma stocks_unique_step phone t t' :
  db_step phone t t' → stocks_unique t → stocks_unique t'.
Proof.
  unfold stocks_unique.
  destruct 1 as [|Hnew| |sub x Hsub Hx|sub i x Hsub Hx|sub p v _ _];
    intros Hall.
  - done.
  - apply Forall_app. split; [done|]. repeat constructor.
  - by apply Forall_delete_where.
  - apply Forall_update_where; [|done]. intros r _ _ _. simpl.
    apply fetchone_Some in Hsub as [Hin _].
    rewrite Forall_forall in Hall. specialize (Hall _ Hin).
    apply NoDup_app. split_and!; [done| |apply NoDup_singleton].
    intros y Hy Hy'. apply list_elem_of_singleton in Hy' as ->. done.
  - apply Forall_update_where; [|done]. intros r _ _ _. simpl.
    apply fetchone_Some in Hsub as [Hin _].
    rewrite Forall_forall in Hall. specialize (Hall _ Hin).
    eapply sublist_NoDup; [done|]. apply sublist_delete.
  - apply Forall_update_where; [|done]. intros r _ Hr _. by destruct p.
Qed.

Lemma flags_boolean_step phone t t' :
  db_step phone t t' → flags_boolean t → flags_boolean t'.
Proof.
  unfold flags_boolean.
  destruct 1 as [|Hnew| |sub x _ _|sub i x _ _|sub p v _ Hv]; intros Hall.
  - done.
  - apply Forall_app. split; [done|]. repeat constructor; by left.
  - by apply Forall_delete_where.
  - by apply Forall_update_where.
  - by apply Forall_update_where.
  - apply Forall_update_where; [|done]. intros r _ [Ho Hc] _.
    by destruct p.
Qed.

End Table.

(** ** The request handler *)

Section Handlers.

Context {Price : Type} (format_2f : Price → string) (max_str_digits : nat).
Implicit Types (w : @World Price) (phone text seg : string).

Local Abbreviation ussd := (ussd_callback format_2f max_str_digits).
Local Abbreviation select := (handle_stock_selection max_str_digits).
Local Abbreviation view := (handle_view_stock_details format_2f max_str_digits).
Local Abbreviation manage := (handle_manage_subscribed_stocks max_str_digits).
Local Abbreviation to_int := (int max_str_digits).

Lemma getitem_split_last text :
  getitem (split "*" text) (-1) = Some (last_segment text).
Proof.
  rewrite PyFacts.getitem_last by apply PyFacts.split_nonempty.
  unfold last_segment.
  destruct (last (split "*" text)) eqn:E; [done|].
  apply last_None in E. by apply PyFacts.split_nonempty in E.
Qed.

Lemma display_stocks_menu_run phone path w :
  display_stocks_menu phone path w = (Return (shown_menu w), reloaded w).
Proof.
  unfold display_stocks_menu, shown_menu, reloaded.
  destruct w as [t data file]; destruct data as [|s data]; simpl.
  - cbv [mbind mret Py_bind Py_ret gets modify load_stocks_data]; simpl.
    by destruct file.
  - done.
Qed.

(** One case distinction of a handler, on the first test that blocks its
    evaluation. *)
Ltac py_case :=
  match goal with
  | |- context [getitem (split "*" ?t) (-1)] => rewrite (getitem_split_last t)
  | |- context [display_stocks_menu ?p ?c ?w] =>
      rewrite (display_stocks_menu_run p c w)
  | H : (0 <=? ?i) && (?i <? Z.of_nat (length ?l)) = true
    |- context [getitem ?l ?i] =>
      let x := fresh "x" in
      destruct (PyFacts.getitem_in_range l i H) as (x & -> & ?)
  | H : (0 <=? ?i) && (?i <? Z.of_nat (length ?l)) = true
    |- context [pop ?l ?i] =>
      let x := fresh "x" in
      destruct (PyFacts.pop_in_range l i H) as (x & -> & ?)
  | H : (3 <=? length ?l)%nat = true |- context [getitem ?l 2] =>
      let x := fresh "x" in
      destruct (PyFacts.getitem_2 l H) as (x & ->)
  | |- context [(3 <=? length ?l)%nat] =>
      destruct (3 <=? length l)%nat eqn:?
  | |- context [bool_decide ?P && isdigit ?s] =>
      destruct (bool_decide P && isdigit s) eqn:?
  | |- context [startswith ?t ?p] => destruct (startswith t p) eqn:?
  | |- context [decide ?P] => destruct (decide P)
  | |- context [int ?m ?s] => destruct (int m s) eqn:?
  | |- context [fetchone ?p ?t] => destruct (fetchone p t) eqn:?
  | |- context [(0 <=? ?i) && (?i <? ?n)] =>
      destruct ((0 <=? i) && (i <? n)) eqn:?
  | |- context [is_empty ?l] => destruct (is_empty l) eqn:?
  end; py_unfold.

Lemma step_ok_same phone w r : step_ok phone w (Return r, w).
Proof. exists r; repeat split; [constructor|by left]. Qed.

Lemma step_ok_reloaded phone w r : step_ok phone w (Return r, reloaded w).
Proof.
  exists r; repeat split; [|by destruct w as [? [] ?]| by right].
  destruct w as [? [] ?]; constructor.
Qed.

Lemma step_ok_table phone w r t :
  db_step phone (subscribers w) t →
  step_ok phone w (Return r, set_subscribers t w).
Proof. intros H. exists r; repeat split; [done|by left]. Qed.

Lemma step_ok_table_reloaded phone w r t :
  db_step phone (subscribers w) t →
  step_ok phone w (Return r, reloaded (set_subscribers t w)).
Proof.
  intros H. exists r. destruct w as [? [] ?]; repeat split; simpl; auto.
Qed.

Ltac step_done :=
  try congruence;
  first [ apply step_ok_same | apply step_ok_reloaded
        | apply step_ok_table | apply step_ok_table_reloaded ].

Lemma handle_stock_selection_step phone text w :
  step_ok phone w (select phone text w).
Proof.
  unfold handle_stock_selection. py_unfold. repeat py_case.
  all: step_done. by eapply db_subscribe.
Qed.

Lemma handle_view_stock_details_step phone text w :
  step_ok phone w (view phone text w).
Proof.
  unfold handle_view_stock_details. py_unfold. repeat py_case.
  all: step_done.
Qed.

Lemma handle_manage_subscribed_stocks_step phone text w :
  step_ok phone w (manage phone text w).
Proof.
  unfold handle_manage_subscribed_stocks. py_unfold. repeat py_case.
  all: try apply handle_stock_selection_step; step_done.
  all: by eapply db_unsubscribe.
Qed.

Lemma handle_notification_preference_step phone text w :
  step_ok phone w (handle_notification_preference phone text w).
Proof.
  unfold handle_notification_preference. py_unfold. repeat py_case.
  all: step_done.
  all: eapply db_toggle; eauto.
Qed.

(** Every request returns a response, and what it does to the table is one
    of the steps of [db_step]. *)
Lemma ussd_callback_step phone text w : step_ok phone w (ussd phone text w).
Proof.
  unfold ussd_callback.
  repeat match goal with
         | |- step_ok _ _ ((if decide ?P then _ else _) _) =>
             destruct (decide P)
         | |- step_ok _ _ ((if startswith ?t ?p then _ else _) _) =>
             destruct (startswith t p) eqn:?
         end.
  all: try first [ apply handle_stock_selection_step
                 | apply handle_view_stock_details_step
                 | apply handle_manage_subscribed_stocks_step
                 | apply handle_notification_preference_step ].
  all: py_unfold; repeat py_case; step_done.
  all: by constructor.
Qed.

(** In every state of the service the phone numbers of the table are
    distinct, no subscription list repeats a name, and the flags are 0
    or 1. *)
Lemma reachable_invariants w :
  reachable format_2f max_str_digits w →
  primary_key (subscribers w) ∧ stocks_unique (subscribers w)
  ∧ flags_boolean (subscribers w).
Proof.
  induction 1 as [data file|w phone text _ (Hpk & Hst & Hfl)|w file _ IH].
  - unfold primary_key, stocks_unique, flags_boolean. simpl.
    repeat split; constructor.
  - destruct (ussd_callback_step phone text w) as (_ & _ & Hstep & _).
    split_and!;
      eauto using Table.primary_key_step, Table.stocks_unique_step,
        Table.flags_boolean_step.
  - done.
Qed.

(** Rewriting the tests of the dispatch on a path whose beginning is
    known. *)
Ltac decide_path :=
  repeat match goal with
         | |- context [decide (?a = ?b)] =>
             first [ rewrite (decide_True (P := a = b)) by reflexivity
                   | rewrite (decide_False (P := a = b))
                       by (let E := fresh in intros E; simpl in E;
                           discriminate E) ]
         end.

Lemma ussd_callback_unmatched phone text w :
  ¬ menu_path text → ussd phone text w = (Return invalid_input, w).
Proof.
  intros Hno. unfold ussd_callback.
  repeat match goal with
         | |- context [decide (text = ?b)] =>
             destruct (decide (text = b)) as [->|_];
             [exfalso; apply Hno; constructor|]
         | |- context [startswith text ?p] =>
             let E := fresh in
             destruct (startswith text p) eqn:E;
             [apply PyFacts.startswith_inv in E as [r ->];
              exfalso; apply Hno; constructor|]
         end.
  done.
Qed.

(** On a typed catalog, whose entries all have a name and a number for a
    price, the handler returns a response for every phone number and every
    path; a path that none of the tests of the dispatch matches gets the
    terminal response "END Invalid input. Please try again." and changes
    nothing. On a catalog as the file may hold it, see [Raw]. *)
Lemma ussd_callback_total phone text w :
  (∃ response, (ussd phone text w).1 = Return response) ∧
  (¬ menu_path text → ussd phone text w = (Return invalid_input, w)).
Proof.
  split; [|apply ussd_callback_unmatched].
  destruct (ussd_callback_step phone text w) as (r & Hr & _). by exists r.
Qed.

Lemma set_subscribers_same w : set_subscribers (subscribers w) w = w.
Proof. by destruct w. Qed.

Lemma subscribers_reloaded w : subscribers (reloaded w) = subscribers w.
Proof. by destruct w as [? [] ?]. Qed.

Lemma shown_menu_set_subscribers t w :
  shown_menu (set_subscribers t w) = shown_menu w.
Proof. by destruct w as [? [] ?]. Qed.

Lemma ussd_subscribe_new phone w :
  fetchone phone (subscribers w) = None →
  ussd phone "1" w =
  (Return ("CON You have successfully subscribed!" +:+ nl +:+
           "Now, let's select stocks to track." +:+ nl +:+ shown_menu w),
   reloaded (set_subscribers (subscribers w ++ [new_row phone]) w)).
Proof.
  intros Hnone. unfold ussd_callback. decide_path. py_unfold.
  rewrite Hnone. apply Table.fetchone_None in Hnone.
  rewrite decide_False by done. py_unfold.
  rewrite display_stocks_menu_run. by rewrite shown_menu_set_subscribers.
Qed.

Lemma ussd_subscribe_again phone w :
  is_Some (fetchone phone (subscribers w)) →
  ussd phone "1" w = (Return already_subscribed, w).
Proof.
  intros [sub Hsub]. unfold ussd_callback. decide_path. py_unfold.
  by rewrite Hsub.
Qed.

(** C5. Path "1" creates the subscriber's record, with an empty
    subscription list, when the phone number has none, and answers with a
    continue response; when it has one the answer is the terminal "You are
    already subscribed" and nothing is written. Submitted twice, the second
    answer is that terminal response and the table holds exactly one record
    of the phone number. *)
Theorem subscribe_twice phone w :
  let res1 := ussd phone "1" w in
  let res2 := ussd phone "1" res1.2 in
  (fetchone phone (subscribers w) = None →
     res1 = (Return ("CON You have successfully subscribed!" +:+ nl +:+
                     "Now, let's select stocks to track." +:+ nl +:+
                     shown_menu w),
             reloaded (set_subscribers (subscribers w ++ [new_row phone]) w))
     ∧ fetchone phone (subscribers res1.2) = Some (new_row phone))
  ∧ (is_Some (fetchone phone (subscribers w)) →
     res1 = (Return already_subscribed, w))
  ∧ res2 = (Return already_subscribed, res1.2)
  ∧ (primary_key (subscribers w) →
     records_of phone (subscribers res2.2) = 1%nat).
Proof.
  intros res1 res2.
  assert (is_Some (fetchone phone (subscribers res1.2))) as Hsome.
  { subst res1. destruct (fetchone phone (subscribers w)) eqn:Hw.
    - rewrite ussd_subscribe_again by done. simpl. by rewrite Hw.
    - rewrite ussd_subscribe_new by done. simpl.
      rewrite subscribers_reloaded. simpl.
      rewrite Table.fetchone_insert; [done|]. by apply Table.fetchone_None. }
  assert (res2 = (Return already_subscribed, res1.2)) as Hres2
    by (by apply ussd_subscribe_again).
  split_and!.
  - intros Hnone. subst res1. rewrite ussd_subscribe_new by done.
    split; [done|]. simpl. rewrite subscribers_reloaded. simpl.
    apply Table.fetchone_insert. by apply Table.fetchone_None.
  - apply ussd_subscribe_again.
  - done.
  - intros Hpk. rewrite Hres2. simpl.
    rewrite Table.records_of_fetchone.
    + by destruct Hsome as [? ->].
    + destruct (ussd_callback_step phone "1" w) as (_ & _ & Hstep & _).
      by eapply Table.primary_key_step.
Qed.

Lemma records_of_delete_where phone t :
  records_of phone (delete_where phone t) = 0%nat.
Proof.
  unfold records_of, delete_where. induction t as [|r t IH]; [done|].
  rewrite filter_cons. case_decide; [|done].
  by rewrite filter_cons, decide_False.
Qed.

(** C10. Path "4" always deletes the record of the phone number and always
    answers with the same terminal message, also when there is no record
    (the store is then left as it was); afterwards the phone number has no
    record, and a second request does the same and changes nothing more. *)
Theorem unsubscribe_idempotent phone w :
  let after := set_subscribers (delete_where phone (subscribers w)) w in
  ussd phone "4" w = (Return unsubscribed, after)
  ∧ fetchone phone (subscribers after) = None
  ∧ records_of phone (subscribers after) = 0%nat
  ∧ ussd phone "4" after = (Return unsubscribed, after)
  ∧ (fetchone phone (subscribers w) = None → after = w).
Proof.
  intros after.
  assert (∀ w', ussd phone "4" w' =
                (Return unsubscribed,
                 set_subscribers (delete_where phone (subscribers w')) w'))
    as Hrun.
  { intros w'. unfold ussd_callback. by decide_path. }
  split_and!.
  - apply Hrun.
  - apply Table.fetchone_delete_where.
  - apply records_of_delete_where.
  - rewrite Hrun. f_equal. subst after. simpl.
    rewrite Table.delete_where_absent
      by apply Table.fetchone_delete_where.
    by destruct w.
  - intros Hnone. subst after.
    rewrite Table.delete_where_absent by done.
    apply set_subscribers_same.
Qed.

Lemma last_segment_app prefix s :
  last_segment (prefix +:+ String "*" s) = last_segment s.
Proof.
  unfold last_segment. rewrite PyFacts.split_app.
  pose proof (PyFacts.split_nonempty "*" s) as Hne.
  destruct (split "*" s) as [|x l] using rev_ind; [done|].
  by rewrite app_assoc, !last_snoc.
Qed.

Lemma last_segment_segment s : split "*" s = [s] → last_segment s = s.
Proof. unfold last_segment. by intros ->. Qed.

(** The tests of the dispatch that a known beginning of the path decides. *)
Ltac decide_prefix :=
  repeat match goal with
         | |- context [startswith ?t ?p] =>
             let b := eval vm_compute in (startswith t p) in
             change (startswith t p) with b; cbv iota
         end.

Ltac dispatch := unfold ussd_callback; decide_path; decide_prefix.

Lemma handle_notification_preference_open phone text w sub :
  last_segment text = "1" →
  fetchone phone (subscribers w) = Some sub →
  handle_notification_preference phone text w =
  let new_value := if decide (market_open_notify sub = 0) then 1 else 0 in
  (Return ("CON Set Notification Preferences:" +:+ nl +:+
           preference_lines new_value (market_close_notify sub)),
   set_subscribers
     (update_where phone (set_preference Market_open_notify new_value)
                   (subscribers w)) w).
Proof.
  intros Hseg Hsub. unfold handle_notification_preference. py_unfold.
  rewrite getitem_split_last, Hseg, Hsub. by decide_path.
Qed.

(** C8. For a subscriber whose market-open flag is 0 or 1, path "3*2*1"
    flips the stored flag, and a second request with the same path flips it
    back: after the two requests the flag read from the store is the
    original one, and with the table's primary key the whole state is the
    original state. *)
Theorem toggle_open_twice phone w sub :
  fetchone phone (subscribers w) = Some sub →
  market_open_notify sub = 0 ∨ market_open_notify sub = 1 →
  let res1 := ussd phone "3*2*1" w in
  let res2 := ussd phone "3*2*1" res1.2 in
  market_open_notify <$> fetchone phone (subscribers res1.2)
    = Some (1 - market_open_notify sub)
  ∧ market_open_notify <$> fetchone phone (subscribers res2.2)
    = Some (market_open_notify sub)
  ∧ (primary_key (subscribers w) → res2.2 = w).
Proof.
  intros Hsub Hflag res1 res2.
  assert (∀ w', ussd phone "3*2*1" w' =
                handle_notification_preference phone "3*2*1" w')
    as Hrun by (intros w'; by dispatch).
  set (v1 := if decide (market_open_notify sub = 0) then 1 else 0).
  set (sub1 := set_preference Market_open_notify v1 sub).
  set (v2 := if decide (market_open_notify sub1 = 0) then 1 else 0).
  assert (v1 = 1 - market_open_notify sub) as Hv1.
  { subst v1. case_decide; lia. }
  assert (v2 = market_open_notify sub) as Hv2.
  { subst v2 sub1. simpl. case_decide; lia. }
  assert (res1.2 = set_subscribers
                     (update_where phone
                        (set_preference Market_open_notify v1)
                        (subscribers w)) w) as Hw1.
  { subst res1. rewrite Hrun.
    by rewrite (handle_notification_preference_open _ _ _ sub). }
  assert (fetchone phone (subscribers res1.2) = Some sub1) as Hsub1.
  { rewrite Hw1. simpl.
    rewrite Table.fetchone_update_where, Hsub; [done|].
    apply Table.set_preference_phone. }
  assert (res2.2 = set_subscribers
                     (update_where phone
                        (set_preference Market_open_notify v2)
                        (subscribers res1.2)) res1.2) as Hw2.
  { subst res2. rewrite Hrun.
    by rewrite (handle_notification_preference_open _ _ _ sub1). }
  split_and!.
  - by rewrite Hsub1, <- Hv1.
  - rewrite Hw2. simpl.
    rewrite Table.fetchone_update_where, Hsub1; [by rewrite <- Hv2|].
    apply Table.set_preference_phone.
  - intros Hpk. rewrite Hw2, Hw1. simpl.
    rewrite Table.update_where_twice by apply Table.set_preference_phone.
    rewrite (Table.update_where_id _ _ _ sub); auto.
    + by destruct w.
    + simpl. rewrite Hv2. by destruct sub.
Qed.

Lemma manage_parts seg :
  split "*" seg = [seg] → split "*" ("3*1*" +:+ seg) = ["3"; "1"; seg].
Proof.
  intros Hseg. change ("3*1*" +:+ seg) with ("3*1" +:+ String "*" seg).
  by rewrite PyFacts.split_app, Hseg.
Qed.

Lemma add_parts n :
  split "*" n = [n] →
  split "*" ("3*1*add*" +:+ n) = ["3"; "1"; "add"; n].
Proof.
  intros Hseg. change ("3*1*add*" +:+ n) with ("3*1*add" +:+ String "*" n).
  by rewrite PyFacts.split_app, Hseg.
Qed.

Lemma int_not_add seg k : to_int seg = Some k → lower seg ≠ "add".
Proof.
  intros Hint Hadd. destruct seg as [|c seg]; [done|].
  simpl in Hadd. injection Hadd as Hc _.
  assert (int_char c = true) as Hchar.
  { eapply PyFacts.int_occurs; [done|]. simpl. by rewrite Ascii.eqb_refl. }
  revert Hc Hchar. clear.
  destruct c as [[] [] [] [] [] [] [] []]; by vm_compute.
Qed.

Lemma isdigit_not_add n : isdigit n = true → lower n ≠ "add".
Proof.
  intros Hd Hadd. destruct n as [|c n]; [done|].
  simpl in Hd, Hadd. apply andb_true_iff in Hd as [Hc _].
  injection Hadd as Hadd _. revert Hc Hadd. clear.
  destruct c as [[] [] [] [] [] [] [] []]; by vm_compute.
Qed.

Lemma out_of_range k (len : nat) :
  k < 1 ∨ Z.of_nat len < k →
  (0 <=? k - 1) && (k - 1 <? Z.of_nat len) = false.
Proof. intros H. apply andb_false_iff. lia. Qed.

(** The removal branch on a direct entry of the manage menu. *)
Lemma manage_remove phone seg w sub :
  split "*" seg = [seg] → seg ≠ "0" → lower seg ≠ "add" →
  fetchone phone (subscribers w) = Some sub →
  manage phone ("3*1*" +:+ seg) w =
  try_except ValueError
    (i ← or_raise ValueError (to_int seg);
     if (0 <=? i - 1) &&
        (i - 1 <? Z.of_nat (length (subscribed_stocks sub))) then
       '(removed_stock, rest) ←
         or_raise IndexError (pop (subscribed_stocks sub) (i - 1));
       update_subscribed_stocks phone rest;;
       mret ("CON Removed " +:+ removed_stock +:+
             " from your subscriptions." +:+ nl +:+ my_subscriptions_options)
     else
       mret ("CON Invalid stock number to remove. Please try again."
             +:+ nl +:+ "Your current subscriptions:" +:+ nl +:+
             current_subs_display (subscribed_stocks sub) +:+ nl +:+
             remove_prompt))
    (mret ("CON Invalid input. Please enter a number or 'add'."
           +:+ nl +:+ "Your current subscriptions:" +:+ nl +:+
           current_subs_display (subscribed_stocks sub) +:+ nl +:+
           remove_prompt)) w.
Proof.
  intros Hseg H0 Hadd Hsub. unfold handle_manage_subscribed_stocks.
  rewrite (manage_parts _ Hseg).
  change (getitem ["3"; "1"; seg] (-1)) with (Some seg).
  change (getitem ["3"; "1"; seg] 2) with (Some seg).
  py_unfold. rewrite Hsub.
  rewrite (decide_False (P := seg = "0")) by done.
  rewrite (decide_False (P := lower seg = "add")) by done.
  simpl. by rewrite (bool_decide_eq_false_2 (lower seg = "add")) by done.
Qed.

Lemma ussd_manage phone rest w :
  ussd phone ("3*1*" +:+ rest) w = manage phone ("3*1*" +:+ rest) w.
Proof. by dispatch. Qed.

(** C6. For a subscriber with a subscription list of length L and an
    integer k with k < 1 or k > L, written by a segment other than "0",
    path "3*1*<k>" gets a continue response that carries an error line and
    lists the current subscriptions, and the state is left as it was. *)
Theorem remove_out_of_range phone w sub seg k :
  fetchone phone (subscribers w) = Some sub →
  to_int seg = Some k →
  k < 1 ∨ Z.of_nat (length (subscribed_stocks sub)) < k →
  seg ≠ "0" →
  ussd phone ("3*1*" +:+ seg) w =
  (Return ("CON Invalid stock number to remove. Please try again." +:+
           nl +:+ "Your current subscriptions:" +:+ nl +:+
           current_subs_display (subscribed_stocks sub) +:+ nl +:+
           remove_prompt),
   w).
Proof.
  intros Hsub Hint Hk H0.
  rewrite ussd_manage, (manage_remove _ _ _ sub); try done.
  - py_unfold. rewrite Hint. py_unfold. by rewrite out_of_range.
  - by eapply PyFacts.int_segment.
  - by eapply int_not_add.
Qed.

Lemma ussd_select phone rest w :
  ussd phone ("1*" +:+ rest) w = select phone ("1*" +:+ rest) w.
Proof. by dispatch. Qed.

Lemma select_back phone text w :
  last_segment text = "0" →
  select phone text w = (Return main_menu_response, w).
Proof.
  intros Hseg. unfold handle_stock_selection. py_unfold.
  rewrite getitem_split_last, Hseg. by decide_path.
Qed.

(** The entry of the add menu: with a subscriber's record, a digit string
    after "3*1*add*" is handed to the selection of path "1*". *)
Lemma manage_add_delegates phone n w sub :
  isdigit n = true →
  fetchone phone (subscribers w) = Some sub →
  manage phone ("3*1*add*" +:+ n) w = select phone ("1*" +:+ n) w.
Proof.
  intros Hd Hsub. pose proof (PyFacts.isdigit_segment _ Hd) as Hseg.
  unfold handle_manage_subscribed_stocks.
  rewrite (add_parts _ Hseg).
  change (getitem ["3"; "1"; "add"; n] (-1)) with (Some n).
  change (getitem ["3"; "1"; "add"; n] 2) with (Some "add").
  py_unfold. rewrite Hsub.
  destruct (decide (n = "0")) as [->|H0].
  { by rewrite select_back. }
  rewrite (decide_False (P := lower n = "add")) by by apply isdigit_not_add.
  simpl. by rewrite Hd.
Qed.

Lemma manage_no_subscriber phone text w :
  fetchone phone (subscribers w) = None →
  manage phone text w = (Return subscriber_not_found, w).
Proof.
  intros Hnone. unfold handle_manage_subscribed_stocks. py_unfold.
  by rewrite getitem_split_last, Hnone.
Qed.

(** Path "3*1*add*<n>" with a digit string: the selection of "1*<n>" with
    a subscriber's record, the subscriber-not-found response without. *)
Lemma ussd_add_path phone n w :
  isdigit n = true →
  ussd phone ("3*1*add*" +:+ n) w =
  match fetchone phone (subscribers w) with
  | Some _ => select phone ("1*" +:+ n) w
  | None => (Return subscriber_not_found, w)
  end.
Proof.
  intros Hd. rewrite (ussd_manage phone ("add*" +:+ n)).
  change ("3*1*" +:+ "add*" +:+ n) with ("3*1*add*" +:+ n).
  destruct (fetchone phone (subscribers w)) as [sub|] eqn:Hsub.
  - by eapply manage_add_delegates.
  - by apply manage_no_subscriber.
Qed.

(** C7, as amended. For a phone number that has a subscriber's record and
    every digit string n, path "3*1*add*<n>" gets the same response and
    has the same effect on the state as path "1*<n>"; for a phone number
    without a record, path "3*1*add*<n>" gets the terminal
    subscriber-not-found response and changes nothing. *)
Theorem add_same_as_select phone n w :
  isdigit n = true →
  match fetchone phone (subscribers w) with
  | Some _ => ussd phone ("3*1*add*" +:+ n) w = ussd phone ("1*" +:+ n) w
  | None =>
      ussd phone ("3*1*add*" +:+ n) w = (Return subscriber_not_found, w)
  end.
Proof.
  intros Hd. rewrite (ussd_add_path phone n w Hd).
  destruct (fetchone phone (subscribers w)); [|done].
  by rewrite ussd_select.
Qed.

Lemma occurrences_absent x l : x ∉ l → occurrences x l = 0%nat.
Proof.
  unfold occurrences. induction l as [|y l IH]; [done|].
  rewrite not_elem_of_cons. intros [Hne Hl].
  rewrite filter_cons, decide_False by done. by apply IH.
Qed.

Lemma occurrences_NoDup x l : NoDup l → x ∈ l → occurrences x l = 1%nat.
Proof.
  unfold occurrences. induction 1 as [|y l Hy Hl IH]; [by rewrite elem_of_nil|].
  rewrite elem_of_cons, filter_cons. intros [->|Hx].
  - rewrite decide_True by done. simpl. f_equal.
    by apply occurrences_absent.
  - rewrite decide_False; [by apply IH|]. by intros ->.
Qed.

Lemma occurrences_snoc x l : x ∉ l → occurrences x (l ++ [x]) = 1%nat.
Proof.
  intros Hx. unfold occurrences. rewrite filter_app, length_app.
  fold (occurrences x l). rewrite occurrences_absent by done.
  by rewrite filter_cons, decide_True.
Qed.

Lemma int_zero : to_int "0" = Some 0.
Proof. done. Qed.

(** A selection inside the list read by the handler. *)
Lemma select_in_range phone text w i stock :
  to_int (last_segment text) = Some i → 1 ≤ i →
  CURRENT_STOCKS_DATA w !! Z.to_nat (i - 1) = Some stock →
  select phone text w =
  match fetchone phone (subscribers w) with
  | None => (Return subscriber_not_found, w)
  | Some sub =>
      if decide (name stock ∈ subscribed_stocks sub) then
        (Return ("CON You are already subscribed to " +:+ name stock +:+
                 "." +:+ nl +:+ offer_another),
         w)
      else
        (Return ("CON Successfully subscribed to " +:+ name stock +:+
                 "." +:+ nl +:+ offer_another),
         set_subscribers
           (update_where phone
              (set_stocks (subscribed_stocks sub ++ [name stock]))
              (subscribers w)) w)
  end.
Proof.
  intros Hint Hi Hstock.
  assert (last_segment text ≠ "0") as H0.
  { intros E. rewrite E, int_zero in Hint. injection Hint as <-. lia. }
  assert ((0 <=? i - 1) &&
          (i - 1 <? Z.of_nat (length (CURRENT_STOCKS_DATA w))) = true)
    as Hrange.
  { apply lookup_lt_Some in Hstock. apply andb_true_iff. lia. }
  unfold handle_stock_selection. py_unfold.
  rewrite getitem_split_last.
  rewrite (decide_False (P := last_segment text = "0")) by done.
  rewrite Hint. py_unfold. rewrite Hrange.
  unfold getitem. rewrite Hrange, Hstock.
  destruct (fetchone phone (subscribers w)); [|done]. by case_decide.
Qed.

(** C4. Every request keeps the invariant that a stock name appears at
    most once in each subscription list. A selection by path "1*<n>" or
    "3*1*add*<n>" of a stock that the subscriber's list already holds writes
    nothing and gets the continue response "You are already subscribed
    to ..."; selecting the same stock by "1*<n>" and then by "3*1*add*<n>"
    leaves exactly one occurrence of its name in the list. *)
Theorem subscription_list_unique phone w :
  (∀ text, stocks_unique (subscribers w) →
           stocks_unique (subscribers (ussd phone text w).2))
  ∧ (∀ n i stock sub,
       isdigit n = true → to_int n = Some i → 1 ≤ i →
       CURRENT_STOCKS_DATA w !! Z.to_nat (i - 1) = Some stock →
       fetchone phone (subscribers w) = Some sub →
       let already :=
         "CON You are already subscribed to " +:+ name stock +:+ "." +:+
         nl +:+ offer_another in
       (name stock ∈ subscribed_stocks sub →
          ussd phone ("1*" +:+ n) w = (Return already, w)
          ∧ ussd phone ("3*1*add*" +:+ n) w = (Return already, w))
       ∧ (NoDup (subscribed_stocks sub) →
          let res1 := ussd phone ("1*" +:+ n) w in
          let res2 := ussd phone ("3*1*add*" +:+ n) res1.2 in
          res2 = (Return already, res1.2)
          ∧ ∃ sub', fetchone phone (subscribers res2.2) = Some sub'
                    ∧ occurrences (name stock) (subscribed_stocks sub')
                      = 1%nat)).
Proof.
  split.
  { intros text Hinv.
    destruct (ussd_callback_step phone text w) as (_ & _ & Hstep & _).
    by eapply Table.stocks_unique_step. }
  intros n i stock sub Hd Hint Hi Hstock Hsub already.
  pose proof (PyFacts.isdigit_segment _ Hd) as Hseg.
  assert (∀ w', CURRENT_STOCKS_DATA w' = CURRENT_STOCKS_DATA w →
                ∀ sub', fetchone phone (subscribers w') = Some sub' →
                name stock ∈ subscribed_stocks sub' →
                ussd phone ("1*" +:+ n) w' = (Return already, w')
                ∧ ussd phone ("3*1*add*" +:+ n) w' = (Return already, w'))
    as Hpresent.
  { intros w' Hdata sub' Hsub' Hin.
    rewrite (ussd_add_path phone n w' Hd), Hsub', <- ussd_select.
    assert (ussd phone ("1*" +:+ n) w' = (Return already, w')); [|done].
    rewrite ussd_select, (select_in_range _ _ _ i stock).
    - rewrite Hsub'. by rewrite decide_True.
    - change ("1*" +:+ n) with ("1" +:+ String "*" n).
      by rewrite last_segment_app, last_segment_segment.
    - done.
    - by rewrite Hdata. }
  split; [by apply (Hpresent w eq_refl sub)|].
  intros Hnodup res1 res2.
  destruct (decide (name stock ∈ subscribed_stocks sub)) as [Hin|Hnew].
  - destruct (Hpresent w eq_refl sub Hsub Hin) as [H1 H2].
    subst res2 res1. rewrite H1. simpl. rewrite H2. split; [done|].
    exists sub. split; [done|]. by apply occurrences_NoDup.
  - assert (res1.2 = set_subscribers
                       (update_where phone
                          (set_stocks (subscribed_stocks sub ++ [name stock]))
                          (subscribers w)) w) as Hw1.
    { subst res1. rewrite ussd_select, (select_in_range _ _ _ i stock).
      + rewrite Hsub. by rewrite decide_False.
      + change ("1*" +:+ n) with ("1" +:+ String "*" n).
        by rewrite last_segment_app, last_segment_segment.
      + done.
      + done. }
    set (sub1 := set_stocks (subscribed_stocks sub ++ [name stock]) sub).
    assert (fetchone phone (subscribers res1.2) = Some sub1) as Hsub1.
    { rewrite Hw1. simpl.
      rewrite Table.fetchone_update_where, Hsub; [done|].
      apply Table.set_stocks_phone. }
    destruct (Hpresent res1.2) with (sub' := sub1) as [_ H2].
    + by rewrite Hw1.
    + done.
    + simpl. apply elem_of_app. right. by apply list_elem_of_singleton.
    + subst res2. rewrite H2. split; [done|].
      exists sub1. split; [done|]. simpl. by apply occurrences_snoc.
Qed.

Lemma ussd_view phone rest w :
  ussd phone ("2*" +:+ rest) w = view phone ("2*" +:+ rest) w.
Proof. by dispatch. Qed.

Lemma ussd_preference phone rest w :
  ussd phone ("3*2*" +:+ rest) w =
  handle_notification_preference phone ("3*2*" +:+ rest) w.
Proof. by dispatch. Qed.

Lemma error_redisplay_intro line menu :
  line ≠ "" → error_redisplay menu ("CON " +:+ line +:+ nl +:+ menu).
Proof. intros Hne. by exists line. Qed.

(** An invalid entry of a stock menu: the handler of path "1*". *)
Lemma select_invalid phone text w :
  last_segment text ≠ "0" →
  invalid_selection max_str_digits (last_segment text)
                    (length (CURRENT_STOCKS_DATA w)) →
  ∃ response, select phone text w = (Return response, reloaded w)
              ∧ error_redisplay (shown_menu w) response.
Proof.
  unfold invalid_selection. intros H0 Hbad.
  unfold handle_stock_selection. py_unfold.
  rewrite getitem_split_last.
  rewrite (decide_False (P := last_segment text = "0")) by done.
  destruct (to_int (last_segment text)) as [k|]; py_unfold.
  - rewrite out_of_range by done. rewrite display_stocks_menu_run.
    eexists; split; [done|].
    by apply (error_redisplay_intro "Invalid stock number. Please try again.").
  - rewrite display_stocks_menu_run.
    eexists; split; [done|].
    by apply (error_redisplay_intro "Invalid input. Please enter a number.").
Qed.

(** The same for the handler of path "2*". *)
Lemma view_invalid phone text w :
  last_segment text ≠ "0" →
  invalid_selection max_str_digits (last_segment text)
                    (length (CURRENT_STOCKS_DATA w)) →
  ∃ response, view phone text w = (Return response, reloaded w)
              ∧ error_redisplay (shown_menu w) response.
Proof.
  unfold invalid_selection. intros H0 Hbad.
  unfold handle_view_stock_details. py_unfold.
  rewrite getitem_split_last.
  rewrite (decide_False (P := last_segment text = "0")) by done.
  destruct (to_int (last_segment text)) as [k|]; py_unfold.
  - rewrite out_of_range by done. rewrite display_stocks_menu_run.
    eexists; split; [done|].
    by apply (error_redisplay_intro "Invalid stock number. Please try again.").
  - rewrite display_stocks_menu_run.
    eexists; split; [done|].
    by apply (error_redisplay_intro "Invalid input. Please enter a number.").
Qed.

Lemma int_one : to_int "1" = Some 1.
Proof. done. Qed.

Lemma int_two : to_int "2" = Some 2.
Proof. done. Qed.

Lemma preference_invalid phone text w sub :
  last_segment text ≠ "0" →
  invalid_selection max_str_digits (last_segment text) 2 →
  fetchone phone (subscribers w) = Some sub →
  ∃ response,
    handle_notification_preference phone text w = (Return response, w)
    ∧ error_redisplay
        (preference_lines (market_open_notify sub) (market_close_notify sub))
        response.
Proof.
  unfold invalid_selection. intros H0 Hbad Hsub.
  unfold handle_notification_preference. py_unfold.
  rewrite getitem_split_last, Hsub.
  destruct (decide (last_segment text = "1")) as [E|_].
  { rewrite E, int_one in Hbad. simpl in Hbad. lia. }
  destruct (decide (last_segment text = "2")) as [E|_].
  { rewrite E, int_two in Hbad. simpl in Hbad. lia. }
  rewrite (decide_False (P := last_segment text = "0")) by done.
  eexists; split; [done|].
  by apply (error_redisplay_intro "Invalid option. Please select 1 or 2.").
Qed.

Lemma preference_no_subscriber phone text w :
  fetchone phone (subscribers w) = None →
  handle_notification_preference phone text w =
  (Return subscriber_not_found, w).
Proof.
  intros Hnone. unfold handle_notification_preference. py_unfold.
  by rewrite getitem_split_last, Hnone.
Qed.

Lemma manage_remove_invalid phone seg w sub :
  split "*" seg = [seg] → seg ≠ "0" → lower seg ≠ "add" →
  fetchone phone (subscribers w) = Some sub →
  invalid_selection max_str_digits seg (length (subscribed_stocks sub)) →
  ∃ response,
    manage phone ("3*1*" +:+ seg) w = (Return response, w)
    ∧ error_redisplay (subscriptions_menu (subscribed_stocks sub)) response.
Proof.
  unfold invalid_selection. intros Hseg H0 Hadd Hsub Hbad.
  rewrite (manage_remove _ _ _ sub) by done. py_unfold.
  destruct (to_int seg) as [k|]; py_unfold.
  - rewrite out_of_range by done.
    eexists; split; [done|].
    by apply (error_redisplay_intro
                "Invalid stock number to remove. Please try again.").
  - eexists; split; [done|].
    by apply (error_redisplay_intro
                "Invalid input. Please enter a number or 'add'.").
Qed.

(** What the paths "2", "3*1" and "3*2" display. *)
Lemma ussd_view_stocks phone w :
  ussd phone "2" w = (Return ("CON " +:+ shown_menu w), reloaded w).
Proof. dispatch. py_unfold. by rewrite display_stocks_menu_run. Qed.

Lemma ussd_manage_menu phone w sub :
  fetchone phone (subscribers w) = Some sub →
  ussd phone "3*1" w =
  (Return ("CON " +:+ manage_menu w (subscribed_stocks sub)),
   if is_empty (subscribed_stocks sub) then reloaded w else w).
Proof.
  intros Hsub. dispatch. py_unfold. rewrite Hsub. unfold manage_menu.
  destruct (is_empty (subscribed_stocks sub)); py_unfold; [|done].
  by rewrite display_stocks_menu_run.
Qed.

Lemma ussd_preferences_menu phone w sub :
  fetchone phone (subscribers w) = Some sub →
  ussd phone "3*2" w =
  (Return ("CON Set Notification Preferences:" +:+ nl +:+
           preference_lines (market_open_notify sub)
                            (market_close_notify sub)), w).
Proof. intros Hsub. dispatch. py_unfold. by rewrite Hsub. Qed.

Lemma manage_menu_lines w stocks :
  stocks ≠ [] →
  manage_menu w stocks =
  "Your current subscriptions:" +:+ nl +:+
  current_subs_display stocks +:+ nl +:+
  "--- Add/Remove ---" +:+ nl +:+ remove_prompt.
Proof.
  intros Hne. unfold manage_menu. destruct stocks; [done|].
  cbn [is_empty]. rewrite PyFacts.numbered_lines_display by done.
  by rewrite !PyFacts.string_app_assoc.
Qed.


(** ** Further properties of the request handler *)

Ltac marked_done :=
  first [ congruence
        | unfold marked, has_marker; eexists; split; [reflexivity|];
          first [ left; reflexivity | right; reflexivity ] ].

Lemma handle_stock_selection_marked phone text w :
  marked (select phone text w).
Proof.
  unfold handle_stock_selection. py_unfold. repeat py_case.
  all: marked_done.
Qed.

Lemma handle_view_stock_details_marked phone text w :
  marked (view phone text w).
Proof.
  unfold handle_view_stock_details. py_unfold. repeat py_case.
  all: marked_done.
Qed.

Lemma handle_manage_subscribed_stocks_marked phone text w :
  marked (manage phone text w).
Proof.
  unfold handle_manage_subscribed_stocks. py_unfold. repeat py_case.
  all: try apply handle_stock_selection_marked; marked_done.
Qed.

Lemma handle_notification_preference_marked phone text w :
  marked (handle_notification_preference phone text w).
Proof.
  unfold handle_notification_preference. py_unfold. repeat py_case.
  all: marked_done.
Qed.

(** On a typed catalog every request returns a response that begins with
    "CON " or with "END ". *)
Lemma typed_response_marker phone text w :
  ∃ response, (ussd phone text w).1 = Return response
              ∧ (startswith response "CON " = true
                 ∨ startswith response "END " = true).
Proof.
  change (marked (ussd phone text w)).
  unfold ussd_callback.
  repeat match goal with
         | |- marked ((if decide ?P then _ else _) _) => destruct (decide P)
         | |- marked ((if startswith ?t ?p then _ else _) _) =>
             destruct (startswith t p) eqn:?
         end.
  all: try first [ apply handle_stock_selection_marked
                 | apply handle_view_stock_details_marked
                 | apply handle_manage_subscribed_stocks_marked
                 | apply handle_notification_preference_marked ].
  all: py_unfold; repeat py_case; marked_done.
Qed.

Lemma delete_where_app phone t1 t2 :
  delete_where phone (t1 ++ t2) = delete_where phone t1 ++ delete_where phone t2.
Proof. apply filter_app. Qed.

Lemma delete_where_idemp phone t :
  delete_where phone (delete_where phone t) = delete_where phone t.
Proof.
  apply Table.delete_where_absent, Table.fetchone_delete_where.
Qed.

Lemma delete_where_update_where phone f t :
  (∀ r, phone_number (f r) = phone_number r) →
  delete_where phone (update_where phone f t) = delete_where phone t.
Proof.
  intros Hf. unfold delete_where, update_where.
  induction t as [|r t IH]; [done|].
  rewrite fmap_cons.
  destruct (decide (phone_number r = phone)) as [Hp|Hp]; rewrite !filter_cons.
  - rewrite (decide_False (P := phone_number (f r) ≠ phone))
      by (rewrite Hf; intros H; by apply H).
    by rewrite decide_False by (intros H; by apply H).
  - rewrite !decide_True by done. by rewrite IH.
Qed.

Lemma fetchone_delete_where_ne phone other t :
  other ≠ phone → fetchone other (delete_where phone t) = fetchone other t.
Proof.
  intros Hne. unfold delete_where. induction t as [|r t IH]; [done|].
  rewrite filter_cons, Table.fetchone_cons.
  destruct (decide (phone_number r ≠ phone)) as [Hp|Hp].
  - rewrite Table.fetchone_cons. by rewrite IH.
  - rewrite decide_False; [done|].
    intros E. apply Hp. congruence.
Qed.

(** A step of the table for one phone number keeps the rows of the other
    phone numbers, in their order. *)
Lemma db_step_others phone t t' :
  db_step phone t t' → delete_where phone t' = delete_where phone t.
Proof.
  destruct 1 as [|Hnew| |sub x _ _|sub i x _ _|sub p v _ _].
  - done.
  - rewrite delete_where_app. unfold delete_where at 2.
    rewrite filter_cons, decide_False by (intros H; by apply H).
    by rewrite app_nil_r.
  - apply delete_where_idemp.
  - by apply delete_where_update_where.
  - by apply delete_where_update_where.
  - apply delete_where_update_where, Table.set_preference_phone.
Qed.

(** X2. A request of one phone number leaves the rows of every other phone
    number as they are, in the same order, so that [get_subscriber] of
    another phone number returns what it returned before. *)
Theorem other_subscribers_untouched phone other text w :
  other ≠ phone →
  let w' := (ussd phone text w).2 in
  delete_where phone (subscribers w') = delete_where phone (subscribers w)
  ∧ (get_subscriber other w').1 = (get_subscriber other w).1.
Proof.
  intros Hne w'.
  destruct (ussd_callback_step phone text w) as (_ & _ & Hstep & _).
  apply db_step_others in Hstep. split; [done|].
  py_unfold. simpl. f_equal.
  rewrite <- (fetchone_delete_where_ne phone other (subscribers w')) by done.
  rewrite <- (fetchone_delete_where_ne phone other (subscribers w)) by done.
  subst w'. by rewrite Hstep.
Qed.

(** X3. A request never writes the catalog file, and once the module
    variable [CURRENT_STOCKS_DATA] holds stocks no request changes it: the
    file is read only while the variable is empty. *)
Theorem catalog_loaded_once phone text w :
  let w' := (ussd phone text w).2 in
  STOCKS_JSON_FILE w' = STOCKS_JSON_FILE w
  ∧ (CURRENT_STOCKS_DATA w ≠ [] →
     CURRENT_STOCKS_DATA w' = CURRENT_STOCKS_DATA w)
  ∧ (CURRENT_STOCKS_DATA w = [] →
     CURRENT_STOCKS_DATA w' = [] ∨
     CURRENT_STOCKS_DATA w' = STOCKS_JSON_FILE w).
Proof.
  intros w'. subst w'.
  destruct (ussd_callback_step phone text w) as (_ & _ & _ & Hfile & Hdata).
  split_and!; [done| |].
  - intros Hne. destruct Hdata as [?|Hdata]; [done|].
    rewrite Hdata. unfold reloaded.
    by destruct (CURRENT_STOCKS_DATA w) eqn:E.
  - intros Hnil. destruct Hdata as [Hdata|Hdata].
    + left. by rewrite <- Hnil.
    + right. rewrite Hdata. unfold reloaded. by rewrite Hnil.
Qed.

Ltac table_done :=
  first [ congruence | reflexivity | apply subscribers_reloaded ].

Lemma handle_view_stock_details_reads phone text w :
  subscribers (view phone text w).2 = subscribers w.
Proof.
  unfold handle_view_stock_details. py_unfold. repeat py_case.
  all: table_done.
Qed.

Lemma handle_stock_selection_no_record phone text w :
  fetchone phone (subscribers w) = None →
  subscribers (select phone text w).2 = subscribers w.
Proof.
  intros Hnone. unfold handle_stock_selection. py_unfold. repeat py_case.
  all: table_done.
Qed.

(** X4. For a phone number without a record, every path other than "1"
    leaves the table as it is: no other path creates a record. *)
Theorem record_created_only_by_subscribe phone text w :
  fetchone phone (subscribers w) = None → text ≠ "1" →
  subscribers (ussd phone text w).2 = subscribers w.
Proof.
  intros Hnone Htext. unfold ussd_callback.
  repeat match goal with
         | |- context [if decide ?P then _ else _] => destruct (decide P)
         | |- context [if startswith ?t ?p then _ else _] =>
             destruct (startswith t p) eqn:?
         end.
  all: try done.
  all: try apply handle_view_stock_details_reads.
  all: try (by apply handle_stock_selection_no_record).
  all: try (by rewrite manage_no_subscriber).
  all: try (by rewrite preference_no_subscriber).
  all: py_unfold; rewrite ?Hnone; repeat py_case; try table_done.
  simpl. by apply Table.delete_where_absent.
Qed.

(** X5. The browsing paths never write the table, whoever asks: the main
    menu, the stock list "2", a stock's details "2*...", and the menus "3",
    "3*1" and "3*2". *)
Theorem browsing_reads_only phone text w :
  text = "" ∨ text = "2" ∨ startswith text "2*" = true
  ∨ text = "3" ∨ text = "3*1" ∨ text = "3*2" →
  subscribers (ussd phone text w).2 = subscribers w.
Proof.
  intros Htext.
  assert (startswith text "2*" = true →
          ussd phone text w = view phone text w) as Hview.
  { intros [rest ->]%PyFacts.startswith_inv. apply ussd_view. }
  destruct Htext as [->|[->|[H2|[->|[->| ->]]]]].
  - done.
  - unfold ussd_callback. decide_path. decide_prefix. py_unfold.
    repeat py_case; table_done.
  - rewrite Hview by done. apply handle_view_stock_details_reads.
  - unfold ussd_callback. decide_path. decide_prefix. py_unfold.
    repeat py_case; table_done.
  - unfold ussd_callback. decide_path. decide_prefix. py_unfold.
    repeat py_case; table_done.
  - unfold ussd_callback. decide_path. decide_prefix. py_unfold.
    repeat py_case; table_done.
Qed.

Lemma in_range k (len : nat) :
  1 ≤ k → (Z.to_nat (k - 1) < len)%nat →
  (0 <=? k - 1) && (k - 1 <? Z.of_nat len) = true.
Proof. intros H1 H2. apply andb_true_iff. lia. Qed.

Lemma int_not_zero seg k : to_int seg = Some k → 1 ≤ k → seg ≠ "0".
Proof. intros Hint Hk ->. rewrite int_zero in Hint. injection Hint. lia. Qed.

(** X6. Path "2*<n>" with an integer n inside the list read by the
    handler ends the session with the name of the n-th stock and its price
    to two decimals, and changes nothing. *)
Theorem view_stock_details phone rest w i stock :
  to_int (last_segment ("2*" +:+ rest)) = Some i → 1 ≤ i →
  CURRENT_STOCKS_DATA w !! Z.to_nat (i - 1) = Some stock →
  ussd phone ("2*" +:+ rest) w =
  (Return ("END " +:+ name stock +:+ ": Ksh " +:+ format_2f (price stock) +:+
           nl +:+ "Data in real-time."), w).
Proof.
  intros Hint Hi Hstock. rewrite ussd_view.
  unfold handle_view_stock_details. py_unfold.
  rewrite getitem_split_last.
  rewrite (decide_False (P := last_segment ("2*" +:+ rest) = "0"))
    by by eapply int_not_zero.
  rewrite Hint. py_unfold.
  assert ((0 <=? i - 1) &&
          (i - 1 <? Z.of_nat (length (CURRENT_STOCKS_DATA w))) = true)
    as Hrange by (apply in_range; [done|by eapply lookup_lt_Some]).
  rewrite Hrange. unfold getitem. by rewrite Hrange, Hstock.
Qed.

Lemma NoDup_delete_absent (l : list string) i x :
  NoDup l → l !! i = Some x → x ∉ delete i l.
Proof.
  intros Hnodup Hx Hin. apply list_elem_of_lookup_1 in Hin as [j Hj].
  destruct (decide (j < i)%nat) as [Hlt|Hge].
  - rewrite list_lookup_delete_lt in Hj by done.
    pose proof (NoDup_lookup _ _ _ _ Hnodup Hx Hj). lia.
  - rewrite list_lookup_delete_ge in Hj by lia.
    pose proof (NoDup_lookup _ _ _ _ Hnodup Hx Hj). lia.
Qed.

(** X7. For a subscriber and an integer k inside the subscription list,
    path "3*1*<k>" removes the k-th name and no other: the response names
    it, the stored list is the old one without its k-th element, the flags
    are kept, and when the list held no name twice the removed name is no
    longer in it. *)
Theorem remove_subscription phone w sub seg k x :
  fetchone phone (subscribers w) = Some sub →
  to_int seg = Some k → 1 ≤ k →
  subscribed_stocks sub !! Z.to_nat (k - 1) = Some x →
  let res := ussd phone ("3*1*" +:+ seg) w in
  let rest := delete (Z.to_nat (k - 1)) (subscribed_stocks sub) in
  res.1 = Return ("CON Removed " +:+ x +:+ " from your subscriptions." +:+
                  nl +:+ my_subscriptions_options)
  ∧ fetchone phone (subscribers res.2) = Some (set_stocks rest sub)
  ∧ S (length rest) = length (subscribed_stocks sub)
  ∧ (NoDup (subscribed_stocks sub) → x ∉ rest).
Proof.
  intros Hsub Hint Hk Hx res rest.
  assert (res = (Return ("CON Removed " +:+ x +:+
                         " from your subscriptions." +:+ nl +:+
                         my_subscriptions_options),
                 set_subscribers
                   (update_where phone (set_stocks rest) (subscribers w)) w))
    as ->.
  { subst res. rewrite ussd_manage, (manage_remove _ _ _ sub); try done.
    - py_unfold. rewrite Hint. py_unfold.
      assert ((0 <=? k - 1) &&
              (k - 1 <? Z.of_nat (length (subscribed_stocks sub))) = true)
        as Hrange by (apply in_range; [done|by eapply lookup_lt_Some]).
      rewrite Hrange.
      destruct (PyFacts.pop_in_range _ _ Hrange) as (y & -> & Hy).
      assert (y = x) as -> by congruence. by py_unfold.
    - by eapply PyFacts.int_segment.
    - by eapply int_not_zero.
    - by eapply int_not_add. }
  split_and!; simpl.
  - done.
  - by rewrite Table.fetchone_update_where, Hsub.
  - subst rest. rewrite length_delete by done.
    apply lookup_lt_Some in Hx. lia.
  - intros Hnodup. subst rest. by apply NoDup_delete_absent.
Qed.

(** X8. For a subscriber, a selection under "1*" of a catalog stock that
    the list does not hold appends its name at the end of the list, keeps
    the flags, and answers "Successfully subscribed to ...". *)
Theorem subscribe_appends phone rest w i stock sub :
  to_int (last_segment ("1*" +:+ rest)) = Some i → 1 ≤ i →
  CURRENT_STOCKS_DATA w !! Z.to_nat (i - 1) = Some stock →
  fetchone phone (subscribers w) = Some sub →
  name stock ∉ subscribed_stocks sub →
  let res := ussd phone ("1*" +:+ rest) w in
  res.1 = Return ("CON Successfully subscribed to " +:+ name stock +:+
                  "." +:+ nl +:+ offer_another)
  ∧ fetchone phone (subscribers res.2)
    = Some (set_stocks (subscribed_stocks sub ++ [name stock]) sub)
  ∧ CURRENT_STOCKS_DATA res.2 = CURRENT_STOCKS_DATA w.
Proof.
  intros Hint Hi Hstock Hsub Hnew res. subst res.
  rewrite ussd_select, (select_in_range _ _ _ i stock) by done.
  rewrite Hsub, decide_False by done. split_and!; simpl; [done| |done].
  by rewrite Table.fetchone_update_where, Hsub.
Qed.

Lemma handle_notification_preference_close phone text w sub :
  last_segment text = "2" →
  fetchone phone (subscribers w) = Some sub →
  handle_notification_preference phone text w =
  let new_value := if decide (market_close_notify sub = 0) then 1 else 0 in
  (Return ("CON Set Notification Preferences:" +:+ nl +:+
           preference_lines (market_open_notify sub) new_value),
   set_subscribers
     (update_where phone (set_preference Market_close_notify new_value)
                   (subscribers w)) w).
Proof.
  intros Hseg Hsub. unfold handle_notification_preference. py_unfold.
  rewrite getitem_split_last, Hseg, Hsub. by decide_path.
Qed.

(** X9. For a subscriber, path "3*2*2" flips the market-close flag and
    keeps the market-open flag and the subscription list; the two toggles
    "3*2*1" and "3*2*2" commute: in either order they lead to the same
    state. *)
Theorem toggles_commute phone w sub :
  fetchone phone (subscribers w) = Some sub →
  let flip (v : Z) := if decide (v = 0) then 1 else 0 in
  fetchone phone (subscribers (ussd phone "3*2*2" w).2)
    = Some (set_preference Market_close_notify
              (flip (market_close_notify sub)) sub)
  ∧ (ussd phone "3*2*2" (ussd phone "3*2*1" w).2).2
    = (ussd phone "3*2*1" (ussd phone "3*2*2" w).2).2.
Proof.
  intros Hsub flip.
  assert (∀ w', ussd phone "3*2*1" w' =
                handle_notification_preference phone "3*2*1" w')
    as Hopen by (intros w'; by dispatch).
  assert (∀ w', ussd phone "3*2*2" w' =
                handle_notification_preference phone "3*2*2" w')
    as Hclose by (intros w'; by dispatch).
  set (vo := flip (market_open_notify sub)).
  set (vc := flip (market_close_notify sub)).
  assert ((ussd phone "3*2*1" w).2 =
          set_subscribers
            (update_where phone (set_preference Market_open_notify vo)
               (subscribers w)) w) as H1.
  { rewrite Hopen.
    by rewrite (handle_notification_preference_open _ _ _ sub). }
  assert ((ussd phone "3*2*2" w).2 =
          set_subscribers
            (update_where phone (set_preference Market_close_notify vc)
               (subscribers w)) w) as H2.
  { rewrite Hclose.
    by rewrite (handle_notification_preference_close _ _ _ sub). }
  split.
  - rewrite H2. simpl.
    rewrite Table.fetchone_update_where, Hsub; [done|].
    apply Table.set_preference_phone.
  - rewrite H1, H2, Hopen, Hclose.
    rewrite (handle_notification_preference_close _ _ _
               (set_preference Market_open_notify vo sub)); [|done|].
    2:{ simpl. rewrite Table.fetchone_update_where, Hsub; [done|].
        apply Table.set_preference_phone. }
    rewrite (handle_notification_preference_open _ _ _
               (set_preference Market_close_notify vc sub)); [|done|].
    2:{ simpl. rewrite Table.fetchone_update_where, Hsub; [done|].
        apply Table.set_preference_phone. }
    simpl. fold (flip (market_close_notify sub)).
    fold (flip (market_open_notify sub)). fold vo vc.
    rewrite !Table.update_where_twice by apply Table.set_preference_phone.
    reflexivity.
Qed.

(** X10. Unsubscribing forgets everything: whatever the record held, after
    path "4" and then path "1" the phone number has the record of a new
    subscriber, with an empty list and both flags 0. *)
Theorem resubscribe_starts_afresh phone w :
  fetchone phone
    (subscribers (ussd phone "1" (ussd phone "4" w).2).2)
  = Some (new_row phone).
Proof.
  assert (ussd phone "4" w =
          (Return unsubscribed,
           set_subscribers (delete_where phone (subscribers w)) w)) as ->.
  { unfold ussd_callback. by decide_path. }
  simpl. rewrite ussd_subscribe_new by apply Table.fetchone_delete_where.
  simpl. rewrite subscribers_reloaded. simpl.
  apply Table.fetchone_insert, Table.fetchone_None,
    Table.fetchone_delete_where.
Qed.

(** X11. The selection handlers read the module variable and never load
    the file themselves. While the variable is empty, a numeric entry under
    "1*" is refused as an invalid stock number even when the file lists
    that stock; showing the menu in that response loads the file, and the
    same request then subscribes. *)
Theorem selection_before_load phone rest w i stock sub :
  CURRENT_STOCKS_DATA w = [] →
  STOCKS_JSON_FILE w !! Z.to_nat (i - 1) = Some stock →
  to_int (last_segment ("1*" +:+ rest)) = Some i → 1 ≤ i →
  fetchone phone (subscribers w) = Some sub →
  name stock ∉ subscribed_stocks sub →
  let res1 := ussd phone ("1*" +:+ rest) w in
  let res2 := ussd phone ("1*" +:+ rest) res1.2 in
  res1 = (Return ("CON Invalid stock number. Please try again." +:+ nl +:+
                  stocks_menu (STOCKS_JSON_FILE w)),
          set_CURRENT_STOCKS_DATA (STOCKS_JSON_FILE w) w)
  ∧ res2.1 = Return ("CON Successfully subscribed to " +:+ name stock +:+
                     "." +:+ nl +:+ offer_another).
Proof.
  intros Hempty Hfile Hint Hi Hsub Hnew res1 res2.
  assert (res1 = (Return ("CON Invalid stock number. Please try again."
                          +:+ nl +:+ stocks_menu (STOCKS_JSON_FILE w)),
                  set_CURRENT_STOCKS_DATA (STOCKS_JSON_FILE w) w)) as Hres1.
  { subst res1. rewrite ussd_select.
    unfold handle_stock_selection. py_unfold.
    rewrite getitem_split_last.
    rewrite (decide_False (P := last_segment ("1*" +:+ rest) = "0"))
      by by eapply int_not_zero.
    rewrite Hint. py_unfold. rewrite Hempty.
    rewrite out_of_range by (simpl; lia).
    rewrite display_stocks_menu_run.
    unfold shown_menu, reloaded. rewrite Hempty. simpl.
    by destruct (STOCKS_JSON_FILE w). }
  split; [done|]. subst res2. rewrite Hres1. simpl.
  rewrite ussd_select, (select_in_range _ _ _ i stock) by done.
  simpl. rewrite Hsub. by rewrite decide_False.
Qed.

(** ** db.py: the statements one by one *)

(** X12. [add_subscriber] returns [True] exactly when the phone number had
    no row; it then appends the row (phone, [], 0, 0), which
    [get_subscriber] returns afterwards. When the phone number has a row it
    returns [False] and writes nothing. Either way the primary key is
    kept. *)
Theorem add_subscriber_once phone w :
  let res := add_subscriber phone w in
  match fetchone phone (subscribers w) with
  | None =>
      res.1 = Return true
      ∧ subscribers res.2 = subscribers w ++ [new_row phone]
      ∧ (get_subscriber phone res.2).1 = Return (Some (new_row phone))
  | Some _ => res = (Return false, w)
  end
  ∧ (primary_key (subscribers w) → primary_key (subscribers res.2)).
Proof.
  intros res. subst res. unfold add_subscriber. py_unfold.
  destruct (fetchone phone (subscribers w)) as [sub|] eqn:Hsub.
  - assert (phone ∈ phone_number <$> subscribers w) as Hin.
    { destruct (decide (phone ∈ phone_number <$> subscribers w)); [done|].
      apply Table.fetchone_None in n. congruence. }
    by rewrite decide_True by done.
  - apply Table.fetchone_None in Hsub.
    rewrite decide_False by done. simpl. split_and!; [done|done| |].
    + by rewrite Table.fetchone_insert.
    + intros Hpk. eapply Table.primary_key_step; [|done]. by constructor.
Qed.

Lemma update_where_absent phone f t :
  fetchone phone t = None → update_where phone f t = t.
Proof.
  intros Hnone%Table.fetchone_None. unfold update_where.
  induction t as [|r t IH]; [done|].
  rewrite fmap_cons in Hnone. apply not_elem_of_cons in Hnone as [Hr Ht].
  rewrite fmap_cons, decide_False by done. by rewrite IH.
Qed.

(** X13. [update_subscribed_stocks] never creates a row: for a phone
    number without a row it changes nothing; for a phone number with a row,
    [get_subscriber] returns that row with the new list and the old flags.
    The phone numbers of the table and the rows of the other phone numbers
    stay as they are. *)
Theorem update_subscribed_stocks_no_upsert phone stocks w :
  let w' := (update_subscribed_stocks phone stocks w).2 in
  (get_subscriber phone w').1
    = Return (set_stocks stocks <$> fetchone phone (subscribers w))
  ∧ (fetchone phone (subscribers w) = None → w' = w)
  ∧ phone_number <$> subscribers w' = phone_number <$> subscribers w
  ∧ delete_where phone (subscribers w') = delete_where phone (subscribers w).
Proof.
  intros w'. subst w'. unfold update_subscribed_stocks. py_unfold. simpl.
  split_and!.
  - by rewrite Table.fetchone_update_where.
  - intros Hnone. rewrite update_where_absent by done.
    apply set_subscribers_same.
  - by apply Table.update_where_phones.
  - by apply delete_where_update_where.
Qed.

(** X25. Every request keeps the primary key and the form of the flags:
    when no two rows of the table have the same phone number, none have
    after the request, and when every flag of the table is 0 or 1, every
    flag still is. *)
Theorem table_invariants_kept phone text w :
  let w' := (ussd phone text w).2 in
  (primary_key (subscribers w) → primary_key (subscribers w'))
  ∧ (flags_boolean (subscribers w) → flags_boolean (subscribers w')).
Proof.
  destruct (ussd_callback_step phone text w) as (_ & _ & Hstep & _).
  split; intros Hinv;
    eauto using Table.primary_key_step, Table.flags_boolean_step.
Qed.

End Handlers.

(** ** The market notifications *)

Section Notifications.

Context {Price : Type} (format_2f : Price → string).
Implicit Types (stocks : list (@Stock Price)) (d : gmap string Price).

Local Abbreviation line := (stock_line format_2f).
Local Abbreviation message := (notification_message format_2f).
Local Abbreviation notify := (notify_subscribers format_2f).

Lemma send_notification_flag k r :
  send_notification k r = true ↔ flag_of k r = 1.
Proof. destruct k; apply bool_decide_eq_true. Qed.

(** The dictionary holds, under a lower-case name, the price of the last
    entry of the catalog with that lower-case name. *)
Lemma stock_dict_lookup stocks key :
  stock_dict stocks !! key =
  price <$> last (filter (λ e, lower (name e) = key) stocks).
Proof.
  unfold stock_dict.
  assert (∀ d0 : gmap string Price,
            foldl (λ d e, <[lower (name e) := price e]> d) d0 stocks !! key =
            match last (filter (λ e, lower (name e) = key) stocks) with
            | Some e => Some (price e)
            | None => d0 !! key
            end) as Hgen.
  { induction stocks as [|e stocks IH]; intros d0; [done|].
    simpl. rewrite IH, filter_cons.
    destruct (decide (lower (name e) = key)) as [<-|Hne].
    - rewrite last_cons.
      destruct (last (filter _ stocks)); [done|].
      by rewrite lookup_insert_eq.
    - destruct (last (filter _ stocks)); [done|].
      by rewrite lookup_insert_ne. }
  rewrite Hgen. by destruct (last _).
Qed.

Lemma stock_line_absent stocks s :
  (∀ e, e ∈ stocks → lower (name e) ≠ lower s) →
  line (stock_dict stocks) s = s +:+ ": Price N/A".
Proof.
  intros Habs. unfold stock_line. rewrite stock_dict_lookup.
  destruct (last _) as [e|] eqn:Hlast; [|done].
  apply last_Some_elem_of, list_elem_of_filter in Hlast as [Hk He].
  by destruct (Habs e He).
Qed.

Lemma stock_line_present stocks s e :
  e ∈ stocks → lower (name e) = lower s →
  ∃ e', e' ∈ stocks ∧ lower (name e') = lower s
        ∧ line (stock_dict stocks) s =
          s +:+ ": Ksh " +:+ format_2f (price e').
Proof.
  intros He Hk. unfold stock_line. rewrite stock_dict_lookup.
  destruct (last _) as [e'|] eqn:Hlast.
  - apply last_Some_elem_of, list_elem_of_filter in Hlast as [Hk' He'].
    by exists e'.
  - apply last_None in Hlast.
    assert (e ∈ filter (λ e, lower (name e) = lower s) stocks) as Hin
      by by apply list_elem_of_filter.
    rewrite Hlast in Hin. by apply elem_of_nil in Hin.
Qed.

Lemma notify_subscribers_filter k d subs :
  notify k d subs =
  (λ r, (phone_number r, message k d (subscribed_stocks r)))
    <$> filter (λ r, flag_of k r = 1) subs.
Proof.
  induction subs as [|r subs IH]; [done|].
  simpl. rewrite filter_cons.
  destruct (send_notification k r) eqn:Hsend.
  - apply send_notification_flag in Hsend.
    rewrite decide_True by done. by rewrite fmap_cons, IH.
  - rewrite decide_False; [done|].
    intros Hflag%send_notification_flag. congruence.
Qed.

(** The entries of the catalog that a subscribed name matches when case
    is ignored are those under its key in the dictionary. *)
Lemma filter_same_ignoring_case stocks s :
  filter (λ e, same_ignoring_case (name e) s = true) stocks
  = filter (λ e : Stock, lower (name e) = lower s) stocks.
Proof. apply list_filter_iff. intros e. apply PyFacts.same_ignoring_case_lower. Qed.

(** C9. For either kind of notification, a message is built and sent only
    to the subscribers whose flag of that kind is 1, and when the batch
    runs each of them is sent one. The message of a subscriber with stocks
    is a header followed by one line for each subscribed name, in order.
    The name is looked up in the catalog without regard to the case of its
    letters: for names of ASCII characters, the line shows the price of the
    last entry of the catalog whose name is the subscribed name up to case,
    and when the catalog has no such entry the name keeps its line, which
    reads "<name>: Price N/A". *)
Theorem market_notification k today st subs stocks :
  let sent := (send_market_notification format_2f k today st subs stocks).1 in
  let d := stock_dict stocks in
  (∀ phone text, (phone, text) ∈ sent →
     ∃ r, r ∈ subs ∧ phone_number r = phone ∧ flag_of k r = 1
          ∧ text = message k d (subscribed_stocks r))
  ∧ (last_sent k st ≠ Some today → stocks ≠ [] →
     sent = (λ r, (phone_number r, message k d (subscribed_stocks r)))
              <$> filter (λ r, flag_of k r = 1) subs)
  ∧ (∀ l, l ≠ [] →
     message k d l = join nl (message_parts format_2f k d l)
     ∧ ∀ i, message_parts format_2f k d l !! S i = line d <$> l !! i)
  ∧ (∀ s,
     isascii s = true → Forall (λ e, isascii (name e) = true) stocks →
     (∀ e, e ∈ stocks → same_ignoring_case (name e) s = false) →
     line d s = s +:+ ": Price N/A")
  ∧ (∀ s e',
     isascii s = true → Forall (λ e, isascii (name e) = true) stocks →
     last (filter (λ e, same_ignoring_case (name e) s = true) stocks)
       = Some e' →
     line d s = s +:+ ": Ksh " +:+ format_2f (price e')).
Proof.
  intros sent d. split_and!.
  - intros phone text. subst sent. unfold send_market_notification.
    case_decide; [by intros ?%elem_of_nil|].
    destruct (is_empty stocks); [by intros ?%elem_of_nil|].
    simpl. rewrite notify_subscribers_filter.
    intros Hin. apply list_elem_of_fmap in Hin as (r & [= -> ->] & Hin).
    apply list_elem_of_filter in Hin as [Hflag Hin]. by exists r.
  - intros Hnot Hstocks. subst sent. unfold send_market_notification.
    rewrite decide_False by done.
    destruct stocks; [done|]. simpl. apply notify_subscribers_filter.
  - intros l Hl. split.
    + unfold notification_message. by destruct l.
    + intros i. unfold message_parts. simpl. by rewrite list_lookup_fmap.
  - intros s _ _ Habs. apply stock_line_absent. intros e He Hlower.
    apply PyFacts.same_ignoring_case_lower in Hlower.
    specialize (Habs e He). congruence.
  - intros s e' _ _ Hlast. rewrite filter_same_ignoring_case in Hlast.
    subst d. unfold stock_line. by rewrite stock_dict_lookup, Hlast.
Qed.

End Notifications.


(** ** The scheduler *)

Section SchedulerFacts.

Context {Price : Type} (format_2f : Price → string).

Local Abbreviation messages := (send_market_notification format_2f).

Ltac unfold_messages := unfold send_market_notification.

Import Scheduler.

Implicit Types (s : state) (now : datetime) (k : notification_type)
  (subs : list Row) (stocks : list (@Stock Price)).

Local Abbreviation send := (Scheduler.send_market_notification format_2f).
Local Abbreviation turn := (iteration format_2f).

(** The state-passing form and the function of the messages agree. *)
Lemma send_market_notification_agrees k today subs stocks s :
  let pure := messages k today (last_notification_sent s) subs stocks in
  sms_sent (send k today subs stocks s) = sms_sent s ++ pure.1
  ∧ last_notification_sent (send k today subs stocks s) = pure.2.
Proof.
  unfold_messages. unfold Scheduler.send_market_notification. simpl.
  destruct (decide _); [by rewrite app_nil_r|].
  destruct (is_empty stocks); [by rewrite app_nil_r|done].
Qed.

Lemma last_sent_set k k' today st :
  last_sent k (set_last_sent k' today st) =
  if decide (k = k') then Some today else last_sent k st.
Proof. by destruct k, k'. Qed.

(** X14. A batch of a kind runs at most once a day, and a restart does
    not repeat it. When the catalog has stocks and the batch of kind k was
    not yet sent on the date [today], [send_market_notification] sends one
    message to each subscriber whose flag is 1, records the date in memory
    and in the status file, and leaves the date of the other kind alone;
    any further call for k on that date, also after the status is loaded
    again from the file, sends nothing and changes nothing. *)
Theorem batch_once_a_day k today subs stocks s :
  stocks ≠ [] →
  last_sent k (last_notification_sent s) ≠ Some today →
  let s1 := send k today subs stocks s in
  length (sms_sent s1) =
    (length (sms_sent s) +
     length (filter (λ r, (flag_of k r = 1)%Z) subs))%nat
  ∧ last_sent k (last_notification_sent s1) = Some today
  ∧ (∀ k', k' ≠ k →
       last_sent k' (last_notification_sent s1)
       = last_sent k' (last_notification_sent s))
  ∧ (∀ subs' stocks', send k today subs' stocks' s1 = s1)
  ∧ (∀ t subs' stocks',
       let restarted := start (STATUS_FILE s1) t in
       last_notification_sent restarted = last_notification_sent s1
       ∧ send k today subs' stocks' restarted = restarted).
Proof.
  intros Hstocks Hnot s1.
  assert (s1 = {| last_notification_sent :=
                    set_last_sent k today (last_notification_sent s);
                  last_scrape_time := last_scrape_time s;
                  STATUS_FILE :=
                    save_last_notification_status
                      (set_last_sent k today (last_notification_sent s))
                      (isoformat <$> last_scrape_time s);
                  sms_sent :=
                    sms_sent s ++
                    notify_subscribers format_2f k (stock_dict stocks) subs;
                  scrapes := scrapes s |}) as Hs1.
  { subst s1. unfold Scheduler.send_market_notification.
    rewrite decide_False by done. by destruct stocks. }
  assert (last_sent k (last_notification_sent s1) = Some today) as Hsent.
  { rewrite Hs1. simpl. by rewrite last_sent_set, decide_True. }
  split_and!.
  - rewrite Hs1. simpl.
    by rewrite length_app, notify_subscribers_filter, length_fmap.
  - done.
  - intros k' Hk'. rewrite Hs1. simpl.
    by rewrite last_sent_set, decide_False.
  - intros subs' stocks'. unfold Scheduler.send_market_notification.
    by rewrite decide_True.
  - intros t subs' stocks' restarted.
    assert (last_notification_sent restarted = last_notification_sent s1)
      as Hsame by (subst restarted; by rewrite Hs1).
    split; [done|]. unfold Scheduler.send_market_notification.
    rewrite Hsame. by rewrite decide_True.
Qed.

Lemma time_le_spec h1 m1 h2 m2 :
  time_le h1 m1 h2 m2 = true ↔ h1 < h2 ∨ (h1 = h2 ∧ m1 ≤ m2).
Proof. unfold time_le. rewrite orb_true_iff, andb_true_iff. lia. Qed.

(** The scheduler's market hours: a weekday between 08:00 and 15:05. *)
Lemma market_hours_spec now :
  is_weekday now && is_during_market_hours now = true
  ↔ 0 ≤ weekday now ≤ 4
    ∧ (8 < hour now ∨ (hour now = 8 ∧ 0 ≤ minute now))
    ∧ (hour now < 15 ∨ (hour now = 15 ∧ minute now ≤ 5)).
Proof.
  unfold is_weekday, is_during_market_hours.
  rewrite !andb_true_iff, !time_le_spec.
  unfold MARKET_OPEN_HOUR, MARKET_CLOSE_HOUR, MARKET_CLOSE_MINUTE_BUFFER.
  lia.
Qed.

Lemma window_spec now h :
  is_weekday now && (hour now =? h) && (0 <=? minute now) &&
  (minute now <? 10) = true
  ↔ 0 ≤ weekday now ≤ 4 ∧ hour now = h ∧ 0 ≤ minute now < 10.
Proof. unfold is_weekday. rewrite !andb_true_iff. lia. Qed.

Lemma send_keeps_scrape k today subs stocks s :
  scrapes (send k today subs stocks s) = scrapes s
  ∧ last_scrape_time (send k today subs stocks s) = last_scrape_time s.
Proof.
  unfold Scheduler.send_market_notification.
  destruct (decide _); [done|]. by destruct (is_empty stocks).
Qed.

Lemma send_already k today subs stocks s :
  last_sent k (last_notification_sent s) = Some today →
  send k today subs stocks s = s.
Proof.
  intros Hsent. unfold Scheduler.send_market_notification.
  by rewrite decide_True.
Qed.

Lemma send_marks k today subs stocks s :
  stocks ≠ [] →
  last_sent k (last_notification_sent (send k today subs stocks s))
  = Some today.
Proof.
  intros Hstocks. unfold Scheduler.send_market_notification.
  destruct (decide _) as [Hsent|Hnot]; [done|].
  destruct stocks; [done|]. simpl. by rewrite last_sent_set, decide_True.
Qed.

Lemma notifications_keep_scrape now today subs stocks s :
  scrapes (notifications format_2f now today subs stocks s) = scrapes s
  ∧ last_scrape_time (notifications format_2f now today subs stocks s)
    = last_scrape_time s.
Proof.
  unfold notifications.
  destruct (_ && (hour now =? MARKET_OPEN_HOUR) && _ && _);
    destruct (_ && (hour now =? MARKET_CLOSE_HOUR) && _ && _);
    rewrite ?(proj1 (send_keeps_scrape _ _ _ _ _)),
      ?(proj2 (send_keeps_scrape _ _ _ _ _)),
      ?(proj1 (send_keeps_scrape _ _ _ _ _)),
      ?(proj2 (send_keeps_scrape _ _ _ _ _)); done.
Qed.

Lemma daily_reset_keeps now s :
  sms_sent (daily_reset now s) = sms_sent s
  ∧ scrapes (daily_reset now s) = scrapes s.
Proof.
  unfold daily_reset. destruct (_ && _); [|done]. by destruct (decide _).
Qed.

Lemma periodic_scrape_keeps now s s1 :
  periodic_scrape now s = inl s1 →
  sms_sent s1 = sms_sent s
  ∧ last_notification_sent s1 = last_notification_sent s.
Proof.
  unfold periodic_scrape. destruct (_ && _); [|by intros [= <-]].
  destruct (last_scrape_time s); [|done].
  destruct (_ <=? _); by intros [= <-].
Qed.

(** X15. The daily reset stops the scheduler. A turn of the loop at 00:05
    on a day whose date is not the one recorded for the open batch clears
    both dates and sets [last_scrape_time] to [None]; whatever turn comes
    next on a weekday between 08:00 and 15:05 then raises the [TypeError]
    of [now - last_scrape_time]. *)
Theorem reset_then_crash now today subs stocks s :
  hour now = 0 → minute now = 5 →
  last_open (last_notification_sent s) ≠ Some (date now) →
  turn now today subs stocks s = inl (reset s)
  ∧ last_scrape_time (reset s) = None
  ∧ ∀ now' today' subs' stocks',
      0 ≤ weekday now' ≤ 4 →
      8 < hour now' ∨ (hour now' = 8 ∧ 0 ≤ minute now') →
      hour now' < 15 ∨ (hour now' = 15 ∧ minute now' ≤ 5) →
      turn now' today' subs' stocks' (reset s) = inr TypeError.
Proof.
  intros Hh Hm Hopen. split_and!.
  - unfold iteration, periodic_scrape, notifications, daily_reset.
    assert (is_weekday now && is_during_market_hours now = false) as ->.
    { apply not_true_is_false. rewrite market_hours_spec. lia. }
    assert (is_weekday now && (hour now =? MARKET_OPEN_HOUR) &&
            (0 <=? minute now) && (minute now <? 10) = false) as ->.
    { apply not_true_is_false. rewrite window_spec.
      unfold MARKET_OPEN_HOUR. lia. }
    assert (is_weekday now && (hour now =? MARKET_CLOSE_HOUR) &&
            (0 <=? minute now) && (minute now <? 10) = false) as ->.
    { apply not_true_is_false. rewrite window_spec.
      unfold MARKET_CLOSE_HOUR. lia. }
    rewrite Hh, Hm. simpl. by rewrite decide_False.
  - done.
  - intros now' today' subs' stocks' Hw Ho Hc.
    unfold iteration, periodic_scrape.
    by rewrite (proj2 (market_hours_spec now')).
Qed.

(** X16. Outside its windows the scheduler is silent. A turn of the loop
    that does not crash sends messages only on a weekday, in the hour 8 or
    the hour 15 and before minute 10, and calls the scraper only on a
    weekday between 08:00 and 15:05 when at least five minutes have passed
    since [last_scrape_time]. *)
Theorem scheduler_windows now today subs stocks s s' :
  turn now today subs stocks s = inl s' →
  (sms_sent s' ≠ sms_sent s →
     0 ≤ weekday now ≤ 4 ∧ (hour now = 8 ∨ hour now = 15)
     ∧ 0 ≤ minute now < 10)
  ∧ (scrapes s' ≠ scrapes s →
     0 ≤ weekday now ≤ 4
     ∧ (8 < hour now ∨ (hour now = 8 ∧ 0 ≤ minute now))
     ∧ (hour now < 15 ∨ (hour now = 15 ∧ minute now ≤ 5))
     ∧ ∃ last, last_scrape_time s = Some last
               ∧ 300 * 1000000 ≤ clock now - clock last).
Proof.
  unfold iteration.
  destruct (periodic_scrape now s) as [s1|] eqn:Hscrape; [|done].
  intros [= <-].
  destruct (daily_reset_keeps now
              (notifications format_2f now today subs stocks s1))
    as [-> ->].
  rewrite (proj1 (notifications_keep_scrape _ _ _ _ _)).
  destruct (periodic_scrape_keeps _ _ _ Hscrape) as [Hsms _].
  split.
  - rewrite <- Hsms. unfold notifications. intros Hne.
    destruct (is_weekday now && (hour now =? MARKET_OPEN_HOUR) &&
              (0 <=? minute now) && (minute now <? 10)) eqn:Ho.
    { apply window_spec in Ho. unfold MARKET_OPEN_HOUR in Ho. lia. }
    destruct (is_weekday now && (hour now =? MARKET_CLOSE_HOUR) &&
              (0 <=? minute now) && (minute now <? 10)) eqn:Hc.
    { apply window_spec in Hc. unfold MARKET_CLOSE_HOUR in Hc. lia. }
    done.
  - revert Hscrape. unfold periodic_scrape.
    destruct (is_weekday now && is_during_market_hours now) eqn:Hmarket;
      [|by intros [= <-] []].
    apply market_hours_spec in Hmarket as (? & ? & ?).
    destruct (last_scrape_time s) as [last|]; [|done].
    destruct (_ <=? _) eqn:Hdue; [|by intros [= <-] []].
    intros _ _. split_and!; try done; try lia.
    exists last. split; [done|]. unfold SCRAPE_INTERVAL_MINUTES in Hdue. lia.
Qed.

(** X17. Within the ten minutes of the opening window the batch goes out
    once. A turn of the loop on a weekday in the hour 8 before minute 10,
    with stocks in the catalog, leaves the date [today] recorded for the
    open batch; a later turn in the hour 8 that reads the same date sends
    nothing. *)
Theorem open_batch_once_in_window now1 now2 today subs1 subs2 stocks1
    stocks2 s s1 s2 :
  0 ≤ weekday now1 ≤ 4 → hour now1 = 8 → 0 ≤ minute now1 < 10 →
  stocks1 ≠ [] →
  turn now1 today subs1 stocks1 s = inl s1 →
  hour now2 = 8 →
  turn now2 today subs2 stocks2 s1 = inl s2 →
  last_open (last_notification_sent s1) = Some today
  ∧ sms_sent s2 = sms_sent s1.
Proof.
  intros Hw1 Hh1 Hm1 Hstocks Hturn1 Hh2 Hturn2.
  assert (∀ now, hour now = 8 →
            is_weekday now && (hour now =? MARKET_CLOSE_HOUR) &&
            (0 <=? minute now) && (minute now <? 10) = false
            ∧ (hour now =? 0) && (minute now =? 5) = false) as Height.
  { intros now Hh. split.
    - apply not_true_is_false. rewrite window_spec.
      unfold MARKET_CLOSE_HOUR. lia.
    - lia. }
  assert (last_open (last_notification_sent s1) = Some today) as Hopen.
  { revert Hturn1. unfold iteration.
    destruct (periodic_scrape now1 s) as [x|]; [|done]. intros [= <-].
    unfold daily_reset, notifications.
    destruct (Height now1 Hh1) as [-> ->].
    rewrite (proj2 (window_spec now1 MARKET_OPEN_HOUR)) by done.
    by apply (send_marks Open). }
  split; [done|].
  revert Hturn2. unfold iteration.
  destruct (periodic_scrape now2 s1) as [x|] eqn:Hscrape; [|done].
  intros [= <-].
  destruct (periodic_scrape_keeps _ _ _ Hscrape) as [Hsms Hsent].
  unfold daily_reset, notifications.
  destruct (Height now2 Hh2) as [-> ->].
  destruct (_ && _ && _ && _); [|done].
  rewrite (send_already Open); [done|]. by rewrite Hsent.
Qed.

(** X18. Scrapes are at least five minutes apart. When a turn of the loop
    calls the scraper, it records its own time in the log and in
    [last_scrape_time], and no later turn less than 300 seconds after it
    calls the scraper again. *)
Theorem scrapes_five_minutes_apart now1 now2 today1 today2 subs1 subs2
    stocks1 stocks2 s s1 s2 :
  turn now1 today1 subs1 stocks1 s = inl s1 →
  scrapes s1 ≠ scrapes s →
  clock now2 - clock now1 < 300 * 1000000 →
  turn now2 today2 subs2 stocks2 s1 = inl s2 →
  scrapes s1 = scrapes s ++ [now1]
  ∧ last_scrape_time s1 = Some now1
  ∧ scrapes s2 = scrapes s1.
Proof.
  intros Hturn1 Hscraped Hsoon Hturn2.
  assert (scrapes s1 = scrapes s ++ [now1] ∧ last_scrape_time s1 = Some now1)
    as [Hlog Hlast].
  { revert Hturn1 Hscraped. unfold iteration.
    destruct (periodic_scrape now1 s) as [x|] eqn:Hscrape; [|done].
    intros [= <-].
    rewrite (proj2 (daily_reset_keeps _ _)),
      (proj1 (notifications_keep_scrape _ _ _ _ _)).
    revert Hscrape. unfold periodic_scrape.
    destruct (is_weekday now1 && is_during_market_hours now1) eqn:Hmarket;
      [|by intros [= <-] []].
    apply market_hours_spec in Hmarket as (_ & Ho & _).
    destruct (last_scrape_time s) as [last|]; [|done].
    destruct (_ <=? _); [|by intros [= <-] []].
    intros [= <-] _. split; [done|].
    unfold daily_reset.
    assert ((hour now1 =? 0) && (minute now1 =? 5) = false) as -> by lia.
    by rewrite (proj2 (notifications_keep_scrape _ _ _ _ _)). }
  split_and!; [done|done|].
  revert Hturn2. unfold iteration.
  destruct (periodic_scrape now2 s1) as [x|] eqn:Hscrape; [|done].
  intros [= <-].
  rewrite (proj2 (daily_reset_keeps _ _)),
    (proj1 (notifications_keep_scrape _ _ _ _ _)).
  revert Hscrape. unfold periodic_scrape. rewrite Hlast.
  replace (SCRAPE_INTERVAL_MINUTES * 60 * 1000000
           <=? clock now2 - clock now1) with false
    by (unfold SCRAPE_INTERVAL_MINUTES; lia).
  destruct (_ && _); by intros [= <-].
Qed.

End SchedulerFacts.

(** ** The raw handler on a well-formed catalog *)

Section Simulation.

Context {Price : Type} (format_2f : Price → string).
Context (max_str_digits : nat).

Implicit Types (w : @World Price).

#[local] Existing Instance Raw.Py_ret.
#[local] Existing Instance Raw.Py_bind.

Local Abbreviation sim := (sim (Price := Price)).

Lemma sim_ret {A} (a : A) : sim (mret a) (mret a).
Proof. by intros w. Qed.

Lemma sim_bind {A B} (m : Py A) (m' : Raw.Py A) (f : A → Py B)
    (f' : A → Raw.Py B) :
  sim m m' → (∀ a, sim (f a) (f' a)) → sim (m ≫= f) (m' ≫= f').
Proof.
  intros Hm Hf w. unfold mbind, Py_bind, Raw.Py_bind. rewrite Hm.
  destruct (m w) as [[a|e] w1]; simpl; [apply Hf|done].
Qed.

Lemma sim_or_raise {A} e (o : option A) :
  sim (or_raise e o) (Raw.or_raise e o).
Proof. by destruct o; intros w. Qed.

Lemma sim_try_except {A} e (body handler : Py A)
    (body' handler' : Raw.Py A) :
  sim body body' → sim handler handler' →
  sim (try_except e body handler) (Raw.try_except e body' handler').
Proof.
  intros Hb Hh w. unfold try_except, Raw.try_except. rewrite Hb.
  destruct (body w) as [[a|e'] w1]; simpl; [done|].
  destruct (decide (e' = e)); [apply Hh|done].
Qed.

Lemma sim_get_subscriber phone :
  sim (get_subscriber phone) (Raw.get_subscriber phone).
Proof. by intros w. Qed.

Lemma sim_add_subscriber phone :
  sim (add_subscriber phone) (Raw.add_subscriber phone).
Proof.
  intros w. unfold add_subscriber, Raw.add_subscriber.
  unfold mbind, Py_bind, Raw.Py_bind. simpl.
  by destruct (decide _).
Qed.

Lemma sim_remove_subscriber phone :
  sim (remove_subscriber phone) (Raw.remove_subscriber phone).
Proof. by intros w. Qed.

Lemma sim_update_subscribed_stocks phone stocks :
  sim (update_subscribed_stocks phone stocks)
      (Raw.update_subscribed_stocks phone stocks).
Proof. by intros w. Qed.

Lemma sim_update_notification_preference phone p v :
  sim (update_notification_preference phone p v)
      (Raw.update_notification_preference phone p v).
Proof. by intros w. Qed.

(** Reading the module variable. *)
Lemma sim_catalog {B} (k : list Stock → Py B)
    (k' : list Raw.Entry → Raw.Py B) :
  (∀ data, sim (k data) (k' (typed_entry <$> data))) →
  sim (gets CURRENT_STOCKS_DATA ≫= k) (Raw.gets Raw.CURRENT_STOCKS_DATA ≫= k').
Proof. intros Hk w. apply Hk. Qed.

Lemma is_empty_fmap {A B} (f : A → B) (l : list A) :
  is_empty (f <$> l) = is_empty l.
Proof. by destruct l. Qed.

Lemma entry_names_typed (l : list (@Stock Price)) :
  Raw.entry_names (typed_entry <$> l) = Some (name <$> l).
Proof.
  induction l as [|stock l IH]; [done|].
  rewrite !fmap_cons. cbn [Raw.entry_names typed_entry Raw.entry_name].
  by rewrite IH.
Qed.

Lemma getitem_fmap {A B} (f : A → B) (l : list A) i :
  getitem (f <$> l) i = f <$> getitem l i.
Proof.
  unfold getitem. rewrite length_fmap.
  repeat case_match; by rewrite ?list_lookup_fmap.
Qed.

Lemma sim_load_stocks_data : sim load_stocks_data Raw.load_stocks_data.
Proof. by intros w. Qed.

Lemma sim_display_stocks_menu phone path :
  sim (display_stocks_menu phone path) (Raw.display_stocks_menu phone path).
Proof.
  unfold display_stocks_menu, Raw.display_stocks_menu.
  apply sim_catalog. intros data. rewrite is_empty_fmap.
  apply sim_bind.
  { destruct (is_empty data); [apply sim_load_stocks_data|apply sim_ret]. }
  intros _. apply sim_catalog. clear data. intros data.
  rewrite is_empty_fmap. destruct (is_empty data); [apply sim_ret|].
  rewrite <- fmap_take, entry_names_typed. by intros w.
Qed.

Lemma sim_ret_bind_l {A B} (a : A) (k : A → Py B) (m' : Raw.Py B) :
  sim (k a) m' → sim (mret a ≫= k) m'.
Proof. intros H w. apply H. Qed.

Lemma sim_ret_bind_r {A B} (a : A) (m : Py B) (k' : A → Raw.Py B) :
  sim m (k' a) → sim m (mret a ≫= k').
Proof. intros H w. apply H. Qed.

Lemma sim_handle_stock_selection phone text :
  sim (handle_stock_selection max_str_digits phone text)
      (Raw.handle_stock_selection max_str_digits phone text).
Proof.
  unfold handle_stock_selection, Raw.handle_stock_selection. cbv zeta.
  apply sim_bind; [apply sim_or_raise|]. intros selected_option.
  destruct (decide _); [apply sim_ret|].
  apply sim_try_except.
  - apply sim_bind; [apply sim_or_raise|]. intros i.
    apply sim_catalog. intros data. rewrite length_fmap.
    destruct (_ && _).
    + rewrite getitem_fmap.
      destruct (getitem data (i - 1)) as [stock|]; [|by intros w].
      cbn [fmap option_fmap option_map or_raise Raw.or_raise].
      apply sim_ret_bind_l, sim_ret_bind_r.
      cbn [typed_entry Raw.entry_name Raw.or_raise].
      apply sim_ret_bind_r.
      apply sim_bind; [apply sim_get_subscriber|]. intros [sub|];
        [|apply sim_ret].
      destruct (decide _); [apply sim_ret|].
      apply sim_bind; [apply sim_update_subscribed_stocks|]. intros _.
      apply sim_ret.
    + apply sim_bind; [apply sim_display_stocks_menu|]. intros menu.
      apply sim_ret.
  - apply sim_bind; [apply sim_display_stocks_menu|]. intros menu.
    apply sim_ret.
Qed.

Lemma sim_handle_view_stock_details phone text :
  sim (handle_view_stock_details format_2f max_str_digits phone text)
      (Raw.handle_view_stock_details format_2f max_str_digits phone text).
Proof.
  unfold handle_view_stock_details, Raw.handle_view_stock_details. cbv zeta.
  apply sim_bind; [apply sim_or_raise|]. intros selected_option.
  destruct (decide _); [apply sim_ret|].
  apply sim_try_except.
  - apply sim_bind; [apply sim_or_raise|]. intros i.
    apply sim_catalog. intros data. rewrite length_fmap.
    destruct (_ && _).
    + rewrite getitem_fmap.
      destruct (getitem data (i - 1)) as [stock|]; by intros w.
    + apply sim_bind; [apply sim_display_stocks_menu|]. intros menu.
      apply sim_ret.
  - apply sim_bind; [apply sim_display_stocks_menu|]. intros menu.
    apply sim_ret.
Qed.

Lemma sim_handle_manage_subscribed_stocks phone text :
  sim (handle_manage_subscribed_stocks max_str_digits phone text)
      (Raw.handle_manage_subscribed_stocks max_str_digits phone text).
Proof.
  unfold handle_manage_subscribed_stocks,
    Raw.handle_manage_subscribed_stocks. cbv zeta.
  apply sim_bind; [apply sim_or_raise|]. intros action.
  apply sim_bind; [apply sim_get_subscriber|]. intros [sub|];
    [|apply sim_ret].
  destruct (decide _); [apply sim_ret|].
  destruct (decide _).
  { apply sim_bind; [apply sim_display_stocks_menu|]. intros menu.
    apply sim_ret. }
  apply sim_bind.
  { destruct (_ <=? _)%nat; [|apply sim_ret].
    apply sim_bind; [apply sim_or_raise|]. intros p. apply sim_ret. }
  intros [|]; [apply sim_handle_stock_selection|].
  apply sim_try_except; [|apply sim_ret].
  apply sim_bind; [apply sim_or_raise|]. intros i.
  destruct (_ && _); [|apply sim_ret].
  apply sim_bind; [apply sim_or_raise|]. intros [removed_stock rest].
  apply sim_bind; [apply sim_update_subscribed_stocks|]. intros _.
  apply sim_ret.
Qed.

Lemma sim_handle_notification_preference phone text :
  sim (handle_notification_preference phone text)
      (Raw.handle_notification_preference phone text).
Proof.
  unfold handle_notification_preference,
    Raw.handle_notification_preference. cbv zeta.
  apply sim_bind; [apply sim_or_raise|]. intros option.
  apply sim_bind; [apply sim_get_subscriber|]. intros [sub|];
    [|apply sim_ret].
  repeat (destruct (decide (option = _));
          [first [ apply sim_ret
                 | apply sim_bind;
                   [apply sim_update_notification_preference|];
                   intros _; apply sim_ret ]|]).
  apply sim_ret.
Qed.

(** On a typed state the raw handler does what the typed handler does. *)
Lemma sim_ussd_callback phone text :
  sim (ussd_callback format_2f max_str_digits phone text)
      (Raw.ussd_callback format_2f max_str_digits phone text).
Proof.
  unfold ussd_callback, Raw.ussd_callback.
  repeat match goal with
         | |- sim (if decide ?P then _ else _) _ => destruct (decide P)
         | |- sim (if startswith ?t ?p then _ else _) _ =>
             destruct (startswith t p)
         end;
    try first [ apply sim_ret
              | apply sim_handle_stock_selection
              | apply sim_handle_view_stock_details
              | apply sim_handle_manage_subscribed_stocks
              | apply sim_handle_notification_preference ].
  - apply sim_bind; [apply sim_get_subscriber|]. intros [sub|];
      [apply sim_ret|].
    apply sim_bind; [apply sim_add_subscriber|]. intros _.
    apply sim_bind; [apply sim_display_stocks_menu|]. intros menu.
    apply sim_ret.
  - apply sim_bind; [apply sim_display_stocks_menu|]. intros menu.
    apply sim_ret.
  - apply sim_bind; [apply sim_get_subscriber|]. intros [sub|];
      apply sim_ret.
  - apply sim_bind; [apply sim_get_subscriber|]. intros [sub|];
      [|apply sim_ret].
    destruct (is_empty _); [|apply sim_ret].
    apply sim_bind; [apply sim_display_stocks_menu|]. intros menu.
    apply sim_ret.
  - apply sim_bind; [apply sim_get_subscriber|]. intros [sub|];
      apply sim_ret.
  - apply sim_bind; [apply sim_remove_subscriber|]. intros _.
    apply sim_ret.
Qed.

(** A well-formed raw state is a typed state. *)
Lemma well_formed_typed (rw : @Raw.World Price) :
  well_formed rw → ∃ w, rw = untyped w.
Proof.
  assert (∀ l : list (@Raw.Entry Price),
            Forall well_formed_entry l → ∃ l', l = typed_entry <$> l')
    as Hlist.
  { induction 1 as [|stock l (n & p & ->) _ [l' ->]]; [by exists []|].
    by exists ({| name := n; price := p |} :: l'). }
  destruct rw as [t data file]. intros [Hdata Hfile]. simpl in *.
  destruct (Hlist _ Hdata) as [data' ->].
  destruct (Hlist _ Hfile) as [file' ->].
  by exists {| subscribers := t; CURRENT_STOCKS_DATA := data';
               STOCKS_JSON_FILE := file' |}.
Qed.

(** On a well-formed catalog the raw handler returns a marked
    response. *)
Lemma raw_returns_well_formed phone text (rw : @Raw.World Price) :
  well_formed rw →
  ∃ response,
    (Raw.ussd_callback format_2f max_str_digits phone text rw).1
      = Return response
    ∧ has_marker response.
Proof.
  intros [w ->]%well_formed_typed. rewrite sim_ussd_callback. simpl.
  apply typed_response_marker.
Qed.


End Simulation.

(** ** What the raw handler returns *)

Section Marker.

Context {Price : Type} (format_2f : Price → string).
Context (max_str_digits : nat).

#[local] Existing Instance Raw.Py_ret.
#[local] Existing Instance Raw.Py_bind.

Local Abbreviation returns_marked := (returns_marked (Price := Price)).

Lemma returns_marked_ret response :
  has_marker response → returns_marked (mret response).
Proof. by intros Hm w r [= <-]. Qed.

Lemma returns_marked_bind {A} (m : Raw.Py A) (f : A → Raw.Py string) :
  (∀ a, returns_marked (f a)) → returns_marked (m ≫= f).
Proof.
  intros Hf w r. unfold mbind, Raw.Py_bind.
  destruct (m w) as [[a|e] w1]; [apply Hf|done].
Qed.

Lemma returns_marked_try_except e (body handler : Raw.Py string) :
  returns_marked body → returns_marked handler →
  returns_marked (Raw.try_except e body handler).
Proof.
  intros Hb Hh w r. unfold Raw.try_except.
  specialize (Hb w). destruct (body w) as [[a|e'] w1]; [apply Hb|].
  destruct (decide (e' = e)); [apply Hh|done].
Qed.

Ltac marked_step :=
  first [ apply returns_marked_ret; first [by left|by right]
        | apply returns_marked_try_except
        | apply returns_marked_bind; intros ? ].

Lemma raw_handle_stock_selection_marked phone text :
  returns_marked (Raw.handle_stock_selection max_str_digits phone text).
Proof.
  unfold Raw.handle_stock_selection. cbv zeta.
  repeat first [ marked_step
               | match goal with
                 | |- returns_marked (if ?c then _ else _) => destruct c
                 | |- returns_marked (match ?x with _ => _ end) => destruct x
                 end ].
Qed.

Lemma raw_handle_view_stock_details_marked phone text :
  returns_marked
    (Raw.handle_view_stock_details format_2f max_str_digits phone text).
Proof.
  unfold Raw.handle_view_stock_details. cbv zeta.
  repeat first [ marked_step
               | match goal with
                 | |- returns_marked (if ?c then _ else _) => destruct c
                 | |- returns_marked (match ?x with _ => _ end) => destruct x
                 end ].
Qed.

Lemma raw_handle_manage_subscribed_stocks_marked phone text :
  returns_marked
    (Raw.handle_manage_subscribed_stocks max_str_digits phone text).
Proof.
  unfold Raw.handle_manage_subscribed_stocks. cbv zeta.
  repeat first [ apply raw_handle_stock_selection_marked
               | marked_step
               | match goal with
                 | |- returns_marked (if ?c then _ else _) => destruct c
                 | |- returns_marked (match ?x with _ => _ end) => destruct x
                 end ].
Qed.

Lemma raw_handle_notification_preference_marked phone text :
  returns_marked (Raw.handle_notification_preference phone text).
Proof.
  unfold Raw.handle_notification_preference. cbv zeta.
  repeat first [ marked_step
               | match goal with
                 | |- returns_marked (if ?c then _ else _) => destruct c
                 | |- returns_marked (match ?x with _ => _ end) => destruct x
                 end ].
Qed.

Lemma raw_ussd_callback_marked phone text :
  returns_marked (Raw.ussd_callback format_2f max_str_digits phone text).
Proof.
  unfold Raw.ussd_callback.
  repeat first [ apply raw_handle_stock_selection_marked
               | apply raw_handle_view_stock_details_marked
               | apply raw_handle_manage_subscribed_stocks_marked
               | apply raw_handle_notification_preference_marked
               | marked_step
               | match goal with
                 | |- returns_marked (if ?c then _ else _) => destruct c
                 | |- returns_marked (match ?x with _ => _ end) => destruct x
                 end ].
Qed.


End Marker.

(** ** The raw handler on entries that nobody validated *)

Section RawView.

Context {Price : Type} (format_2f : Price → string).
Context (max_str_digits : nat).

#[local] Existing Instance Raw.Py_ret.
#[local] Existing Instance Raw.Py_bind.

Lemma raw_ussd_view phone rest (rw : @Raw.World Price) :
  Raw.ussd_callback format_2f max_str_digits phone ("2*" +:+ rest) rw
  = Raw.handle_view_stock_details format_2f max_str_digits phone
      ("2*" +:+ rest) rw.
Proof.
  unfold Raw.ussd_callback.
  change ("2*" +:+ rest) with (String "2" (String "*" rest)).
  repeat (rewrite decide_False by discriminate). done.
Qed.

(** X26. What path "2*<n>" answers on entries that nobody validated. For
    an integer n inside the list held by the module variable, the n-th
    entry decides: without the key ["name"], and with it but without the
    key ["price"], the request raises a [KeyError]; a price that is a
    number, [true] or [false] is shown after the name, and the session
    ends; a price that is a string gets the response to an entry that is
    not a number, over the stock menu, because the [ValueError] of the
    format is caught together with that of [int]; a price that is [null],
    a list or an object raises a [TypeError]. *)
Theorem view_unvalidated_entry phone rest (rw : @Raw.World Price) i stock :
  int max_str_digits (last_segment ("2*" +:+ rest)) = Some i → 1 ≤ i →
  Raw.CURRENT_STOCKS_DATA rw !! Z.to_nat (i - 1) = Some stock →
  Raw.ussd_callback format_2f max_str_digits phone ("2*" +:+ rest) rw =
  match Raw.entry_name stock, Raw.entry_price stock with
  | None, _ => (Raise KeyError, rw)
  | Some _, None => (Raise KeyError, rw)
  | Some stock_name, Some (Json.JNum p) =>
      (Return ("END " +:+ stock_name +:+ ": Ksh " +:+ format_2f p +:+ nl +:+
               "Data in real-time."), rw)
  | Some stock_name, Some (Json.JBool b) =>
      (Return ("END " +:+ stock_name +:+ ": Ksh " +:+
               (if b then "1.00" else "0.00") +:+ nl +:+
               "Data in real-time."), rw)
  | Some _, Some (Json.JStr _) =>
      (menu ← Raw.display_stocks_menu phone "2";
       mret ("CON Invalid input. Please enter a number." +:+ nl +:+ menu)) rw
  | Some _, Some _ => (Raise TypeError, rw)
  end.
Proof.
  intros Hint Hi Hstock. rewrite raw_ussd_view.
  unfold Raw.handle_view_stock_details. cbv zeta.
  rewrite getitem_split_last.
  unfold mbind at 1, Raw.Py_bind at 1. cbn [Raw.or_raise mret Raw.Py_ret].
  rewrite decide_False by by eapply int_not_zero.
  unfold Raw.try_except. rewrite Hint.
  unfold mbind at 1, Raw.Py_bind at 1. cbn [Raw.or_raise mret Raw.Py_ret].
  unfold mbind at 1, Raw.Py_bind at 1. cbn [Raw.gets].
  assert ((0 <=? i - 1) && (i - 1 <? Z.of_nat (length (Raw.CURRENT_STOCKS_DATA rw)))
          = true) as Hrange.
  { apply in_range; [done|]. by eapply lookup_lt_Some. }
  rewrite Hrange.
  destruct (PyFacts.getitem_in_range _ _ Hrange) as (x & Hx & Hx').
  assert (x = stock) as -> by congruence.
  rewrite Hx.
  unfold mbind, Raw.Py_bind. cbn [Raw.or_raise mret Raw.Py_ret].
  destruct (Raw.entry_name stock) as [stock_name|]; [|done].
  cbn [Raw.or_raise mret Raw.Py_ret Raw.raise].
  destruct (Raw.entry_price stock) as [[| | | | |]|]; done.
Qed.

End RawView.

(** ** The catalog file and the scraper's reply *)

Module TextFacts.

Import PyText.

Lemma find_first (c : ascii) pre rest :
  occurs c pre = false →
  find c (pre +:+ String c rest) = Z.of_nat (String.length pre).
Proof.
  induction pre as [|a pre IH]; simpl.
  - intros _. by rewrite Ascii.eqb_refl.
  - intros [Ha Hpre]%orb_false_iff. rewrite Ha, IH by done.
    replace (Z.of_nat (String.length pre) =? -1) with false by lia. lia.
Qed.

Lemma rfind_absent (c : ascii) s : occurs c s = false → rfind c s = -1.
Proof.
  induction s as [|a s IH]; simpl; [done|].
  intros [Ha Hs]%orb_false_iff. by rewrite IH, Ha.
Qed.

Lemma rfind_last (c : ascii) pre post :
  occurs c post = false →
  rfind c (pre +:+ String c post) = Z.of_nat (String.length pre).
Proof.
  intros Hpost. induction pre as [|a pre IH]; simpl.
  - by rewrite rfind_absent, Ascii.eqb_refl.
  - rewrite IH.
    replace (Z.of_nat (String.length pre) =? -1) with false by lia. lia.
Qed.

Lemma length_append (a b : string) :
  String.length (a +:+ b) = (String.length a + String.length b)%nat.
Proof. induction a as [|c a IH]; simpl; [done|]. by rewrite IH. Qed.

Lemma substring_prefix (mid post : string) :
  substring 0 (String.length mid) (mid +:+ post) = mid.
Proof.
  induction mid as [|c mid IH]; simpl; [by destruct post|]. by rewrite IH.
Qed.

Lemma substring_middle (pre mid post : string) :
  substring (String.length pre) (String.length mid) (pre +:+ mid +:+ post)
  = mid.
Proof.
  induction pre as [|c pre IH];
    [exact (substring_prefix mid post)|exact IH].
Qed.

Lemma substring_none n (s : string) : substring n 0 s = EmptyString.
Proof.
  revert n. induction s as [|c s IH]; intros [|n]; simpl; try done.
Qed.

(** [s[a:b]] for bounds inside the string *)
Lemma slice_middle (pre mid post : string) :
  slice (pre +:+ mid +:+ post)
        (Z.of_nat (String.length pre))
        (Z.of_nat (String.length pre + String.length mid))
  = mid.
Proof.
  unfold slice. rewrite !length_append.
  assert (∀ n : nat, (Z.of_nat n <? 0) = false) as Hneg
    by (intros; apply Z.ltb_ge; lia).
  rewrite !Hneg. rewrite !Z.min_l by lia.
  replace (Z.to_nat (Z.of_nat (String.length pre + String.length mid) -
                     Z.of_nat (String.length pre)))
    with (String.length mid) by lia.
  rewrite Nat2Z.id. apply substring_middle.
Qed.

(** [s[a:b]] is empty when [b <= a], for bounds that are not negative *)
Lemma slice_empty (s : string) a b :
  0 ≤ a → 0 ≤ b → b ≤ a → slice s a b = EmptyString.
Proof.
  intros Ha Hb Hba. unfold slice.
  assert ((a <? 0) = false) as -> by lia.
  assert ((b <? 0) = false) as -> by lia.
  replace (Z.to_nat (Z.min b (Z.of_nat (String.length s)) -
                     Z.min a (Z.of_nat (String.length s))))
    with 0%nat by lia.
  apply substring_none.
Qed.

Lemma append_assoc (a b c : string) : (a +:+ b) +:+ c = a +:+ b +:+ c.
Proof.
  induction a as [|x a IH]; [done|].
  change (String x ((a +:+ b) +:+ c) = String x (a +:+ b +:+ c)).
  by rewrite IH.
Qed.

Lemma occurs_append (c : ascii) (a b : string) :
  occurs c (a +:+ b) = occurs c a || occurs c b.
Proof.
  induction a as [|x a IH]; [done|].
  change (Ascii.eqb x c || occurs c (a +:+ b)
          = Ascii.eqb x c || occurs c a || occurs c b).
  by rewrite IH, orb_assoc.
Qed.

Lemma find_absent (c : ascii) s : occurs c s = false → find c s = -1.
Proof.
  induction s as [|a s IH]; simpl; [done|].
  intros [Ha Hs]%orb_false_iff. by rewrite Ha, IH.
Qed.

Lemma find_range (c : ascii) s :
  -1 ≤ find c s < Z.of_nat (String.length s).
Proof.
  induction s as [|a s IH]; simpl; [lia|].
  destruct (Ascii.eqb a c); [lia|]. destruct (find c s =? -1) eqn:E; lia.
Qed.

Lemma rfind_range (c : ascii) s :
  -1 ≤ rfind c s < Z.of_nat (String.length s).
Proof.
  induction s as [|a s IH]; simpl; [lia|].
  destruct (rfind c s =? -1) eqn:E; [|lia]. destruct (Ascii.eqb a c); lia.
Qed.

(** Where [find] points there is the character. *)
Lemma find_split (c : ascii) s :
  find c s ≠ -1 →
  ∃ pre rest, s = pre +:+ String c rest
              ∧ find c s = Z.of_nat (String.length pre).
Proof.
  induction s as [|a s IH]; simpl; [done|].
  destruct (Ascii.eqb a c) eqn:Ha.
  - intros _. apply Ascii.eqb_eq in Ha as ->. by exists EmptyString, s.
  - destruct (find c s =? -1) eqn:E; [done|]. intros _.
    destruct IH as (pre & rest & -> & Hfind); [lia|].
    exists (String a pre), rest. split; [done|]. rewrite Hfind. simpl. lia.
Qed.

Lemma substring_at (pre : string) (c : ascii) rest n :
  substring (String.length pre) (S n) (pre +:+ String c rest)
  = String c (substring 0 n rest).
Proof. induction pre as [|a pre IH]; [done|exact IH]. Qed.

(** A slice that begins where [find] points is empty or begins with the
    character. *)
Lemma slice_from_find (c : ascii) s stop :
  find c s ≠ -1 →
  slice s (find c s) stop = EmptyString
  ∨ ∃ rest, slice s (find c s) stop = String c rest.
Proof.
  intros Hfound. destruct (find_split c s Hfound) as (pre & rest & Hs & Hf).
  rewrite Hf. unfold slice.
  assert ((Z.of_nat (String.length pre) <? 0) = false) as ->
    by (apply Z.ltb_ge; lia).
  assert (String.length pre < String.length s)%nat as Hlen.
  { rewrite Hs, length_append. simpl. lia. }
  rewrite Z.min_l by lia. rewrite Nat2Z.id.
  destruct (Z.to_nat _) as [|n].
  - left. apply substring_none.
  - right. rewrite Hs, substring_at. by eexists.
Qed.

Lemma occurs_str_lstrip (c : ascii) s :
  occurs c s = false → occurs c (str_lstrip s) = false.
Proof.
  induction s as [|a s IH]; simpl; [done|].
  intros [Ha Hs]%orb_false_iff. destruct (is_str_space a); [by apply IH|].
  simpl. by rewrite Ha, Hs.
Qed.

Lemma occurs_str_rstrip (c : ascii) s :
  occurs c s = false → occurs c (str_rstrip s) = false.
Proof.
  induction s as [|a s IH]; simpl; [done|].
  intros [Ha Hs]%orb_false_iff. specialize (IH Hs).
  destruct (str_rstrip s) as [|b r].
  - destruct (is_str_space a); [done|]. simpl. by rewrite Ha.
  - simpl. simpl in IH. by rewrite Ha, IH.
Qed.

Lemma occurs_str_strip (c : ascii) s :
  occurs c s = false → occurs c (str_strip s) = false.
Proof. intros Hs. by apply occurs_str_rstrip, occurs_str_lstrip. Qed.

End TextFacts.

Section CatalogFile.

Import Json.

Context {Num : Type} (num_truth : Num → bool).
Context (json_loads : string → option (@json Num)).
Implicit Types (v : @json Num) (f : @file Num) (r : reply).

Local Abbreviation clean := (send_to_gemini_for_cleaning json_loads).
Local Abbreviation scrape_and_save :=
  (scrape_and_save_stocks num_truth json_loads).

(** The text picked out of a stripped reply [pre[mid]post] whose first
    ["["] and last ["]"] are the ones shown. *)
Lemma json_array_text_brackets text pre mid post :
  PyText.str_strip text = pre +:+ "[" +:+ mid +:+ "]" +:+ post →
  occurs "[" pre = false → occurs "]" post = false →
  json_array_text text = Some ("[" +:+ mid +:+ "]").
Proof.
  intros Hstrip Hpre Hpost. unfold json_array_text. rewrite Hstrip.
  set (whole := pre +:+ "[" +:+ mid +:+ "]" +:+ post).
  assert (PyText.find "[" whole = Z.of_nat (String.length pre)) as ->.
  { subst whole. change (pre +:+ "[" +:+ mid +:+ "]" +:+ post)
      with (pre +:+ String "[" (mid +:+ "]" +:+ post)).
    by apply TextFacts.find_first. }
  assert (PyText.rfind "]" whole
          = Z.of_nat (String.length pre + String.length ("[" +:+ mid)))
    as ->.
  { subst whole.
    replace (pre +:+ "[" +:+ mid +:+ "]" +:+ post)
      with ((pre +:+ "[" +:+ mid) +:+ String "]" post).
    - rewrite TextFacts.rfind_last by done.
      by rewrite TextFacts.length_append.
    - by rewrite TextFacts.append_assoc. }
  assert (∀ n : nat, (Z.of_nat n =? -1) = false) as Hnat
    by (intros; apply Z.eqb_neq; lia).
  rewrite !Hnat. simpl orb. cbv iota. f_equal.
  replace (Z.of_nat (String.length pre + String.length ("[" +:+ mid)) + 1)
    with (Z.of_nat (String.length pre +
                    String.length ("[" +:+ mid +:+ "]"))).
  - subst whole.
    replace (pre +:+ "[" +:+ mid +:+ "]" +:+ post)
      with (pre +:+ ("[" +:+ mid +:+ "]") +:+ post).
    + apply TextFacts.slice_middle.
    + by rewrite <- (TextFacts.append_assoc mid "]" post).
  - rewrite !TextFacts.length_append. simpl. lia.
Qed.

(** The text picked out of a reply is empty or begins with ["["]. *)
Lemma json_array_text_shape text s :
  json_array_text text = Some s →
  s = EmptyString ∨ ∃ rest, s = String "[" rest.
Proof.
  unfold json_array_text. cbv zeta.
  destruct (Z.eqb_spec (PyText.find "[" (PyText.str_strip text)) (-1))
    as [|Hfound]; [done|].
  destruct (Z.eqb_spec (PyText.rfind "]" (PyText.str_strip text)) (-1));
    [done|].
  simpl. intros [= <-]. by apply TextFacts.slice_from_find.
Qed.

Lemma str_strip_empty : PyText.str_strip EmptyString = EmptyString.
Proof. done. Qed.

(** X19. The reply of the model may wrap the array in other text. For
    scraped rows that are not empty and a reply whose stripped text is
    [pre[mid]post], with no ["["] in [pre] and no ["]"] in [post],
    [send_to_gemini_for_cleaning] returns what [json.loads] makes of
    ["[mid]"] alone, and the empty list when that is not JSON. *)
Theorem reply_array_extracted {A} (data : list A) text pre mid post :
  data ≠ [] →
  PyText.str_strip text = pre +:+ "[" +:+ mid +:+ "]" +:+ post →
  occurs "[" pre = false → occurs "]" post = false →
  clean data (Reply_text text)
  = default (JArr []) (json_loads ("[" +:+ mid +:+ "]")).
Proof.
  intros Hdata Hstrip Hpre Hpost. unfold send_to_gemini_for_cleaning.
  destruct data as [|x data]; [done|]. simpl is_empty. cbv iota.
  rewrite bool_decide_eq_false_2.
  - rewrite (json_array_text_brackets _ _ _ _ Hstrip Hpre Hpost).
    by destruct (json_loads _).
  - intros ->. rewrite str_strip_empty in Hstrip. by destruct pre.
Qed.

(** X20. A reply without an array gives the empty list. When the text of
    the reply has no ["["] or has no ["]"], [send_to_gemini_for_cleaning]
    returns [[]] and [json.loads] is not reached, whatever it would
    answer. *)
Theorem reply_without_array {A} (data : list A) text :
  occurs "[" text = false ∨ occurs "]" text = false →
  clean data (Reply_text text) = JArr []
  ∧ json_array_text text = None.
Proof.
  intros Hno.
  assert (json_array_text text = None) as Hnone.
  { unfold json_array_text. destruct Hno as [Hno|Hno].
    - by rewrite TextFacts.find_absent by by apply TextFacts.occurs_str_strip.
    - rewrite (TextFacts.rfind_absent "]")
        by by apply TextFacts.occurs_str_strip.
      by rewrite orb_true_r. }
  split; [|done]. unfold send_to_gemini_for_cleaning. rewrite Hnone.
  destruct (is_empty data); [done|]. by destruct (bool_decide _).
Qed.

(** X21. Brackets in the wrong order are not checked. When the last ["]"]
    of the stripped reply comes before its first ["["], the slice handed
    to [json.loads] is the empty string; as that is not JSON, the result is
    the empty list. *)
Theorem reply_brackets_inverted {A} (data : list A) text a b c :
  json_loads EmptyString = None →
  PyText.str_strip text = a +:+ "]" +:+ b +:+ "[" +:+ c →
  occurs "[" a = false → occurs "[" b = false →
  occurs "]" b = false → occurs "]" c = false →
  json_array_text text = Some EmptyString
  ∧ clean data (Reply_text text) = JArr [].
Proof.
  intros Hloads Hstrip Ha Hb Hb' Hc.
  assert (json_array_text text = Some EmptyString) as Hsome.
  { unfold json_array_text. rewrite Hstrip.
    set (whole := a +:+ "]" +:+ b +:+ "[" +:+ c).
    assert (PyText.find "[" whole
            = Z.of_nat (String.length (a +:+ "]" +:+ b))) as ->.
    { subst whole.
      replace (a +:+ "]" +:+ b +:+ "[" +:+ c)
        with ((a +:+ "]" +:+ b) +:+ String "[" c).
      - apply TextFacts.find_first.
        rewrite TextFacts.occurs_append, Ha.
        change (occurs "[" ("]" +:+ b)) with (occurs "[" b).
        by rewrite Hb.
      - rewrite TextFacts.append_assoc.
        by rewrite <- (TextFacts.append_assoc "]" b _). }
    assert (PyText.rfind "]" whole = Z.of_nat (String.length a)) as ->.
    { subst whole.
      change (a +:+ "]" +:+ b +:+ "[" +:+ c)
        with (a +:+ String "]" (b +:+ "[" +:+ c)).
      apply TextFacts.rfind_last.
      rewrite TextFacts.occurs_append, Hb'.
      change (occurs "]" ("[" +:+ c)) with (occurs "]" c). by rewrite Hc. }
    assert (∀ n : nat, (Z.of_nat n =? -1) = false) as Hnat
      by (intros; apply Z.eqb_neq; lia).
    rewrite !Hnat. simpl orb. cbv iota. f_equal.
    clear Hnat. apply TextFacts.slice_empty.
    - apply Nat2Z.is_nonneg.
    - pose proof (Nat2Z.is_nonneg (String.length a)). lia.
    - rewrite !TextFacts.length_append. simpl String.length. lia. }
  split; [done|]. unfold send_to_gemini_for_cleaning. rewrite Hsome, Hloads.
  destruct (is_empty data); [done|]. by destruct (bool_decide _).
Qed.

Section Parser.

(** What the program can rely on of [json.loads]: the empty string is not
    JSON, and a text that begins with ["["] parses to a list or not at
    all. *)
Hypothesis json_loads_empty : json_loads EmptyString = None.
Hypothesis json_loads_array :
  ∀ rest v, json_loads (String "[" rest) = Some v → ∃ items, v = JArr items.

(** X22. The cleaned data is always a list. As [json.loads] refuses the
    empty string and makes a list of a text that begins with ["["], or
    refuses it, [send_to_gemini_for_cleaning] returns a list whatever the
    rows and the reply: the text it parses is empty or begins with ["["],
    and every failure gives [[]]. *)
Theorem cleaned_data_is_list {A} (data : list A) r :
  ∃ items, clean data r = JArr items.
Proof.
  unfold send_to_gemini_for_cleaning.
  destruct (is_empty data); [by eexists|].
  destruct r as [|text]; [by eexists|].
  destruct (bool_decide _); [by eexists|].
  destruct (json_array_text text) as [s|] eqn:Htext; [|by eexists].
  destruct (json_loads s) as [v|] eqn:Hv; [|by eexists].
  destruct (json_array_text_shape _ _ Htext) as [->|[rest ->]].
  - congruence.
  - by apply json_loads_array in Hv.
Qed.

(** X23. What the scraper saves, both readers read back. Whatever
    [scrape_and_save_stocks] finds on disk, when its write succeeds the
    catalog file afterwards is the file before, or holds an object whose
    ["stocks"] is the cleaned list, which is not empty; in that case
    [get_current_stock_prices] of wen.py and [load_stocks_data] of app.py
    both give that list, without an error. *)
Theorem saved_catalog_read_back {A} (raw : list A) r timestamp f :
  let f' := (scrape_and_save raw r timestamp Write_ok f).2 in
  f' = f
  ∨ ∃ items,
      items ≠ []
      ∧ clean raw r = JArr items
      ∧ f' = Json_file (JObj [("stocks", JArr items);
                              ("timestamp", JStr timestamp)])
      ∧ get_current_stock_prices f' = inl (JArr items)
      ∧ load_stocks_data f' = (JArr items, None).
Proof.
  unfold scrape_and_save_stocks. destruct (is_empty raw); [by left|].
  destruct (cleaned_data_is_list raw r) as [items Hitems]. rewrite Hitems.
  destruct items as [|x items]; [by left|]. right.
  exists (x :: items). by split_and!.
Qed.

End Parser.

(** X24. The two readers of the catalog file compared. Where
    [get_current_stock_prices] of wen.py returns a value, [load_stocks_data]
    of app.py assigns the same value, except for an object without the key
    ["stocks"]: wen.py takes the object itself, app.py the empty list. And
    wen.py raises its [AttributeError] exactly on a file holding JSON that
    is not an object, of which app.py accepts the arrays. *)
Theorem readers_compared f :
  match get_current_stock_prices f with
  | inl v =>
      (load_stocks_data f).1 = v
      ∨ ∃ fields, f = Json_file (JObj fields)
                  ∧ dict_get "stocks" fields = None
                  ∧ v = JObj fields
                  ∧ load_stocks_data f = (JArr [], None)
  | inr e =>
      e = AttributeError
      ∧ ∃ v, f = Json_file v ∧ (∀ fields, v ≠ JObj fields)
             ∧ ∀ items, v = JArr items →
                        load_stocks_data f = (JArr items, None)
  end.
Proof.
  destruct f as [| | |v]; simpl; try by left.
  destruct v as [| | | | |fields]; simpl;
    try (split; [done|]; eexists; split_and!; [done|done|]; by intros ? [=]).
  - split; [done|]. eexists. split_and!; [done|done|]. by intros ? [= ->].
  - destruct (dict_get "stocks" fields) as [stocks|] eqn:Hget; simpl.
    + left. by destruct (len stocks).
    + right. by exists fields.
Qed.

End CatalogFile.


(** ** The properties on the data of the examples *)

(** The session of the specification's end-to-end property: subscribe,
    select Safaricom, list the subscriptions, remove the first. *)
Example end_to_end_session :
  let w0 := Demo.world [] Demo.catalog2 in
  let res1 := Demo.ussd Demo.phone "1" w0 in
  let res2 := Demo.ussd Demo.phone "1*1" res1.2 in
  let res3 := Demo.ussd Demo.phone "3*1" res2.2 in
  let res4 := Demo.ussd Demo.phone "3*1*1" res3.2 in
  subscribers res1.2 = [Demo.row [] 0 0]
  ∧ res2 = (Return ("CON Successfully subscribed to Safaricom." +:+ nl +:+
                    offer_another),
            Demo.world [Demo.row ["Safaricom"] 0 0] Demo.catalog2)
  ∧ res3.1 = Return ("CON Your current subscriptions:" +:+ nl +:+
                     "1. Safaricom" +:+ nl +:+ "--- Add/Remove ---" +:+ nl +:+
                     remove_prompt)
  ∧ res4 = (Return ("CON Removed Safaricom from your subscriptions." +:+
                    nl +:+ my_subscriptions_options),
            Demo.world [Demo.row [] 0 0] Demo.catalog2).
Proof. repeat split; vm_compute; reflexivity. Qed.

(** [int] on a few literals: signs, white space, underscores, and what it
    refuses. *)
Example int_literals :
  int 4300 " +1_0 " = Some 10 ∧ int 4300 "-5" = Some (-5)
  ∧ int 4300 "007" = Some 7 ∧ int 4300 "" = None ∧ int 4300 "1__0" = None
  ∧ int 4300 "+ 1" = None ∧ int 4300 "_1" = None ∧ int 4300 "1 2" = None
  ∧ int 4300 "add" = None.
Proof. repeat split; reflexivity. Qed.

(** A market-open message: case-insensitive lookup and a name that the
    catalog lacks. *)
Example market_open_message :
  send_market_notification Demo.format_cents Open "2026-01-05"
    {| last_open := None; last_close := None |}
    [Demo.row ["kcb"; "Unga"] 1 0;
     {| phone_number := "254711111111"; subscribed_stocks := ["KCB"];
        market_open_notify := 0; market_close_notify := 1 |}]
    Demo.catalog2
  = ([(Demo.phone,
       "Market Open Update:" +:+ nl +:+ "kcb: Ksh 40.00" +:+ nl +:+
       "Unga: Price N/A")],
     {| last_open := Some "2026-01-05"; last_close := None |}).
Proof. vm_compute; reflexivity. Qed.

(** C2. The handler raises to its caller. Nothing validates the entries
    that the scraper writes, and no request is wrapped in a handler of
    exceptions: where the catalog holds an entry whose price is [null],
    path "2*2" raises the [TypeError] of the format [.2f]; where the entry
    has no key ["price"], it raises a [KeyError]; where an entry has no key
    ["name"], the stock menu itself raises the [KeyError], under path "2",
    under path "1*5" with its invalid entry, and under path "1" after the
    record of the new subscriber has been written. The claim asks for a
    response in each case. (An entry whose price is a string gets the
    response for an entry that is not a number: the [ValueError] of the
    format is caught by the handler of [int].) *)
Theorem ussd_callback_raises :
  let subscriber := Demo.row [] 0 0 in
  DemoRaw.ussd Demo.phone "2*2" (DemoRaw.world [] DemoRaw.null_price)
    = (Raise TypeError, DemoRaw.world [] DemoRaw.null_price)
  ∧ DemoRaw.ussd Demo.phone "2*2" (DemoRaw.world [] DemoRaw.no_price)
    = (Raise KeyError, DemoRaw.world [] DemoRaw.no_price)
  ∧ DemoRaw.ussd Demo.phone "2" (DemoRaw.world [] DemoRaw.no_name)
    = (Raise KeyError, DemoRaw.world [] DemoRaw.no_name)
  ∧ DemoRaw.ussd Demo.phone "1*5"
      (DemoRaw.world [subscriber] DemoRaw.no_name)
    = (Raise KeyError, DemoRaw.world [subscriber] DemoRaw.no_name)
  ∧ DemoRaw.ussd Demo.phone "1" (DemoRaw.world [] DemoRaw.no_name)
    = (Raise KeyError, DemoRaw.world [subscriber] DemoRaw.no_name)
  ∧ DemoRaw.ussd Demo.phone "2*1" (DemoRaw.world [] DemoRaw.null_price)
    = (Return ("END Safaricom: Ksh 15.50" +:+ nl +:+ "Data in real-time."),
       DemoRaw.world [] DemoRaw.null_price)
  ∧ DemoRaw.ussd Demo.phone "2*1" (DemoRaw.world [] DemoRaw.text_price)
    = (Return ("CON Invalid input. Please enter a number." +:+ nl +:+
               "Available Stocks:" +:+ nl +:+ "1. Safaricom" +:+ nl +:+
               "Enter stock number to select." +:+ nl +:+
               "0. Back to Main Menu"),
       DemoRaw.world [] DemoRaw.text_price).
Proof. repeat split; vm_compute; reflexivity. Qed.


(** C1. With a catalog of twelve stocks the menu lists the first ten, yet
    the entries 11 and 12 are accepted: "1*11", "1*12" and "3*1*add*12"
    subscribe to the eleventh and twelfth stock and "2*11" shows the
    eleventh, where the claim asks for the invalid-selection response and
    an unchanged store. *)
Theorem selection_beyond_the_menu :
  let w := Demo.world [Demo.row [] 0 0] Demo.catalog12 in
  shown_menu w =
    "Available Stocks:" +:+ nl +:+
    "1. Safaricom" +:+ nl +:+ "2. KCB" +:+ nl +:+ "3. Equity" +:+ nl +:+
    "4. EABL" +:+ nl +:+ "5. Absa" +:+ nl +:+ "6. Co-op" +:+ nl +:+
    "7. BAT" +:+ nl +:+ "8. NCBA" +:+ nl +:+ "9. Stanbic" +:+ nl +:+
    "10. Bamburi" +:+ nl +:+
    "Enter stock number to select." +:+ nl +:+ "0. Back to Main Menu"
  ∧ Demo.ussd Demo.phone "1*11" w =
      (Return ("CON Successfully subscribed to KenGen." +:+ nl +:+
               offer_another),
       Demo.world [Demo.row ["KenGen"] 0 0] Demo.catalog12)
  ∧ Demo.ussd Demo.phone "1*12" w =
      (Return ("CON Successfully subscribed to Kenya Re." +:+ nl +:+
               offer_another),
       Demo.world [Demo.row ["Kenya Re"] 0 0] Demo.catalog12)
  ∧ Demo.ussd Demo.phone "3*1*add*12" w =
      (Return ("CON Successfully subscribed to Kenya Re." +:+ nl +:+
               offer_another),
       Demo.world [Demo.row ["Kenya Re"] 0 0] Demo.catalog12)
  ∧ Demo.ussd Demo.phone "2*11" w =
      (Return ("END KenGen: Ksh 3.10" +:+ nl +:+ "Data in real-time."), w)
  ∧ Demo.ussd Demo.phone "1*13" w =
      (Return ("CON Invalid stock number. Please try again." +:+ nl +:+
               shown_menu w), w).
Proof. repeat split; vm_compute; reflexivity. Qed.



Lemma subscription_list_unique_witness :
  let sub := Demo.row [] 0 0 in
  let w := Demo.world [sub] Demo.catalog2 in
  let res1 := Demo.ussd Demo.phone "1*1" w in
  let res2 := Demo.ussd Demo.phone "3*1*add*1" res1.2 in
  (isdigit "1" = true ∧ int 4300 "1" = Some 1 ∧ 1 ≤ 1
   ∧ CURRENT_STOCKS_DATA w !! Z.to_nat (1 - 1)
     = Some (Demo.stock "Safaricom" 1550)
   ∧ fetchone Demo.phone (subscribers w) = Some sub
   ∧ NoDup (subscribed_stocks sub))
  ∧ res2 = (Return ("CON You are already subscribed to Safaricom." +:+
                    nl +:+ offer_another), res1.2)
  ∧ ∃ sub', fetchone Demo.phone (subscribers res2.2) = Some sub'
            ∧ occurrences "Safaricom" (subscribed_stocks sub') = 1%nat.
Proof.
  intros sub w res1 res2.
  assert (NoDup (subscribed_stocks sub)) as Hnodup by constructor.
  split.
  { split_and!; [reflexivity|reflexivity|lia|reflexivity|reflexivity|
                 exact Hnodup]. }
  apply (proj2 (proj2 (subscription_list_unique Demo.format_cents 4300
                         Demo.phone w)
                  "1" 1 (Demo.stock "Safaricom" 1550) sub
                  eq_refl eq_refl (Z.le_refl 1) eq_refl eq_refl) Hnodup).
Defined.

Lemma subscribe_twice_witness :
  let w := Demo.world [] Demo.catalog2 in
  primary_key (subscribers w)
  ∧ records_of Demo.phone
      (subscribers
         (Demo.ussd Demo.phone "1" (Demo.ussd Demo.phone "1" w).2).2)
    = 1%nat.
Proof.
  intros w.
  assert (primary_key (subscribers w)) as Hpk by constructor.
  split; [exact Hpk|].
  apply (proj2 (proj2 (proj2 (subscribe_twice Demo.format_cents 4300
                                Demo.phone w))) Hpk).
Defined.

Lemma remove_out_of_range_witness :
  let sub := Demo.row ["Safaricom"; "KCB"] 0 0 in
  let w := Demo.world [sub] Demo.catalog2 in
  fetchone Demo.phone (subscribers w) = Some sub
  ∧ int 4300 "5" = Some 5
  ∧ (5 < 1 ∨ Z.of_nat (length (subscribed_stocks sub)) < 5)
  ∧ "5" ≠ "0"
  ∧ Demo.ussd Demo.phone "3*1*5" w =
    (Return ("CON Invalid stock number to remove. Please try again." +:+
             nl +:+ "Your current subscriptions:" +:+ nl +:+
             "1. Safaricom" +:+ nl +:+ "2. KCB" +:+ nl +:+ remove_prompt),
     w).
Proof.
  intros sub w.
  assert (5 < 1 ∨ Z.of_nat (length (subscribed_stocks sub)) < 5) as Hk
    by (right; simpl; lia).
  split_and!; [reflexivity|reflexivity|exact Hk|discriminate|].
  apply (remove_out_of_range Demo.format_cents 4300 Demo.phone w sub "5" 5);
    [reflexivity|reflexivity|exact Hk|discriminate].
Defined.

(** C7, the claim as stated fails: for a phone number without a record and
    a digit string outside the catalog, path "3*1*add*9" gets the terminal
    subscriber-not-found response and path "1*9" the stock menu under an
    error line. *)
Lemma add_same_as_select_counterexample :
  let w := Demo.world [] Demo.catalog2 in
  isdigit "9" = true
  ∧ Demo.ussd Demo.phone "3*1*add*9" w = (Return subscriber_not_found, w)
  ∧ Demo.ussd Demo.phone "1*9" w =
    (Return ("CON Invalid stock number. Please try again." +:+ nl +:+
             shown_menu w), w)
  ∧ Demo.ussd Demo.phone "3*1*add*9" w ≠ Demo.ussd Demo.phone "1*9" w.
Proof.
  split_and!; [reflexivity|vm_compute; reflexivity|vm_compute; reflexivity|].
  intros Heq. vm_compute in Heq. discriminate Heq.
Qed.

Lemma add_same_as_select_witness :
  let w := Demo.world [Demo.row ["KCB"] 0 0] Demo.catalog2 in
  isdigit "1" = true
  ∧ Demo.ussd Demo.phone "3*1*add*1" w = Demo.ussd Demo.phone "1*1" w.
Proof.
  intros w. split; [reflexivity|].
  apply (add_same_as_select Demo.format_cents 4300 Demo.phone "1" w).
  reflexivity.
Defined.

Lemma toggle_open_twice_witness :
  let sub := Demo.row ["KCB"] 0 1 in
  let w := Demo.world [sub] Demo.catalog2 in
  fetchone Demo.phone (subscribers w) = Some sub
  ∧ (market_open_notify sub = 0 ∨ market_open_notify sub = 1)
  ∧ market_open_notify <$>
      fetchone Demo.phone
        (subscribers
           (Demo.ussd Demo.phone "3*2*1"
              (Demo.ussd Demo.phone "3*2*1" w).2).2)
    = Some 0.
Proof.
  intros sub w.
  split_and!; [reflexivity|left; reflexivity|].
  apply (proj1 (proj2 (toggle_open_twice Demo.format_cents 4300 Demo.phone
                         w sub eq_refl (or_introl eq_refl)))).
Defined.

Lemma market_notification_witness :
  let st := {| last_open := None; last_close := None |} in
  let subs := [Demo.row ["kcb"; "Unga"] 1 0;
               {| phone_number := "254711111111";
                  subscribed_stocks := ["KCB"];
                  market_open_notify := 0; market_close_notify := 1 |}] in
  let d := stock_dict Demo.catalog2 in
  (last_sent Open st ≠ Some "2026-01-05"
   ∧ Demo.catalog2 ≠ []
   ∧ isascii "kcb" = true ∧ isascii "Unga" = true
   ∧ Forall (λ e, isascii (name e) = true) Demo.catalog2
   ∧ last (filter (λ e, same_ignoring_case (name e) "kcb" = true)
             Demo.catalog2) = Some (Demo.stock "KCB" 4000)
   ∧ (∀ e, e ∈ Demo.catalog2 → same_ignoring_case (name e) "Unga" = false))
  ∧ (send_market_notification Demo.format_cents Open "2026-01-05" st subs
       Demo.catalog2).1
    = [(Demo.phone,
        notification_message Demo.format_cents Open d ["kcb"; "Unga"])]
  ∧ stock_line Demo.format_cents d "kcb"
    = "kcb" +:+ ": Ksh " +:+ Demo.format_cents 4000
  ∧ stock_line Demo.format_cents d "Unga" = "Unga: Price N/A".
Proof.
  intros st subs d.
  assert (last_sent Open st ≠ Some "2026-01-05") as Hnot by discriminate.
  assert (Demo.catalog2 ≠ []) as Hstocks by discriminate.
  assert (Forall (λ e, isascii (name e) = true) Demo.catalog2) as Hnames
    by (repeat constructor).
  assert (∀ e, e ∈ Demo.catalog2 → same_ignoring_case (name e) "Unga" = false)
    as Habs.
  { intros e He. unfold Demo.catalog2 in He.
    repeat (apply elem_of_cons in He as [->|He]; [reflexivity|]).
    by apply elem_of_nil in He. }
  split.
  { split_and!; [exact Hnot|exact Hstocks|reflexivity|reflexivity|
                 exact Hnames|reflexivity|exact Habs]. }
  split_and!.
  - apply (proj1 (proj2 (market_notification Demo.format_cents Open
                           "2026-01-05" st subs Demo.catalog2))
             Hnot Hstocks).
  - apply (proj2 (proj2 (proj2 (proj2
             (market_notification Demo.format_cents Open "2026-01-05" st
                subs Demo.catalog2)))) "kcb" (Demo.stock "KCB" 4000)
             eq_refl Hnames eq_refl).
  - apply (proj1 (proj2 (proj2 (proj2
             (market_notification Demo.format_cents Open "2026-01-05" st
                subs Demo.catalog2)))) "Unga" eq_refl Hnames Habs).
Defined.

Lemma unsubscribe_idempotent_witness :
  let w := Demo.world [] Demo.catalog2 in
  fetchone Demo.phone (subscribers w) = None
  ∧ set_subscribers (delete_where Demo.phone (subscribers w)) w = w.
Proof.
  intros w. split; [reflexivity|].
  apply (proj2 (proj2 (proj2 (proj2
           (unsubscribe_idempotent Demo.format_cents 4300 Demo.phone w))))).
  reflexivity.
Defined.

(** *** Further properties of the request handler *)


Lemma view_unvalidated_entry_witness :
  let rw := DemoRaw.world [] DemoRaw.null_price in
  int 4300 (last_segment ("2*" +:+ "2")) = Some 2
  ∧ 1 ≤ 2
  ∧ Raw.CURRENT_STOCKS_DATA rw !! Z.to_nat (2 - 1)
    = Some (DemoRaw.entry (Some "KCB") (Some Json.JNull))
  ∧ DemoRaw.ussd Demo.phone "2*2" rw = (Raise TypeError, rw).
Proof.
  intros rw. split_and!; [reflexivity|lia|reflexivity|].
  apply (view_unvalidated_entry Demo.format_cents 4300 Demo.phone "2" rw 2
           (DemoRaw.entry (Some "KCB") (Some Json.JNull))
           eq_refl ltac:(lia) eq_refl).
Defined.

Lemma other_subscribers_untouched_witness :
  let other := {| phone_number := "254711111111";
                  subscribed_stocks := ["KCB"];
                  market_open_notify := 0; market_close_notify := 1 |} in
  let w := Demo.world [Demo.row ["KCB"] 1 0; other] Demo.catalog2 in
  "254711111111" ≠ Demo.phone
  ∧ (get_subscriber "254711111111" (Demo.ussd Demo.phone "4" w).2).1
    = (get_subscriber "254711111111" w).1.
Proof.
  intros other w.
  assert ("254711111111" ≠ Demo.phone) as Hother by discriminate.
  split; [exact Hother|].
  apply (proj2 (other_subscribers_untouched Demo.format_cents 4300
                  Demo.phone "254711111111" "4" w Hother)).
Defined.

Lemma catalog_loaded_once_witness :
  let w := Demo.world [] Demo.catalog2 in
  CURRENT_STOCKS_DATA w ≠ []
  ∧ CURRENT_STOCKS_DATA (Demo.ussd Demo.phone "2" w).2
    = CURRENT_STOCKS_DATA w.
Proof.
  intros w.
  assert (CURRENT_STOCKS_DATA w ≠ []) as Hloaded by discriminate.
  split; [exact Hloaded|].
  apply (proj1 (proj2 (catalog_loaded_once Demo.format_cents 4300
                         Demo.phone "2" w)) Hloaded).
Defined.

Lemma record_created_only_by_subscribe_witness :
  let w := Demo.world [] Demo.catalog2 in
  fetchone Demo.phone (subscribers w) = None
  ∧ "3*2*1" ≠ "1"
  ∧ subscribers (Demo.ussd Demo.phone "3*2*1" w).2 = subscribers w.
Proof.
  intros w.
  assert ("3*2*1" ≠ "1") as Hpath by discriminate.
  split_and!; [reflexivity|exact Hpath|].
  apply (record_created_only_by_subscribe Demo.format_cents 4300 Demo.phone
           "3*2*1" w eq_refl Hpath).
Defined.

Lemma browsing_reads_only_witness :
  let w := Demo.world [Demo.row ["KCB"] 0 0] Demo.catalog2 in
  startswith "2*1" "2*" = true
  ∧ subscribers (Demo.ussd Demo.phone "2*1" w).2 = subscribers w.
Proof.
  intros w. split; [reflexivity|].
  apply (browsing_reads_only Demo.format_cents 4300 Demo.phone "2*1" w).
  right. right. left. reflexivity.
Defined.

Lemma view_stock_details_witness :
  let w := Demo.world [] Demo.catalog2 in
  int 4300 (last_segment "2*2") = Some 2
  ∧ 1 ≤ 2
  ∧ CURRENT_STOCKS_DATA w !! Z.to_nat (2 - 1) = Some (Demo.stock "KCB" 4000)
  ∧ Demo.ussd Demo.phone "2*2" w =
    (Return ("END KCB: Ksh 40.00" +:+ nl +:+ "Data in real-time."), w).
Proof.
  intros w. split_and!; [reflexivity|lia|reflexivity|].
  apply (view_stock_details Demo.format_cents 4300 Demo.phone "2" w 2
           (Demo.stock "KCB" 4000)); [reflexivity|lia|reflexivity].
Defined.

Lemma remove_subscription_witness :
  let sub := Demo.row ["Safaricom"; "KCB"] 1 0 in
  let w := Demo.world [sub] Demo.catalog2 in
  fetchone Demo.phone (subscribers w) = Some sub
  ∧ int 4300 "2" = Some 2
  ∧ 1 ≤ 2
  ∧ subscribed_stocks sub !! Z.to_nat (2 - 1) = Some "KCB"
  ∧ fetchone Demo.phone (subscribers (Demo.ussd Demo.phone "3*1*2" w).2)
    = Some (Demo.row ["Safaricom"] 1 0).
Proof.
  intros sub w. split_and!; [reflexivity|reflexivity|lia|reflexivity|].
  apply (proj1 (proj2 (remove_subscription Demo.format_cents 4300 Demo.phone
                         w sub "2" 2 "KCB" eq_refl eq_refl
                         ltac:(lia) eq_refl))).
Defined.

Lemma subscribe_appends_witness :
  let sub := Demo.row ["Safaricom"] 0 1 in
  let w := Demo.world [sub] Demo.catalog2 in
  int 4300 (last_segment "1*2") = Some 2
  ∧ 1 ≤ 2
  ∧ CURRENT_STOCKS_DATA w !! Z.to_nat (2 - 1) = Some (Demo.stock "KCB" 4000)
  ∧ fetchone Demo.phone (subscribers w) = Some sub
  ∧ ("KCB" ∉ subscribed_stocks sub)
  ∧ fetchone Demo.phone (subscribers (Demo.ussd Demo.phone "1*2" w).2)
    = Some (Demo.row ["Safaricom"; "KCB"] 0 1).
Proof.
  intros sub w.
  assert ("KCB" ∉ subscribed_stocks sub) as Hnew.
  { intros Hin. apply elem_of_cons in Hin as [Heq|Hin]; [discriminate Heq|].
    by apply elem_of_nil in Hin. }
  split_and!; [reflexivity|lia|reflexivity|reflexivity|exact Hnew|].
  apply (proj1 (proj2 (subscribe_appends Demo.format_cents 4300 Demo.phone
                         "2" w 2 (Demo.stock "KCB" 4000) sub eq_refl
                         ltac:(lia) eq_refl eq_refl Hnew))).
Defined.

Lemma toggles_commute_witness :
  let sub := Demo.row ["KCB"] 0 1 in
  let w := Demo.world [sub] Demo.catalog2 in
  fetchone Demo.phone (subscribers w) = Some sub
  ∧ (Demo.ussd Demo.phone "3*2*2" (Demo.ussd Demo.phone "3*2*1" w).2).2
    = (Demo.ussd Demo.phone "3*2*1" (Demo.ussd Demo.phone "3*2*2" w).2).2.
Proof.
  intros sub w. split; [reflexivity|].
  apply (proj2 (toggles_commute Demo.format_cents 4300 Demo.phone w sub
                  eq_refl)).
Defined.

Lemma selection_before_load_witness :
  let sub := Demo.row [] 0 0 in
  let w := set_CURRENT_STOCKS_DATA [] (Demo.world [sub] Demo.catalog2) in
  CURRENT_STOCKS_DATA w = []
  ∧ STOCKS_JSON_FILE w !! Z.to_nat (2 - 1) = Some (Demo.stock "KCB" 4000)
  ∧ int 4300 (last_segment "1*2") = Some 2
  ∧ 1 ≤ 2
  ∧ fetchone Demo.phone (subscribers w) = Some sub
  ∧ ("KCB" ∉ subscribed_stocks sub)
  ∧ Demo.ussd Demo.phone "1*2" w =
    (Return ("CON Invalid stock number. Please try again." +:+ nl +:+
             stocks_menu (STOCKS_JSON_FILE w)),
     set_CURRENT_STOCKS_DATA (STOCKS_JSON_FILE w) w).
Proof.
  intros sub w.
  assert ("KCB" ∉ subscribed_stocks sub) as Hnew by apply not_elem_of_nil.
  split_and!;
    [reflexivity|reflexivity|reflexivity|lia|reflexivity|exact Hnew|].
  apply (proj1 (selection_before_load Demo.format_cents 4300 Demo.phone
                  "2" w 2 (Demo.stock "KCB" 4000) sub eq_refl eq_refl
                  eq_refl ltac:(lia) eq_refl Hnew)).
Defined.

Lemma add_subscriber_once_witness :
  let w := Demo.world [Demo.row ["KCB"] 1 1] Demo.catalog2 in
  primary_key (subscribers w)
  ∧ add_subscriber Demo.phone w = (Return false, w)
  ∧ primary_key (subscribers (add_subscriber Demo.phone w).2).
Proof.
  intros w.
  assert (primary_key (subscribers w)) as Hpk.
  { unfold primary_key. simpl. apply NoDup_singleton. }
  split_and!; [exact Hpk| |].
  - apply (proj1 (add_subscriber_once Demo.phone w)).
  - apply (proj2 (add_subscriber_once Demo.phone w) Hpk).
Defined.

Lemma update_subscribed_stocks_no_upsert_witness :
  let w := Demo.world [Demo.row ["KCB"] 1 1] Demo.catalog2 in
  fetchone "254711111111" (subscribers w) = None
  ∧ (update_subscribed_stocks "254711111111" ["Safaricom"] w).2 = w.
Proof.
  intros w. split; [reflexivity|].
  apply (proj1 (proj2 (update_subscribed_stocks_no_upsert "254711111111"
                         ["Safaricom"] w)) eq_refl).
Defined.

Lemma table_invariants_kept_witness :
  let w := Demo.world [Demo.row ["KCB"] 0 1] Demo.catalog2 in
  flags_boolean (subscribers w)
  ∧ flags_boolean (subscribers (Demo.ussd Demo.phone "3*2*1" w).2).
Proof.
  intros w.
  assert (flags_boolean (subscribers w)) as Hflags.
  { constructor; [|constructor]. split; [left|right]; reflexivity. }
  split; [exact Hflags|].
  apply (proj2 (table_invariants_kept Demo.format_cents 4300 Demo.phone
                  "3*2*1" w) Hflags).
Defined.

(** *** The scheduler *)

Lemma batch_once_a_day_witness :
  let s := Scheduler.scrape DemoClock.monday_0800 DemoClock.started in
  Demo.catalog2 ≠ []
  ∧ last_sent Open (Scheduler.last_notification_sent s)
    ≠ Some "2026-01-05"
  ∧ length (Scheduler.sms_sent DemoClock.after_0800) = 1%nat
  ∧ DemoClock.send Open "2026-01-05" DemoClock.subs Demo.catalog2
      DemoClock.after_0800
    = DemoClock.after_0800.
Proof.
  intros s.
  assert (Demo.catalog2 ≠ []) as Hstocks by discriminate.
  assert (last_sent Open (Scheduler.last_notification_sent s)
          ≠ Some "2026-01-05") as Hnot by discriminate.
  split_and!; [exact Hstocks|exact Hnot| |].
  - apply (proj1 (batch_once_a_day Demo.format_cents Open "2026-01-05"
                    DemoClock.subs Demo.catalog2 s Hstocks Hnot)).
  - apply (proj1 (proj2 (proj2 (proj2
             (batch_once_a_day Demo.format_cents Open "2026-01-05"
                DemoClock.subs Demo.catalog2 s Hstocks Hnot))))).
Defined.

Lemma reset_then_crash_witness :
  let now := DemoClock.tuesday_0005 in
  let s := DemoClock.after_0800 in
  Scheduler.hour now = 0
  ∧ Scheduler.minute now = 5
  ∧ last_open (Scheduler.last_notification_sent s)
    ≠ Some (Scheduler.date now)
  ∧ DemoClock.turn now "2026-01-06" DemoClock.subs Demo.catalog2 s
    = inl (Scheduler.reset s)
  ∧ DemoClock.turn DemoClock.tuesday_0800 "2026-01-06" DemoClock.subs
      Demo.catalog2 (Scheduler.reset s)
    = inr Scheduler.TypeError.
Proof.
  intros now s.
  assert (last_open (Scheduler.last_notification_sent s)
          ≠ Some (Scheduler.date now)) as Hdate by discriminate.
  split_and!; [reflexivity|reflexivity|exact Hdate| |].
  - apply (proj1 (reset_then_crash Demo.format_cents now "2026-01-06"
                    DemoClock.subs Demo.catalog2 s eq_refl eq_refl Hdate)).
  - apply (proj2 (proj2 (reset_then_crash Demo.format_cents now "2026-01-06"
                           DemoClock.subs Demo.catalog2 s eq_refl eq_refl
                           Hdate))).
    + vm_compute. split; discriminate.
    + right. vm_compute. split; [reflexivity|discriminate].
    + left. reflexivity.
Defined.

Lemma scheduler_windows_witness :
  let now := DemoClock.monday_0800 in
  let s := DemoClock.started in
  let s' := DemoClock.after_0800 in
  DemoClock.turn now "2026-01-05" DemoClock.subs Demo.catalog2 s = inl s'
  ∧ Scheduler.sms_sent s' ≠ Scheduler.sms_sent s
  ∧ 0 ≤ Scheduler.weekday now ≤ 4
  ∧ (Scheduler.hour now = 8 ∨ Scheduler.hour now = 15)
  ∧ 0 ≤ Scheduler.minute now < 10.
Proof.
  intros now s s'.
  assert (Scheduler.sms_sent s' ≠ Scheduler.sms_sent s) as Hsent
    by discriminate.
  split; [reflexivity|]. split; [exact Hsent|].
  apply (proj1 (scheduler_windows Demo.format_cents now "2026-01-05"
                  DemoClock.subs Demo.catalog2 s s' eq_refl) Hsent).
Defined.

Lemma open_batch_once_in_window_witness :
  let now1 := DemoClock.monday_0800 in
  let now2 := DemoClock.monday_0803 in
  let s1 := DemoClock.after_0800 in
  (0 ≤ Scheduler.weekday now1 ≤ 4 ∧ Scheduler.hour now1 = 8
   ∧ 0 ≤ Scheduler.minute now1 < 10 ∧ Demo.catalog2 ≠ []
   ∧ DemoClock.turn now1 "2026-01-05" DemoClock.subs Demo.catalog2
       DemoClock.started = inl s1
   ∧ Scheduler.hour now2 = 8
   ∧ DemoClock.turn now2 "2026-01-05" DemoClock.subs Demo.catalog2 s1
     = inl s1)
  ∧ last_open (Scheduler.last_notification_sent s1) = Some "2026-01-05"
  ∧ Scheduler.sms_sent s1 = Scheduler.sms_sent s1.
Proof.
  intros now1 now2 s1.
  assert (0 ≤ Scheduler.weekday now1 ≤ 4) as Hday
    by (vm_compute; split; discriminate).
  assert (0 ≤ Scheduler.minute now1 < 10) as Hminute
    by (vm_compute; split; [discriminate|reflexivity]).
  assert (Demo.catalog2 ≠ []) as Hstocks by discriminate.
  split.
  { exact (conj Hday (conj eq_refl (conj Hminute (conj Hstocks
             (conj eq_refl (conj eq_refl eq_refl)))))). }
  apply (open_batch_once_in_window Demo.format_cents now1 now2 "2026-01-05"
           DemoClock.subs DemoClock.subs Demo.catalog2 Demo.catalog2
           DemoClock.started s1 s1 Hday eq_refl Hminute Hstocks eq_refl
           eq_refl eq_refl).
Defined.

Lemma scrapes_five_minutes_apart_witness :
  let now1 := DemoClock.monday_0800 in
  let now2 := DemoClock.monday_0803 in
  let s := DemoClock.started in
  let s1 := DemoClock.after_0800 in
  (DemoClock.turn now1 "2026-01-05" DemoClock.subs Demo.catalog2 s = inl s1
   ∧ Scheduler.scrapes s1 ≠ Scheduler.scrapes s
   ∧ Scheduler.clock now2 - Scheduler.clock now1 < 300 * 1000000
   ∧ DemoClock.turn now2 "2026-01-05" DemoClock.subs Demo.catalog2 s1
     = inl s1)
  ∧ Scheduler.scrapes s1 = Scheduler.scrapes s ++ [now1]
  ∧ Scheduler.last_scrape_time s1 = Some now1
  ∧ Scheduler.scrapes s1 = Scheduler.scrapes s1.
Proof.
  intros now1 now2 s s1.
  assert (Scheduler.scrapes s1 ≠ Scheduler.scrapes s) as Hscraped
    by discriminate.
  assert (Scheduler.clock now2 - Scheduler.clock now1 < 300 * 1000000)
    as Hsoon by reflexivity.
  split.
  { split_and!; [reflexivity|exact Hscraped|exact Hsoon|reflexivity]. }
  apply (scrapes_five_minutes_apart Demo.format_cents now1 now2
           "2026-01-05" "2026-01-05" DemoClock.subs DemoClock.subs
           Demo.catalog2 Demo.catalog2 s s1 s1 eq_refl Hscraped Hsoon
           eq_refl).
Defined.

(** *** The catalog file and the scraper's reply *)

Lemma loads_array rest v :
  DemoCatalog.loads (String "[" rest) = Some v →
  ∃ items, v = Json.JArr items.
Proof.
  unfold DemoCatalog.loads. repeat case_decide; intros [= <-]; by eexists.
Qed.

Lemma reply_array_extracted_witness :
  let text := "Here you are: [1, 2] Anything else? " in
  [7] ≠ []
  ∧ PyText.str_strip text
    = "Here you are: " +:+ "[" +:+ "1, 2" +:+ "]" +:+ " Anything else?"
  ∧ occurs "[" "Here you are: " = false
  ∧ occurs "]" " Anything else?" = false
  ∧ DemoCatalog.clean [7] (Json.Reply_text text)
    = Json.JArr [Json.JNum 1; Json.JNum 2].
Proof.
  intros text.
  assert ([7] ≠ @nil Z) as Hdata by discriminate.
  split_and!; [exact Hdata|reflexivity|reflexivity|reflexivity|].
  apply (reply_array_extracted DemoCatalog.loads [7] text "Here you are: "
           "1, 2" " Anything else?" Hdata eq_refl eq_refl eq_refl).
Defined.

Lemma reply_without_array_witness :
  occurs "[" "I could not clean the data." = false
  ∧ DemoCatalog.clean [7] (Json.Reply_text "I could not clean the data.")
    = Json.JArr [].
Proof.
  split; [reflexivity|].
  apply (proj1 (reply_without_array DemoCatalog.loads [7]
                  "I could not clean the data." (or_introl eq_refl))).
Defined.

Lemma reply_brackets_inverted_witness :
  let text := "1, 2] and [" in
  DemoCatalog.loads EmptyString = None
  ∧ PyText.str_strip text = "1, 2" +:+ "]" +:+ " and " +:+ "[" +:+ EmptyString
  ∧ Json.json_array_text text = Some EmptyString
  ∧ DemoCatalog.clean [7] (Json.Reply_text text) = Json.JArr [].
Proof.
  intros text. split_and!; [reflexivity|reflexivity| |].
  - apply (proj1 (reply_brackets_inverted DemoCatalog.loads [7] text "1, 2"
                    " and " EmptyString eq_refl eq_refl eq_refl eq_refl
                    eq_refl eq_refl)).
  - apply (proj2 (reply_brackets_inverted DemoCatalog.loads [7] text "1, 2"
                    " and " EmptyString eq_refl eq_refl eq_refl eq_refl
                    eq_refl eq_refl)).
Defined.

Lemma cleaned_data_is_list_witness :
  DemoCatalog.loads EmptyString = None
  ∧ ∃ items, DemoCatalog.clean [7] (Json.Reply_text "[1, 2]")
             = Json.JArr items.
Proof.
  split; [reflexivity|].
  apply (cleaned_data_is_list DemoCatalog.loads eq_refl loads_array [7]
           (Json.Reply_text "[1, 2]")).
Defined.

Lemma saved_catalog_read_back_witness :
  let f' := (DemoCatalog.scrape_and_save [7] (Json.Reply_text "[1, 2]")
               "2026-01-05T08:00:00" Json.Write_ok Json.No_file).2 in
  DemoCatalog.loads EmptyString = None
  ∧ (f' = Json.No_file
     ∨ ∃ items,
         items ≠ []
         ∧ DemoCatalog.clean [7] (Json.Reply_text "[1, 2]")
           = Json.JArr items
         ∧ f' = Json.Json_file
                  (Json.JObj [("stocks", Json.JArr items);
                              ("timestamp",
                               Json.JStr "2026-01-05T08:00:00")])
         ∧ Json.get_current_stock_prices f' = inl (Json.JArr items)
         ∧ Json.load_stocks_data f' = (Json.JArr items, None)).
Proof.
  intros f'. split; [reflexivity|].
  apply (saved_catalog_read_back DemoCatalog.num_truth DemoCatalog.loads
           eq_refl loads_array [7] (Json.Reply_text "[1, 2]")
           "2026-01-05T08:00:00" Json.No_file).
Defined.

Lemma readers_compared_witness :
  let f := Json.Json_file (Json.JArr [Json.JNum 1; Json.JNum 2]) in
  Json.get_current_stock_prices f = inr Json.AttributeError
  ∧ Json.load_stocks_data f
    = (Json.JArr [Json.JNum 1; Json.JNum 2], None).
Proof.
  intros f.
  destruct (readers_compared f) as (Herror & v & Hfile & _ & Harray).
  split; [reflexivity|].
  apply Harray. by injection Hfile as <-.
Defined.
